(** * Sleep data harmonizer: ingestion pipeline, canonical store and adapters

    A shallow embedding of the Python sources
    - [sleep/domain/models.py]      (SleepDay, fingerprint, efficiency)
    - [sleep/domain/validation.py]  (the nine validation rules)
    - [sleep/adapters/oura_mapper.py], [sleep/adapters/withings_mapper.py]
    - [sleep/repository.py]         (upsert, timeline, provenance,
                                     idempotency claim and completion)
    - [sleep/pipeline.py]           (ingest_sleep_data, replay_from_raw,
                                     compute_request_hash)
    - [sleep/api.py]                (the ingest endpoint)
    followed by the properties proved about them.

    Conventions.  A Python [int] is a [Z]; a Python [float] is an IEEE-754
    binary64 value, computed with the bit-exact operations of
    [SpecFloat]; [None] and a JSON null are [JNull] (or [None] where the
    Python annotation is [T | None]); a raised exception is [None] in the
    option monad, except where the kind of exception decides the control
    flow (the [IntegrityError] of the store). *)

From Stdlib Require Import ZArith List Bool Ascii String Lia.
From Stdlib Require Import SpecFloat Sorted Permutation.
From stdpp Require Import base option list strings gmap.

Local Open Scope string_scope.
Local Open Scope Z_scope.
Local Open Scope list_scope.

(* ===================================================================== *)
(** ** Python values: JSON documents, truthiness, text helpers            *)
(* ===================================================================== *)

Module Py.

(** A decoded JSON document ([dict[str, Any]] and what it holds).  A
    [dict] keeps insertion order and is read with [dict_get]. *)
#[warnings="-register-all"]
Inductive json : Type :=
| JNull
| JBool (b : bool)
| JInt (n : Z)
| JFloat (f : spec_float)
| JStr (s : string)
| JArr (items : list json)
| JObj (fields : list (string * json)).

Abbreviation dict := (list (string * json)).

(** [d.get(k)]: the value, or [None] when the key is missing. *)
Fixpoint dict_get (k : string) (d : dict) : json :=
  match d with
  | [] => JNull
  | (k', v) :: rest => if String.eqb k k' then v else dict_get k rest
  end.

(** [k in d]. *)
Fixpoint dict_has (k : string) (d : dict) : bool :=
  match d with
  | [] => false
  | (k', _) :: rest => String.eqb k k' || dict_has k rest
  end.

(** [d.get(k, default)]. *)
Definition dict_get_default (k : string) (default : json) (d : dict) : json :=
  if dict_has k d then dict_get k d else default.

(** [d[k]]: raises [KeyError] when the key is missing. *)
Definition dict_item (k : string) (d : dict) : option json :=
  if dict_has k d then Some (dict_get k d) else None.

(** [bool(v)], as used by [if v], [a or b] and [a and b]. *)
Definition truthy (v : json) : bool :=
  match v with
  | JNull => false
  | JBool b => b
  | JInt n => negb (n =? 0)
  | JFloat (S754_zero _) => false
  | JFloat _ => true
  | JStr s => negb (String.eqb s "")
  | JArr l => match l with [] => false | _ => true end
  | JObj l => match l with [] => false | _ => true end
  end.

(** [a or b]. *)
Definition py_or (a b : json) : json := if truthy a then a else b.

(** [v == 0] for a JSON value ([False == 0] and [0.0 == 0] hold). *)
Definition eq_zero (v : json) : bool :=
  match v with
  | JInt n => n =? 0
  | JBool b => negb b
  | JFloat (S754_zero _) => true
  | _ => false
  end.

(** [v == s] for a string literal [s]. *)
Definition eq_str (v : json) (s : string) : bool :=
  match v with
  | JStr t => String.eqb t s
  | _ => false
  end.

(** [{k: v for k, v in d.items() if v is not None}]. *)
Definition drop_none (d : dict) : dict :=
  List.filter (fun kv => match snd kv with JNull => false | _ => true end) d.

(** [needle in hay] on strings. *)
Fixpoint contains (needle hay : string) : bool :=
  String.prefix needle hay ||
  match hay with
  | EmptyString => false
  | String _ rest => contains needle rest
  end.

(** One decimal digit as a character. *)
Definition digit_char (d : Z) : ascii :=
  ascii_of_nat (48 + Z.to_nat (d mod 10)).

(** [f"{n:0{w}d}"] for a non-negative [n] below [10^w]: exactly [w]
    digits, most significant first. *)
Fixpoint zero_pad (w : nat) (n : Z) : string :=
  match w with
  | O => ""
  | S w' => zero_pad w' (n / 10) +:+ String (digit_char n) ""
  end.

(** Number of decimal digits of a positive number, with fuel. *)
Fixpoint decimal_digits (fuel : nat) (n : Z) : string :=
  match fuel with
  | O => ""
  | S fuel' =>
      if n <? 10 then String (digit_char n) ""
      else decimal_digits fuel' (n / 10) +:+ String (digit_char n) ""
  end.

(** [str(n)] for an [int]. *)
Definition str_of_int (n : Z) : string :=
  if n <? 0 then "-" +:+ decimal_digits (S (Z.to_nat (Z.log2 (- n)))) (- n)
  else decimal_digits (S (Z.to_nat (Z.log2 n))) n.

(** Value of a decimal digit character. *)
Definition digit_value (c : ascii) : option Z :=
  let n := Z.of_nat (nat_of_ascii c) in
  if (48 <=? n) && (n <=? 57) then Some (n - 48) else None.

(** A run of decimal digits read as a number; [None] on any other
    character or on the empty string. *)
Fixpoint digits_value_from (acc : Z) (s : string) : option Z :=
  match s with
  | EmptyString => Some acc
  | String c rest =>
      match digit_value c with
      | Some d => digits_value_from (10 * acc + d) rest
      | None => None
      end
  end.

Definition digits_value (s : string) : option Z :=
  match s with
  | EmptyString => None
  | _ => digits_value_from 0 s
  end.

End Py.

(* ===================================================================== *)
(** ** IEEE-754 binary64 arithmetic, as CPython uses it                   *)
(* ===================================================================== *)

Module Float64.

Definition prec : Z := 53.
Definition emax : Z := 1024.

Abbreviation float := spec_float.

Definition is_finite (x : float) : bool :=
  match x with
  | S754_zero _ | S754_finite _ _ _ => true
  | _ => false
  end.

(** [float(n)] for an [int]: nearest double, ties to even;
    [OverflowError] when the magnitude is too large. *)
Definition of_int (n : Z) : option float :=
  let x := binary_normalize prec emax n 0 false in
  if is_finite x then Some x else None.

Definition mul : float -> float -> float := SFmul prec emax.
Definition div : float -> float -> float := SFdiv prec emax.
Definition ltb : float -> float -> bool := SFltb.
Definition leb : float -> float -> bool := SFleb.

(** The literals of the sources, by their bit patterns. *)
Definition f_0_0 : float := S754_zero false.
Definition f_1_0 : float := S754_finite false 4503599627370496 (-52).
Definition f_1_05 : float := S754_finite false 4728779608739021 (-52).
Definition f_100_0 : float := S754_finite false 7036874417766400 (-46).
Definition f_0_88 : float := S754_finite false 7926335344172073 (-53).
Definition f_88_12345 : float := S754_finite false 6201136509103165 (-46).
Definition f_0_8812 : float := S754_finite false 7937143983277762 (-53).

(** Exact three-way comparison of an [int] with a [float] (CPython
    compares the mathematical values); [None] for a NaN. *)
Definition compare_int (n : Z) (x : float) : option comparison :=
  match x with
  | S754_zero _ => Some (n ?= 0)
  | S754_infinity s => Some (if s then Gt else Lt)
  | S754_nan => None
  | S754_finite s m e =>
      let v := cond_Zopp s (Zpos m) in
      if 0 <=? e then Some (n ?= v * 2 ^ e)
      else Some (n * 2 ^ (- e) ?= v)
  end.

(** [n > x] for an [int] [n] and a [float] [x]. *)
Definition int_gt (n : Z) (x : float) : bool :=
  match compare_int n x with
  | Some Gt => true
  | _ => false
  end.

(** [n * x] for an [int] [n] and a [float] [x]. *)
Definition int_mul (n : Z) (x : float) : option float :=
  match of_int n with
  | Some fn => Some (mul fn x)
  | None => None
  end.

(** [n / x] for an [int] [n] and a non-zero [float] [x]. *)
Definition int_truediv (n : Z) (x : float) : option float :=
  match of_int n with
  | Some fn => Some (div fn x)
  | None => None
  end.

(** Nearest integer to [p / q] ([q > 0]), ties to the even one. *)
Definition round_half_even (p q : Z) : Z :=
  let fl := p / q in
  let r := p mod q in
  match 2 * r ?= q with
  | Lt => fl
  | Gt => fl + 1
  | Eq => if Z.even fl then fl else fl + 1
  end.

(** The double nearest to [k / scale] for two positive [int]s, ties to
    even; the operands are taken exactly, whatever their size.  With
    [scale = 10^ndigits] this is what [strtod] makes of the decimal
    [k]e-[ndigits]. *)
Definition of_decimal (s : bool) (k scale : Z) : float :=
  match k, scale with
  | Zpos k', Zpos scale' => div (S754_finite s k' 0) (S754_finite false scale' 0)
  | _, _ => S754_zero s
  end.

(** [round(x, ndigits)] for [0 <= ndigits] (CPython's [double_round]):
    the exact binary value is rounded to [ndigits] decimals, ties to
    even, and the decimal result is converted back to the nearest
    double; a NaN or an infinity rounds to itself. *)
Definition py_round (x : float) (ndigits : Z) : float :=
  match x with
  | S754_finite s m e =>
      let scale := 10 ^ ndigits in
      let k :=
        if 0 <=? e then Zpos m * 2 ^ e * scale
        else round_half_even (Zpos m * scale) (2 ^ (- e)) in
      of_decimal s k scale
  | _ => x
  end.

Definition f_0_5 : float := S754_finite false 4503599627370496 (-53).

Definition sub : float -> float -> float := SFsub prec emax.
Definition add : float -> float -> float := SFadd prec emax.

Definition is_zero (x : float) : bool :=
  match x with S754_zero _ => true | _ => false end.

Definition sign_bit (x : float) : bool :=
  match x with
  | S754_zero s | S754_infinity s | S754_finite s _ _ => s
  | S754_nan => false
  end.

(** C's [fmod]: exact remainder, with the sign of the dividend. *)
Definition fmod (x y : float) : float :=
  match x, y with
  | S754_nan, _ | _, S754_nan => S754_nan
  | S754_infinity _, _ | _, S754_zero _ => S754_nan
  | _, S754_infinity _ => x
  | S754_zero _, _ => x
  | S754_finite sx mx ex, S754_finite _ my ey =>
      let e0 := Z.min ex ey in
      let r := (Zpos mx * 2 ^ (ex - e0)) mod (Zpos my * 2 ^ (ey - e0)) in
      binary_normalize prec emax (cond_Zopp sx r) e0 sx
  end.

(** C's [floor]. *)
Definition floor (x : float) : float :=
  match x with
  | S754_finite s m e =>
      if 0 <=? e then x
      else binary_normalize prec emax (cond_Zopp s (Zpos m) / 2 ^ (- e)) 0 s
  | _ => x
  end.

(** [x // y] on floats (CPython's [float_divmod]); [ZeroDivisionError]
    for a zero divisor. *)
Definition floordiv (x y : float) : option float :=
  if is_zero y then None
  else
    let md := fmod x y in
    let dv := div (sub x md) y in
    let dv :=
      if negb (is_zero md) && negb (SFeqb md S754_nan)
         && negb (Bool.eqb (ltb y f_0_0) (ltb md f_0_0))
      then sub dv f_1_0 else dv in
    if is_zero dv then
      Some (S754_zero (sign_bit (div x y)))
    else
      let fl := floor dv in
      Some (if ltb f_0_5 (sub dv fl) then add fl f_1_0 else fl).

(** The [int] a float holds, when it is finite and has no fractional
    part (what an [int] field accepts from a float). *)
Definition to_int_exact (x : float) : option Z :=
  match x with
  | S754_zero _ => Some 0
  | S754_finite s m e =>
      if 0 <=? e then Some (cond_Zopp s (Zpos m * 2 ^ e))
      else if Zpos m mod 2 ^ (- e) =? 0
           then Some (cond_Zopp s (Zpos m / 2 ^ (- e)))
           else None
  | _ => None
  end.

End Float64.

(* ===================================================================== *)
(** ** SHA-256 (hashlib.sha256), FIPS 180-4                               *)
(* ===================================================================== *)

Module Sha256.

Definition add32 (a b : Z) : Z := (a + b) mod 2 ^ 32.

Definition rotr (n x : Z) : Z :=
  Z.lor (Z.shiftr x n) (Z.shiftl x (32 - n)) mod 2 ^ 32.

Definition not32 (x : Z) : Z := Z.lxor x 4294967295.

Definition ch (x y z : Z) : Z := Z.lxor (Z.land x y) (Z.land (not32 x) z).

Definition maj (x y z : Z) : Z :=
  Z.lxor (Z.lxor (Z.land x y) (Z.land x z)) (Z.land y z).

Definition bsig0 (x : Z) : Z :=
  Z.lxor (Z.lxor (rotr 2 x) (rotr 13 x)) (rotr 22 x).
Definition bsig1 (x : Z) : Z :=
  Z.lxor (Z.lxor (rotr 6 x) (rotr 11 x)) (rotr 25 x).
Definition ssig0 (x : Z) : Z :=
  Z.lxor (Z.lxor (rotr 7 x) (rotr 18 x)) (Z.shiftr x 3).
Definition ssig1 (x : Z) : Z :=
  Z.lxor (Z.lxor (rotr 17 x) (rotr 19 x)) (Z.shiftr x 10).

Definition K : list Z :=
  [
    1116352408; 1899447441; 3049323471; 3921009573; 961987163; 1508970993;
    2453635748; 2870763221; 3624381080; 310598401; 607225278; 1426881987;
    1925078388; 2162078206; 2614888103; 3248222580; 3835390401; 4022224774;
    264347078; 604807628; 770255983; 1249150122; 1555081692; 1996064986;
    2554220882; 2821834349; 2952996808; 3210313671; 3336571891; 3584528711;
    113926993; 338241895; 666307205; 773529912; 1294757372; 1396182291;
    1695183700; 1986661051; 2177026350; 2456956037; 2730485921; 2820302411;
    3259730800; 3345764771; 3516065817; 3600352804; 4094571909; 275423344;
    430227734; 506948616; 659060556; 883997877; 958139571; 1322822218;
    1537002063; 1747873779; 1955562222; 2024104815; 2227730452; 2361852424;
    2428436474; 2756734187; 3204031479; 3329325298 ].

(** The eight working words. *)
Record state := State {
  h0 : Z; h1 : Z; h2 : Z; h3 : Z; h4 : Z; h5 : Z; h6 : Z; h7 : Z }.

Definition H0 : state :=
  State 0x6a09e667 0xbb67ae85 0x3c6ef372 0xa54ff53a
        0x510e527f 0x9b05688c 0x1f83d9ab 0x5be0cd19.

(** Message padding: a 1 bit, zeros up to 56 mod 64, the bit length on
    eight bytes, big endian. *)
Definition be_bytes (width : nat) (n : Z) : list Z :=
  map (fun i => Z.shiftr n (8 * Z.of_nat i) mod 256) (rev (seq 0 width)).

Definition pad (msg : list Z) : list Z :=
  let len := Z.of_nat (length msg) in
  msg ++ [128] ++ repeat 0 (Z.to_nat ((55 - len) mod 64))
      ++ be_bytes 8 (8 * len).

Fixpoint be_words (bytes : list Z) : list Z :=
  match bytes with
  | b0 :: b1 :: b2 :: b3 :: rest =>
      (((b0 * 256 + b1) * 256 + b2) * 256 + b3) :: be_words rest
  | _ => []
  end.

Fixpoint chunks (fuel : nat) (words : list Z) : list (list Z) :=
  match fuel, words with
  | S fuel', _ :: _ => firstn 16 words :: chunks fuel' (skipn 16 words)
  | _, _ => []
  end.

(** Message schedule: the sixteen words of the block extended to
    sixty-four. *)
Fixpoint schedule (n : nat) (w : list Z) : list Z :=
  match n with
  | O => w
  | S n' =>
      let t := length w in
      let at_ (k : nat) := nth (t - k) w 0 in
      schedule n'
        (w ++ [add32 (add32 (add32 (ssig1 (at_ 2%nat)) (at_ 7%nat))
                            (ssig0 (at_ 15%nat))) (at_ 16%nat)])
  end.

Definition round (s : state) (kw : Z * Z) : state :=
  let t1 := add32 (add32 (add32 (add32 (h7 s) (bsig1 (h4 s)))
                                (ch (h4 s) (h5 s) (h6 s))) (fst kw)) (snd kw) in
  let t2 := add32 (bsig0 (h0 s)) (maj (h0 s) (h1 s) (h2 s)) in
  State (add32 t1 t2) (h0 s) (h1 s) (h2 s)
        (add32 (h3 s) t1) (h4 s) (h5 s) (h6 s).

Definition compress (s : state) (block : list Z) : state :=
  let s' := fold_left round (combine K (schedule 48 block)) s in
  State (add32 (h0 s) (h0 s')) (add32 (h1 s) (h1 s'))
        (add32 (h2 s) (h2 s')) (add32 (h3 s) (h3 s'))
        (add32 (h4 s) (h4 s')) (add32 (h5 s) (h5 s'))
        (add32 (h6 s) (h6 s')) (add32 (h7 s) (h7 s')).

Definition digest (msg : list Z) : state :=
  let words := be_words (pad msg) in
  fold_left compress (chunks (length words) words) H0.

Definition hex_char (n : Z) : ascii :=
  let d := n mod 16 in
  if d <? 10 then ascii_of_nat (48 + Z.to_nat d)
  else ascii_of_nat (87 + Z.to_nat d).

(** Eight lower-case hexadecimal digits of a word. *)
Definition hex8 (w : Z) : string :=
  string_of_list_ascii
    (map (fun i => hex_char (Z.shiftr w (4 * Z.of_nat i))) (rev (seq 0 8))).

Definition hex_of_state (s : state) : string :=
  hex8 (h0 s) +:+ hex8 (h1 s) +:+ hex8 (h2 s) +:+ hex8 (h3 s) +:+
  hex8 (h4 s) +:+ hex8 (h5 s) +:+ hex8 (h6 s) +:+ hex8 (h7 s).

(** [s.encode()]: the bytes of the text. *)
Definition encode (s : string) : list Z :=
  map (fun c => Z.of_nat (nat_of_ascii c)) (list_ascii_of_string s).

(** [hashlib.sha256(s.encode()).hexdigest()]. *)
Definition hexdigest (s : string) : string := hex_of_state (digest (encode s)).

End Sha256.

(* ===================================================================== *)
(** ** Dates, instants and identifiers (datetime, uuid)                   *)
(* ===================================================================== *)

Module datetime.

(** [datetime.date]. *)
Record date := Date { year : Z; month : Z; day : Z }.

Definition is_leap (y : Z) : bool :=
  (y mod 4 =? 0) && (negb (y mod 100 =? 0) || (y mod 400 =? 0)).

Definition days_in_month (y m : Z) : Z :=
  if m =? 2 then (if is_leap y then 29 else 28)
  else if (m =? 4) || (m =? 6) || (m =? 9) || (m =? 11) then 30
  else 31.

(** The dates [date(y, m, d)] accepts. *)
Definition date_valid (d : date) : bool :=
  (1 <=? year d) && (year d <=? 9999) &&
  (1 <=? month d) && (month d <=? 12) &&
  (1 <=? day d) && (day d <=? days_in_month (year d) (month d)).

Definition date_compare (a b : date) : comparison :=
  match year a ?= year b with
  | Eq => match month a ?= month b with
          | Eq => day a ?= day b
          | c => c
          end
  | c => c
  end.

Definition date_ltb (a b : date) : bool :=
  match date_compare a b with Lt => true | _ => false end.
Definition date_leb (a b : date) : bool :=
  match date_compare a b with Gt => false | _ => true end.
Definition date_eqb (a b : date) : bool :=
  match date_compare a b with Eq => true | _ => false end.

(** [d.isoformat()]: YYYY-MM-DD. *)
Definition isoformat (d : date) : string :=
  Py.zero_pad 4 (year d) +:+ "-" +:+ Py.zero_pad 2 (month d) +:+ "-" +:+
  Py.zero_pad 2 (day d).

(** [date.fromisoformat(s)] on the extended calendar form YYYY-MM-DD,
    the form both vendors send; [ValueError] otherwise.  (CPython also
    reads the basic form YYYYMMDD and ISO week dates; those are not part
    of this model and are rejected here.) *)
Definition date_fromisoformat (s : string) : option date :=
  if negb (Nat.eqb (String.length s) 10) then None
  else if negb (String.eqb (String.substring 4 1 s) "-"
                && String.eqb (String.substring 7 1 s) "-") then None
  else
    y ← Py.digits_value (String.substring 0 4 s);
    m ← Py.digits_value (String.substring 5 2 s);
    d ← Py.digits_value (String.substring 8 2 s);
    let r := Date y m d in
    if date_valid r then Some r else None.

(** Days before the first of month [m] in year [y]. *)
Fixpoint days_before_month (y : Z) (m : nat) : Z :=
  match m with
  | O => 0
  | S m' => days_before_month y m' + days_in_month y (Z.of_nat m)
  end.

(** [d.toordinal()]: 1 for 0001-01-01. *)
Definition toordinal (d : date) : Z :=
  let y := year d - 1 in
  y * 365 + y / 4 - y / 100 + y / 400
  + days_before_month (year d) (Z.to_nat (month d) - 1) + day d.

(** [tzinfo]: a fixed offset ([timezone.utc] is offset 0) or an IANA
    zone. *)
Inductive tzinfo :=
| FixedOffset (seconds : Z)
| ZoneInfo (key : string).

Definition UTC : tzinfo := FixedOffset 0.

(** [datetime.datetime], to the second.  An aware value is kept as its
    POSIX instant together with its zone; a naive one as the seconds its
    wall-clock reading lies after 1970-01-01T00:00:00. *)
Record datetime := DateTime { instant : Z; tz : option tzinfo }.

Definition two_digits (s : string) (lo hi : Z) : option Z :=
  if negb (Nat.eqb (String.length s) 2) then None
  else
    n ← Py.digits_value s;
    if (lo <=? n) && (n <=? hi) then Some n else None.

(** [datetime.fromisoformat(s)] on the forms YYYY-MM-DDTHH:MM:SS and
    YYYY-MM-DDTHH:MM:SS+HH:MM (or -HH:MM); [ValueError] otherwise.
    (CPython reads more variants, such as fractional seconds; they are
    rejected here.) *)
Definition datetime_fromisoformat (s : string) : option datetime :=
  let n := String.length s in
  if negb (Nat.eqb n 19 || Nat.eqb n 25) then None
  else
    d ← date_fromisoformat (String.substring 0 10 s);
    if negb (String.eqb (String.substring 10 1 s) "T"
             && String.eqb (String.substring 13 1 s) ":"
             && String.eqb (String.substring 16 1 s) ":") then None
    else
      hh ← two_digits (String.substring 11 2 s) 0 23;
      mm ← two_digits (String.substring 14 2 s) 0 59;
      ss ← two_digits (String.substring 17 2 s) 0 59;
      let wall := (toordinal d - 719163) * 86400 + hh * 3600 + mm * 60 + ss in
      if Nat.eqb n 19 then Some (DateTime wall None)
      else
        let sign := String.substring 19 1 s in
        if negb (String.eqb (String.substring 22 1 s) ":") then None
        else
          oh ← two_digits (String.substring 20 2 s) 0 23;
          om ← two_digits (String.substring 23 2 s) 0 59;
          let off := oh * 3600 + om * 60 in
          if String.eqb sign "+" then
            Some (DateTime (wall - off) (Some (FixedOffset off)))
          else if String.eqb sign "-" then
            Some (DateTime (wall + off) (Some (FixedOffset (- off))))
          else None.

(** [a >= b] for two aware values: the instants decide.  (Python
    compares two values that share one [tzinfo] object, such as the two
    timestamps of a Withings entry with a zone, by their wall-clock
    readings; that differs from the order of the instants only across a
    change of the zone's offset, which this model, being without the
    zone database, does not follow.) *)
Definition aware_geb (a b : datetime) : bool := instant b <=? instant a.

End datetime.

Module uuid.

(** A UUID is its 128-bit number. *)
Definition UUID := Z.

Definition hex_digits (width : nat) (n : Z) : string :=
  string_of_list_ascii
    (map (fun i => Sha256.hex_char (Z.shiftr n (4 * Z.of_nat i)))
         (rev (seq 0 width))).

(** [str(u)]: 8-4-4-4-12 lower-case hexadecimal digits. *)
Definition str (u : UUID) : string :=
  hex_digits 8 (Z.shiftr u 96) +:+ "-" +:+ hex_digits 4 (Z.shiftr u 80) +:+ "-" +:+
  hex_digits 4 (Z.shiftr u 64) +:+ "-" +:+ hex_digits 4 (Z.shiftr u 48) +:+ "-" +:+
  hex_digits 12 u.

End uuid.

(* ===================================================================== *)
(** ** sleep/domain/models.py                                             *)
(* ===================================================================== *)

Module models.
Import Py.

Inductive SleepSource := OURA | WITHINGS.

Definition value (s : SleepSource) : string :=
  match s with
  | OURA => "oura"
  | WITHINGS => "withings"
  end.

(** Canonical representation of one night's sleep. *)
Record SleepDay := {
  id : uuid.UUID;
  patient_id : uuid.UUID;
  source : SleepSource;
  source_record_id : string;
  raw_payload : dict;
  fingerprint : string;
  effective_date : datetime.date;
  ingested_at : datetime.datetime;
  updated_at : datetime.datetime;
  total_sleep_minutes : option Z;
  deep_sleep_minutes : option Z;
  light_sleep_minutes : option Z;
  rem_sleep_minutes : option Z;
  awake_minutes : option Z;
  sleep_onset : option datetime.datetime;
  sleep_offset : option datetime.datetime;
  sleep_efficiency : option Float64.float;
  extra : dict
}.

(** [SleepDay.compute_fingerprint]. *)
Definition fingerprint_input (source : SleepSource) (source_record_id : string)
    (effective_date : datetime.date) : string :=
  value source +:+ ":" +:+ source_record_id +:+ ":" +:+
  datetime.isoformat effective_date.

Definition compute_fingerprint (source : SleepSource) (source_record_id : string)
    (effective_date : datetime.date) : string :=
  Sha256.hexdigest (fingerprint_input source source_record_id effective_date).

(** [SleepDay.normalize_efficiency], the "before" validator of
    [sleep_efficiency]: [None] stays, a number above 1.0 is taken as a
    percentage, anything else goes through [float(v)].  ([float(v)] of a
    string is not modelled and is rejected like the other non-numbers.) *)
Definition normalize_efficiency (v : json) : option (option Float64.float) :=
  match v with
  | JNull => Some None
  | JInt n =>
      if Float64.int_gt n Float64.f_1_0 then
        q ← Float64.int_truediv n Float64.f_100_0;
        Some (Some (Float64.py_round q 4))
      else x ← Float64.of_int n; Some (Some x)
  | JBool b => x ← Float64.of_int (Z.b2z b); Some (Some x)
  | JFloat x =>
      if Float64.ltb Float64.f_1_0 x then
        Some (Some (Float64.py_round (Float64.div x Float64.f_100_0) 4))
      else Some (Some x)
  | _ => None
  end.

(** The field [sleep_efficiency: float | None = Field(None, ge=0.0,
    le=1.0)] with its validator. *)
Definition efficiency_field (v : json) : option (option Float64.float) :=
  e ← normalize_efficiency v;
  match e with
  | None => Some None
  | Some x =>
      if Float64.leb Float64.f_0_0 x && Float64.leb x Float64.f_1_0
      then Some (Some x) else None
  end.

(** A field [int | None = Field(None, ge=0)]: an [int], or a float
    without fractional part, that is not negative. *)
Definition minutes_field (v : json) : option (option Z) :=
  match v with
  | JNull => Some None
  | JInt n => if 0 <=? n then Some (Some n) else None
  | JBool b => Some (Some (Z.b2z b))
  | JFloat x =>
      n ← Float64.to_int_exact x;
      if 0 <=? n then Some (Some n) else None
  | _ => None
  end.

(** A field [str]. *)
Definition str_field (v : json) : option string :=
  match v with
  | JStr s => Some s
  | _ => None
  end.

(** [SleepDay(...)] as the mappers call it: every argument is checked
    by its field; a rejected one raises [ValidationError]. *)
Definition SleepDay_init (id patient_id : uuid.UUID) (source : SleepSource)
    (source_record_id : json) (effective_date : datetime.date)
    (fingerprint : string) (raw_payload : dict)
    (ingested_at updated_at : datetime.datetime)
    (total deep light rem awake : json)
    (sleep_onset sleep_offset : option datetime.datetime)
    (sleep_efficiency : json) (extra : dict) : option SleepDay :=
  rid ← str_field source_record_id;
  total' ← minutes_field total;
  deep' ← minutes_field deep;
  light' ← minutes_field light;
  rem' ← minutes_field rem;
  awake' ← minutes_field awake;
  eff' ← efficiency_field sleep_efficiency;
  Some {| id := id; patient_id := patient_id; source := source;
          source_record_id := rid; raw_payload := raw_payload;
          fingerprint := fingerprint; effective_date := effective_date;
          ingested_at := ingested_at; updated_at := updated_at;
          total_sleep_minutes := total'; deep_sleep_minutes := deep';
          light_sleep_minutes := light'; rem_sleep_minutes := rem';
          awake_minutes := awake';
          sleep_onset := sleep_onset; sleep_offset := sleep_offset;
          sleep_efficiency := eff'; extra := extra |}.

End models.

(* ===================================================================== *)
(** ** sleep/domain/validation.py                                         *)
(* ===================================================================== *)

Module validation.
Import Py.

(** The record handed to [validate_sleep_record]: the canonical fields
    the nine rules read, each possibly [None]. *)
Record record := {
  effective_date : option datetime.date;
  total_sleep_minutes : option Z;
  deep_sleep_minutes : option Z;
  light_sleep_minutes : option Z;
  rem_sleep_minutes : option Z;
  awake_minutes : option Z;
  sleep_efficiency : option Float64.float;
  sleep_onset : option datetime.datetime;
  sleep_offset : option datetime.datetime;
  source : option string
}.

(** What a violation carries in [value]. *)
Inductive error_value :=
| ev_none
| ev_int (n : Z)
| ev_float (x : Float64.float)
| ev_str (s : string)
| ev_str_of (ts : datetime.datetime)
| ev_stage_sum (stage_sum total : Z)
| ev_window (onset offset : datetime.datetime).

Record ValidationError := {
  field : string;
  rule : string;
  reason : string;
  value : error_value
}.

Definition ALLOWED_SOURCES : list string := ["oura"; "withings"].
Definition _MAX_DAILY_MINUTES : Z := 1440.
Definition _STAGE_SUM_TOLERANCE : Float64.float := Float64.f_1_05.

Definition rule1 (r : record) : list ValidationError :=
  match effective_date r with
  | None => [Build_ValidationError "effective_date" "required"
               "missing_effective_date" ev_none]
  | Some _ => []
  end.

Definition rule2 (r : record) : list ValidationError :=
  match total_sleep_minutes r with
  | Some total =>
      if (total <? 0) || (_MAX_DAILY_MINUTES <? total)
      then [Build_ValidationError "total_sleep_minutes" "range"
              "sleep_duration_out_of_range" (ev_int total)]
      else []
  | None => []
  end.

Definition rule3_field (name : string) (v : option Z) : list ValidationError :=
  match v with
  | Some val =>
      if val <? 0
      then [Build_ValidationError name "non_negative" "negative_sleep_stage"
              (ev_int val)]
      else []
  | None => []
  end.

Definition rule3 (r : record) : list ValidationError :=
  rule3_field "deep_sleep_minutes" (deep_sleep_minutes r) ++
  rule3_field "light_sleep_minutes" (light_sleep_minutes r) ++
  rule3_field "rem_sleep_minutes" (rem_sleep_minutes r) ++
  rule3_field "awake_minutes" (awake_minutes r).

(** [record.get(f, 0) or 0]. *)
Definition stage_or_zero (v : option Z) : Z :=
  match v with
  | Some n => n
  | None => 0
  end.

Definition stage_sum (r : record) : Z :=
  stage_or_zero (deep_sleep_minutes r) + stage_or_zero (light_sleep_minutes r)
  + stage_or_zero (rem_sleep_minutes r) + stage_or_zero (awake_minutes r).

(** Rule 4; [None] when [total * 1.05] overflows. *)
Definition rule4 (r : record) : option (list ValidationError) :=
  match total_sleep_minutes r with
  | Some total =>
      bound ← Float64.int_mul total _STAGE_SUM_TOLERANCE;
      if Float64.int_gt (stage_sum r) bound
      then Some [Build_ValidationError "stage_sum" "consistency"
                   "stage_sum_exceeds_total" (ev_stage_sum (stage_sum r) total)]
      else Some []
  | None => Some []
  end.

Definition rule5 (today : datetime.date) (r : record) : list ValidationError :=
  match effective_date r with
  | Some eff =>
      if datetime.date_ltb today eff
      then [Build_ValidationError "effective_date" "no_future" "future_date"
              (ev_str (datetime.isoformat eff))]
      else []
  | None => []
  end.

Definition rule6 (r : record) : list ValidationError :=
  match sleep_efficiency r with
  | Some efficiency =>
      if Float64.ltb efficiency Float64.f_0_0
         || Float64.ltb Float64.f_1_0 efficiency
      then [Build_ValidationError "sleep_efficiency" "range"
              "efficiency_out_of_range" (ev_float efficiency)]
      else []
  | None => []
  end.

Definition rule7_field (name : string) (v : option datetime.datetime)
    : list ValidationError :=
  match v with
  | Some ts =>
      match datetime.tz ts with
      | None => [Build_ValidationError name "timezone" "missing_timezone"
                   (ev_str_of ts)]
      | Some _ => []
      end
  | None => []
  end.

Definition rule7 (r : record) : list ValidationError :=
  rule7_field "sleep_onset" (sleep_onset r) ++
  rule7_field "sleep_offset" (sleep_offset r).

Definition rule8 (r : record) : list ValidationError :=
  match source r with
  | Some source_val =>
      if String.eqb source_val "" then []
      else if existsb (String.eqb source_val) ALLOWED_SOURCES then []
      else [Build_ValidationError "source" "known_source" "unknown_source"
              (ev_str source_val)]
  | None => []
  end.

Definition rule9 (r : record) : list ValidationError :=
  match sleep_onset r, sleep_offset r with
  | Some onset, Some offset =>
      match datetime.tz onset, datetime.tz offset with
      | Some _, Some _ =>
          if datetime.aware_geb onset offset
          then [Build_ValidationError "sleep_onset" "ordering"
                  "bedtime_order_invalid" (ev_window onset offset)]
          else []
      | _, _ => []
      end
  | _, _ => []
  end.

(** [validate_sleep_record]: every violation, in rule order; [today]
    is [date.today()]. *)
Definition validate_sleep_record (today : datetime.date) (r : record)
    : option (list ValidationError) :=
  e4 ← rule4 r;
  Some (rule1 r ++ rule2 r ++ rule3 r ++ e4 ++ rule5 today r ++ rule6 r
        ++ rule7 r ++ rule8 r ++ rule9 r).

(** [sleep_day.model_dump()], restricted to the fields the rules read. *)
Definition model_dump (d : models.SleepDay) : record :=
  {| effective_date := Some (models.effective_date d);
     total_sleep_minutes := models.total_sleep_minutes d;
     deep_sleep_minutes := models.deep_sleep_minutes d;
     light_sleep_minutes := models.light_sleep_minutes d;
     rem_sleep_minutes := models.rem_sleep_minutes d;
     awake_minutes := models.awake_minutes d;
     sleep_efficiency := models.sleep_efficiency d;
     sleep_onset := models.sleep_onset d;
     sleep_offset := models.sleep_offset d;
     source := Some (models.value (models.source d)) |}.

End validation.

(* ===================================================================== *)
(** ** sleep/adapters: the two vendor mappers and the factory             *)
(* ===================================================================== *)

(** What the interpreter's libraries supply to the mappers: the keys of
    the installed IANA time-zone database ([ZoneInfo(key)] raises on any
    other key) and [json.loads] ([None] for [JSONDecodeError]). *)
Record Runtime := {
  zoneinfo_keys : list string;
  json_loads : string -> option Py.json
}.

Module adapters.
Import Py.

Definition f_60_0 : Float64.float := S754_finite false 8444249301319680 (-47).

(** [_sec_to_min]: [seconds // 60], [None] passing through.  A JSON
    boolean is an [int]; a string, list or object operand raises
    [TypeError]. *)
Definition _sec_to_min (seconds : json) : option json :=
  match seconds with
  | JNull => Some JNull
  | JInt n => Some (JInt (n / 60))
  | JBool b => Some (JInt (Z.b2z b / 60))
  | JFloat x => q ← Float64.floordiv x f_60_0; Some (JFloat q)
  | _ => None
  end.

(** [_pct_to_ratio]: [round(pct / 100.0, 4)], [None] passing through. *)
Definition _pct_to_ratio (pct : json) : option json :=
  match pct with
  | JNull => Some JNull
  | JInt n =>
      q ← Float64.int_truediv n Float64.f_100_0;
      Some (JFloat (Float64.py_round q 4))
  | JBool b =>
      q ← Float64.int_truediv (Z.b2z b) Float64.f_100_0;
      Some (JFloat (Float64.py_round q 4))
  | JFloat x => Some (JFloat (Float64.py_round (Float64.div x Float64.f_100_0) 4))
  | _ => None
  end.

(** [_parse_iso]: [datetime.fromisoformat(s) if s else None]. *)
Definition _parse_iso (iso_str : json) : option (option datetime.datetime) :=
  if truthy iso_str then
    match iso_str with
    | JStr s => dt ← datetime.datetime_fromisoformat s; Some (Some dt)
    | _ => None
    end
  else Some None.

(** [for entry in v]: the items of a list, the keys of a dict, the
    characters of a string; [TypeError] for anything else. *)
Definition iterate (v : json) : option (list json) :=
  match v with
  | JArr items => Some items
  | JObj fields => Some (map (fun kv => JStr (fst kv)) fields)
  | JStr s => Some (map (fun c => JStr (String c "")) (list_ascii_of_string s))
  | _ => None
  end.

(** [date.fromisoformat(v)]. *)
Definition parse_day (v : json) : option datetime.date :=
  match v with
  | JStr s => datetime.date_fromisoformat s
  | _ => None
  end.

(** The dictionary comprehension building [extra]: the values are
    computed in order (any may raise), then the [None] ones are dropped. *)
Fixpoint build_extra (items : list (string * option json)) : option dict :=
  match items with
  | [] => Some []
  | (k, v) :: rest =>
      v' ← v;
      rest' ← build_extra rest;
      Some (match v' with
            | JNull => rest'
            | _ => (k, v') :: rest'
            end)
  end.

(** One iteration of [OuraMapper.parse]: [None] when it raises,
    [Some None] when the entry is filtered out ([continue]),
    [Some (Some d)] when a record is appended.  [new_id] is the value
    [uuid4()] returns for the record and [now] is [datetime.now(UTC)]. *)
Definition oura_entry (patient_id new_id : uuid.UUID) (now : Z) (entry : json)
    : option (option models.SleepDay) :=
  match entry with
  | JObj e =>
      if negb (eq_str (dict_get "type" e) "long_sleep") then Some None
      else if negb (eq_zero (dict_get_default "period" (JInt 0) e)) then Some None
      else
        day ← dict_item "day" e;
        effective ← parse_day day;
        source_id ← dict_item "id" e;
        let now_dt := datetime.DateTime now (Some datetime.UTC) in
        extra ← build_extra
          [ ("time_in_bed_minutes", _sec_to_min (dict_get "time_in_bed" e));
            ("latency_minutes", _sec_to_min (dict_get "latency" e));
            ("avg_hr_bpm", Some (dict_get "average_heart_rate" e));
            ("avg_hrv_ms", Some (dict_get "average_hrv" e));
            ("avg_breath_rate", Some (dict_get "average_breath" e));
            ("lowest_hr_bpm", Some (dict_get "lowest_heart_rate" e));
            ("restless_periods", Some (dict_get "restless_periods" e));
            ("sleep_type", Some (dict_get "type" e));
            ("sleep_phase_5_min", Some (dict_get "sleep_phase_5_min" e));
            ("movement_30_sec", Some (dict_get "movement_30_sec" e));
            ("readiness", Some (dict_get "readiness" e));
            ("readiness_score_delta", Some (dict_get "readiness_score_delta" e));
            ("sleep_score_delta", Some (dict_get "sleep_score_delta" e));
            ("sleep_algorithm_version", Some (dict_get "sleep_algorithm_version" e));
            ("sleep_analysis_reason", Some (dict_get "sleep_analysis_reason" e)) ];
        rid ← models.str_field source_id;
        total ← _sec_to_min (dict_get "total_sleep_duration" e);
        deep ← _sec_to_min (dict_get "deep_sleep_duration" e);
        light ← _sec_to_min (dict_get "light_sleep_duration" e);
        rem ← _sec_to_min (dict_get "rem_sleep_duration" e);
        awake ← _sec_to_min (dict_get "awake_time" e);
        onset ← _parse_iso (dict_get "bedtime_start" e);
        offset ← _parse_iso (dict_get "bedtime_end" e);
        efficiency ← _pct_to_ratio (dict_get "efficiency" e);
        d ← models.SleepDay_init new_id patient_id models.OURA source_id effective
              (models.compute_fingerprint models.OURA rid effective)
              e now_dt now_dt total deep light rem awake onset offset
              efficiency extra;
        Some (Some d)
  | _ => None
  end.

(** The loop of a mapper over its entries; the records take the
    identifiers [next_id], [next_id + 1], ... in order. *)
Fixpoint map_entries
    (one : uuid.UUID -> json -> option (option models.SleepDay))
    (next_id : uuid.UUID) (entries : list json) : option (list models.SleepDay) :=
  match entries with
  | [] => Some []
  | entry :: rest =>
      r ← one next_id entry;
      match r with
      | None => map_entries one next_id rest
      | Some d => ds ← map_entries one (next_id + 1) rest; Some (d :: ds)
      end
  end.

(** [OuraMapper.parse]. *)
Definition oura_parse (raw_response : dict) (patient_id next_id : uuid.UUID)
    (now : Z) : option (list models.SleepDay) :=
  records ← iterate (dict_get_default "data" (JArr []) raw_response);
  map_entries (fun i => oura_entry patient_id i now) next_id records.

(** [_unix_to_dt]: the instant [ts] in zone [tz], in UTC without one.
    Instants outside the years 1 to 9999 raise; a timestamp that is not
    an integer number of seconds is not modelled and is rejected. *)
Definition _unix_to_dt (ts : json) (tz : option datetime.tzinfo)
    : option (option datetime.datetime) :=
  let at_ (n : Z) :=
    if (-62135596800 <=? n) && (n <=? 253402300799)
    then Some (Some (datetime.DateTime n
                       (Some (match tz with
                              | Some z => z
                              | None => datetime.UTC
                              end))))
    else None in
  match ts with
  | JNull => Some None
  | JInt n => at_ n
  | JBool b => at_ (Z.b2z b)
  | _ => None
  end.

(** [str(v)] and [f"{v}"] for the values an identifier or a timestamp
    takes; the text of a float, a list or an object is not modelled. *)
Definition py_str (v : json) : option string :=
  match v with
  | JStr s => Some s
  | JInt n => Some (str_of_int n)
  | JBool b => Some (if b then "True" else "False")
  | JNull => Some "None"
  | _ => None
  end.

(** [ZoneInfo(tz_name) if tz_name else None]. *)
Definition entry_zone (rt : Runtime) (tz_name : json)
    : option (option datetime.tzinfo) :=
  if truthy tz_name then
    match tz_name with
    | JStr key =>
        if existsb (String.eqb key) (zoneinfo_keys rt)
        then Some (Some (datetime.ZoneInfo key)) else None
    | _ => None
    end
  else Some None.

(** The alias resolution of [WithingsMapper.parse]:
    [data.get(specific) or data.get(legacy)]. *)
Definition resolve_alias (specific legacy : string) (data : dict) : json :=
  py_or (dict_get specific data) (dict_get legacy data).

(** [night_events]: a string is decoded with [json.loads], and kept as
    it is when that fails. *)
Definition decode_night_events (rt : Runtime) (v : json) : json :=
  match v with
  | JStr s => match json_loads rt s with
              | Some decoded => decoded
              | None => v
              end
  | _ => v
  end.

(** One iteration of [WithingsMapper.parse]. *)
Definition withings_entry (rt : Runtime) (patient_id new_id : uuid.UUID)
    (now : Z) (entry : json) : option (option models.SleepDay) :=
  match entry with
  | JObj e =>
      day ← dict_item "date" e;
      effective ← parse_day day;
      match dict_get_default "data" entry e with
      | JObj data =>
          let tz_name := dict_get "timezone" e in
          tz ← entry_zone rt tz_name;
          source_id ←
            (if dict_has "id" e then py_str (dict_get "id" e)
             else
               s ← py_str (dict_get_default "startdate" (JStr "") e);
               t ← py_str (dict_get_default "enddate" (JStr "") e);
               Some (s +:+ "_" +:+ t));
          let now_dt := datetime.DateTime now (Some datetime.UTC) in
          let latency_sec := resolve_alias "sleep_latency" "durationtosleep" data in
          let wakeup_latency_sec :=
            resolve_alias "wakeup_latency" "durationtowakeup" data in
          let night_events_raw :=
            decode_night_events rt (dict_get "night_events" data) in
          extra ← build_extra
            [ ("sleep_score", Some (dict_get "sleep_score" data));
              ("avg_hr_bpm", Some (dict_get "hr_average" data));
              ("min_hr_bpm", Some (dict_get "hr_min" data));
              ("max_hr_bpm", Some (dict_get "hr_max" data));
              ("avg_rr", Some (dict_get "rr_average" data));
              ("min_rr", Some (dict_get "rr_min" data));
              ("max_rr", Some (dict_get "rr_max" data));
              ("breathing_disturbances",
                 Some (dict_get "breathing_disturbances_intensity" data));
              ("snoring_seconds", Some (dict_get "snoring" data));
              ("snoring_episode_count", Some (dict_get "snoringepisodecount" data));
              ("wakeup_count", Some (dict_get "wakeupcount" data));
              ("out_of_bed_count", Some (dict_get "out_of_bed_count" data));
              ("latency_minutes", _sec_to_min latency_sec);
              ("wakeup_latency_minutes", _sec_to_min wakeup_latency_sec);
              ("time_in_bed_minutes", _sec_to_min (dict_get "total_timeinbed" data));
              ("waso_minutes", _sec_to_min (dict_get "waso" data));
              ("rem_episode_count", Some (dict_get "nb_rem_episodes" data));
              ("asleep_duration_minutes", _sec_to_min (dict_get "asleepduration" data));
              ("hash_deviceid", Some (dict_get "hash_deviceid" e));
              ("night_events", Some night_events_raw);
              ("timezone", Some tz_name) ];
          total ← _sec_to_min (dict_get "total_sleep_time" data);
          deep ← _sec_to_min (dict_get "deepsleepduration" data);
          light ← _sec_to_min (dict_get "lightsleepduration" data);
          rem ← _sec_to_min (dict_get "remsleepduration" data);
          awake ← _sec_to_min (dict_get "wakeupduration" data);
          onset ← _unix_to_dt (dict_get "startdate" e) tz;
          offset ← _unix_to_dt (dict_get "enddate" e) tz;
          d ← models.SleepDay_init new_id patient_id models.WITHINGS
                (JStr source_id) effective
                (models.compute_fingerprint models.WITHINGS source_id effective)
                e now_dt now_dt total deep light rem awake onset offset
                (dict_get "sleep_efficiency" data) extra;
          Some (Some d)
      | _ => None
      end
  | _ => None
  end.

(** [WithingsMapper.parse]. *)
Definition withings_parse (rt : Runtime) (raw_response : dict)
    (patient_id next_id : uuid.UUID) (now : Z) : option (list models.SleepDay) :=
  match dict_get_default "body" (JObj raw_response) raw_response with
  | JObj body =>
      series ← iterate (dict_get_default "series" (JArr []) body);
      map_entries (fun i => withings_entry rt patient_id i now) next_id series
  | _ => None
  end.

(** [get_adapter(source).parse]: the mapper of the source, in fixture
    and in live mode alike; [ValueError] for any other source. *)
Definition get_adapter (rt : Runtime) (source : string)
    : option (dict -> uuid.UUID -> uuid.UUID -> Z -> option (list models.SleepDay)) :=
  if String.eqb source "oura" then Some oura_parse
  else if String.eqb source "withings" then Some (withings_parse rt)
  else None.

End adapters.

(* ===================================================================== *)
(** ** sleep/domain/orm.py: the four tables                               *)
(* ===================================================================== *)

Module orm.
Import Py.

(** A row of [sleep_days]. *)
Record SleepDayModel := {
  id : uuid.UUID;
  patient_id : uuid.UUID;
  source : string;
  source_record_id : string;
  raw_payload : dict;
  fingerprint : string;
  effective_date : datetime.date;
  ingested_at : datetime.datetime;
  updated_at : datetime.datetime;
  total_sleep_minutes : option Z;
  deep_sleep_minutes : option Z;
  light_sleep_minutes : option Z;
  rem_sleep_minutes : option Z;
  awake_minutes : option Z;
  sleep_onset : option datetime.datetime;
  sleep_offset : option datetime.datetime;
  sleep_efficiency : option Float64.float;
  extra : dict
}.

(** A row of [raw_vendor_responses]. *)
Record RawVendorResponseModel := {
  raw_id : uuid.UUID;
  raw_patient_id : uuid.UUID;
  raw_source : string;
  raw_endpoint : string;
  raw_request_params : dict;
  raw_response_body : dict;
  raw_http_status : Z;
  raw_fetched_at : Z;
  raw_batch_id : uuid.UUID
}.

(** The [quarantine_details] the pipeline writes. *)
Inductive quarantine_details :=
| details_adapter (error : string)
| details_validation (violations : list validation.ValidationError)
| details_reuse (source_record_id effective_date fingerprint : string).

(** A row of [quarantine_records]. *)
Record QuarantineRecordModel := {
  q_id : uuid.UUID;
  q_patient_id : uuid.UUID;
  q_source : string;
  q_pipeline_stage : string;
  q_quarantine_reason : string;
  q_quarantine_details : quarantine_details;
  q_raw_payload : dict;
  q_fingerprint : option string;
  q_effective_date : option datetime.date;
  q_raw_response_id : option uuid.UUID;
  q_resolved : bool;
  q_created_at : Z
}.

(** A row of [idempotency_keys]; the key itself is the map key. *)
Record IdempotencyKeyModel := {
  ik_source : string;
  ik_request_hash : string;
  ik_status_code : option Z;
  ik_response_body : option json;
  ik_locked_at : option Z;
  ik_created_at : Z;
  ik_expires_at : Z
}.

(** The relational store: what one transaction sees. *)
Record Database := {
  sleep_days : list SleepDayModel;
  raw_vendor_responses : list RawVendorResponseModel;
  quarantine_records : list QuarantineRecordModel;
  idempotency_keys : gmap string IdempotencyKeyModel
}.

Definition empty : Database :=
  {| sleep_days := []; raw_vendor_responses := [];
     quarantine_records := []; idempotency_keys := ∅ |}.

(** [expires_at]'s server default: now() + interval '24 hours'. *)
Definition IDEMPOTENCY_TTL : Z := 24 * 3600.

(** The order a JSONB value keeps the keys of an object in: shorter keys
    first, keys of one length by their bytes. *)
Definition jsonb_key_ltb (a b : string) : bool :=
  (String.length a <? String.length b)%nat
  || ((String.length a =? String.length b)%nat && String.ltb a b).

(** One member put into an object kept in that order; of two members
    with one key the later one stays. *)
Fixpoint jsonb_insert (k : string) (v : json) (fields : dict) : dict :=
  match fields with
  | [] => [(k, v)]
  | (k', v') :: rest =>
      if String.eqb k k' then (k, v) :: rest
      else if jsonb_key_ltb k k' then (k, v) :: fields
      else (k', v') :: jsonb_insert k v rest
  end.

(** A document as a JSONB column gives it back: the members of every
    object are in the order of their keys, not in the order they were
    written in; arrays, strings, integers, booleans and null are kept.
    (A float is kept here as well; the store holds it as a decimal and
    can give it back as an [int], see [jsonb_plain].) *)
Fixpoint jsonb (v : json) : json :=
  match v with
  | JArr items => JArr (map jsonb items)
  | JObj fields =>
      JObj ((fix members (l acc : dict) {struct l} : dict :=
               match l with
               | [] => acc
               | (k, x) :: rest => members rest (jsonb_insert k (jsonb x) acc)
               end) fields [])
  | _ => v
  end.

Definition no_nul (s : string) : bool :=
  forallb (fun c => negb (Ascii.eqb c Ascii.zero)) (list_ascii_of_string s).

(** The documents [jsonb] is exact on: no float, and no NUL character
    in a string or a key (the column rejects those). *)
Fixpoint jsonb_plain (v : json) : bool :=
  match v with
  | JFloat _ => false
  | JStr s => no_nul s
  | JArr items => forallb jsonb_plain items
  | JObj fields =>
      (fix members (l : dict) : bool :=
         match l with
         | [] => true
         | (k, x) :: rest => no_nul k && jsonb_plain x && members rest
         end) fields
  | _ => true
  end.

(** The values an INTEGER column holds. *)
Definition int4 (n : Z) : bool := (-2147483648 <=? n) && (n <=? 2147483647).

End orm.

(* ===================================================================== *)
(** ** sleep/repository.py                                                *)
(* ===================================================================== *)

Module repository.
Import Py orm.

(** [sqlalchemy.exc.IntegrityError]: the name of the violated
    constraint and the text [str(exc)] gives. *)
Record IntegrityError := {
  constraint_name : string;
  message : string
}.

Inductive upsert_outcome :=
| Upserted (db : Database) (row_id : uuid.UUID) (was_inserted : bool)
| Rejected (exc : IntegrityError).

(** The statement text SQLAlchemy appends to the message of a failed
    upsert. *)
Definition upsert_sql : string :=
  "[SQL: INSERT INTO sleep_days (id, patient_id, source, source_record_id, raw_payload, fingerprint, effective_date, ingested_at, updated_at, total_sleep_minutes, deep_sleep_minutes, light_sleep_minutes, rem_sleep_minutes, awake_minutes, sleep_onset, sleep_offset, sleep_efficiency, extra) VALUES (...) ON CONFLICT (fingerprint) DO UPDATE SET ... RETURNING sleep_days.id, (xmax = 0) AS was_inserted]".

Definition violation (kind name : string) : IntegrityError :=
  {| constraint_name := name;
     message := kind +:+ " constraint " +:+ name +:+ " " +:+ upsert_sql |}.

Definition non_negative (v : option Z) : bool :=
  match v with
  | Some n => 0 <=? n
  | None => true
  end.

(** The CHECK constraints of [sleep_days]: the first one a row
    violates, if any.  PostgreSQL tests the CHECK constraints of a table
    in the alphabetical order of their names. *)
Definition check_violation (r : SleepDayModel) : option string :=
  if negb (non_negative (awake_minutes r)) then Some "chk_awake_minutes"
  else if negb (non_negative (deep_sleep_minutes r)) then Some "chk_deep_sleep_minutes"
  else if negb (non_negative (light_sleep_minutes r)) then Some "chk_light_sleep_minutes"
  else if negb (non_negative (rem_sleep_minutes r)) then Some "chk_rem_sleep_minutes"
  else if match sleep_efficiency r with
          | Some x => negb (Float64.leb Float64.f_0_0 x && Float64.leb x Float64.f_1_0)
          | None => false
          end then Some "chk_sleep_efficiency"
  else if match sleep_onset r, sleep_offset r with
          | Some onset, Some offset =>
              negb (datetime.instant onset <? datetime.instant offset)
          | _, _ => false
          end then Some "chk_sleep_offset_after_onset"
  else if negb (non_negative (total_sleep_minutes r)) then Some "chk_total_sleep_minutes"
  else None.

(** ON CONFLICT (fingerprint) DO UPDATE SET ...: the stored row takes
    the measurement fields, [extra] and [raw_payload] of the proposed
    one, and [updated_at] becomes now(). *)
Definition do_update (excluded : SleepDayModel) (now : Z) (old : SleepDayModel)
    : SleepDayModel :=
  {| id := id old;
     patient_id := patient_id old;
     source := source old;
     source_record_id := source_record_id old;
     raw_payload := raw_payload excluded;
     fingerprint := fingerprint old;
     effective_date := effective_date old;
     ingested_at := ingested_at old;
     updated_at := datetime.DateTime now (Some datetime.UTC);
     total_sleep_minutes := total_sleep_minutes excluded;
     deep_sleep_minutes := deep_sleep_minutes excluded;
     light_sleep_minutes := light_sleep_minutes excluded;
     rem_sleep_minutes := rem_sleep_minutes excluded;
     awake_minutes := awake_minutes excluded;
     sleep_onset := sleep_onset excluded;
     sleep_offset := sleep_offset excluded;
     sleep_efficiency := sleep_efficiency excluded;
     extra := extra excluded |}.

Definition with_sleep_days (db : Database) (rows : list SleepDayModel) : Database :=
  {| sleep_days := rows;
     raw_vendor_responses := raw_vendor_responses db;
     quarantine_records := quarantine_records db;
     idempotency_keys := idempotency_keys db |}.

Definition same_fingerprint (record r : SleepDayModel) : bool :=
  String.eqb (fingerprint r) (fingerprint record).

Definition same_source_record (record r : SleepDayModel) : bool :=
  String.eqb (source r) (source record)
  && String.eqb (source_record_id r) (source_record_id record).

(** [SleepDayRepository.upsert]: INSERT ... ON CONFLICT (fingerprint)
    DO UPDATE ... RETURNING id, (xmax = 0).  The CHECK constraints are
    evaluated on the proposed row first; a row with the same
    fingerprint is then updated in place; otherwise the row is
    inserted, unless the primary key or the (source, source_record_id)
    constraint rejects it.  The failures modelled are the integrity
    errors; a value that a column's type cannot hold (a duration outside
    [int4], a NUL character) makes the statement fail with another
    error, which is not modelled. *)
Definition upsert (db : Database) (record : SleepDayModel) (now : Z)
    : upsert_outcome :=
  match check_violation record with
  | Some name => Rejected (violation "violates check" name)
  | None =>
      match find (same_fingerprint record) (sleep_days db) with
      | Some old =>
          Upserted
            (with_sleep_days db
               (map (fun r => if same_fingerprint record r
                              then do_update record now r else r)
                    (sleep_days db)))
            (id old) false
      | None =>
          if existsb (fun r => id r =? id record) (sleep_days db)
          then Rejected (violation "duplicate key value violates unique"
                                   "sleep_days_pkey")
          else if existsb (same_source_record record) (sleep_days db)
          then Rejected (violation "duplicate key value violates unique"
                                   "uq_sleep_days_source_record")
          else Upserted (with_sleep_days db (sleep_days db ++ [record]))
                        (id record) true
      end
  end.

(** The sort key of the timeline, and its order. *)
Definition key_ltb (a b : datetime.date * uuid.UUID) : bool :=
  match datetime.date_compare (fst a) (fst b) with
  | Lt => true
  | Eq => snd a <? snd b
  | Gt => false
  end.

Definition row_key (r : SleepDayModel) : datetime.date * uuid.UUID :=
  (effective_date r, id r).

(** [a] comes before [b] under ORDER BY effective_date, id in the
    chosen direction. *)
Definition before (descending : bool) (a b : SleepDayModel) : bool :=
  if descending then key_ltb (row_key b) (row_key a)
  else key_ltb (row_key a) (row_key b).

Fixpoint insert_sorted (descending : bool) (r : SleepDayModel)
    (sorted : list SleepDayModel) : list SleepDayModel :=
  match sorted with
  | [] => [r]
  | x :: rest =>
      if before descending r x then r :: sorted
      else x :: insert_sorted descending r rest
  end.

Definition order_by (descending : bool) (rows : list SleepDayModel)
    : list SleepDayModel :=
  fold_right (insert_sorted descending) [] rows.

(** The pagination cursor: the (date, id) of the last row served.  On
    the wire it is the base64 text of the JSON object with these two
    fields; the decoder reads back what the encoder wrote. *)
Definition cursor := (datetime.date * uuid.UUID)%type.

(** The WHERE clause of [get_timeline]. *)
Definition timeline_where (patient : uuid.UUID)
    (start end_ : option datetime.date) (cur : option cursor)
    (descending : bool) (r : SleepDayModel) : bool :=
  (patient_id r =? patient)
  && match start with
     | Some s => datetime.date_leb s (effective_date r)
     | None => true
     end
  && match end_ with
     | Some e => datetime.date_ltb (effective_date r) e
     | None => true
     end
  && match cur with
     | Some c => if descending then key_ltb (row_key r) c
                 else key_ltb c (row_key r)
     | None => true
     end.

(** [SleepDayRepository.get_timeline]: the page and the next cursor;
    [None] when the store rejects a negative LIMIT. *)
Definition get_timeline (db : Database) (patient : uuid.UUID)
    (start end_ : option datetime.date) (cur : option cursor)
    (limit : Z) (descending : bool)
    : option (list SleepDayModel * option cursor) :=
  if limit + 1 <? 0 then None
  else
    let rows :=
      firstn (Z.to_nat (limit + 1))
             (order_by descending
                (List.filter (timeline_where patient start end_ cur descending)
                             (sleep_days db))) in
    let has_more := limit <? Z.of_nat (length rows) in
    let rows := if has_more then firstn (Z.to_nat limit) rows else rows in
    let next_cursor :=
      if has_more then
        match last rows with
        | Some l => Some (row_key l)
        | None => None
        end
      else None in
    Some (rows, next_cursor).

(** One record of [get_provenance]: the provenance columns of a row,
    the date and the timestamps rendered with isoformat. *)
Record ProvenanceRecord := {
  prov_sleep_day_id : string;
  prov_source : string;
  prov_source_record_id : string;
  prov_fingerprint : string;
  prov_effective_date : string;
  prov_ingested_at : string;
  prov_updated_at : string
}.

(** The WHERE clause of [get_provenance]; [if source:] skips an empty
    source like a missing one. *)
Definition provenance_where (patient : uuid.UUID)
    (start end_ : option datetime.date) (source : option string)
    (cur : option cursor) (r : SleepDayModel) : bool :=
  (patient_id r =? patient)
  && match start with
     | Some s => datetime.date_leb s (effective_date r)
     | None => true
     end
  && match end_ with
     | Some e => datetime.date_ltb (effective_date r) e
     | None => true
     end
  && match source with
     | Some s => if String.eqb s "" then true else String.eqb (orm.source r) s
     | None => true
     end
  && match cur with
     | Some c => key_ltb (row_key r) c
     | None => true
     end.

(** [SleepDayRepository.get_provenance]: the page, newest first, and the
    next cursor; [None] when the store rejects a negative LIMIT.
    [isoformat] is [datetime.isoformat] of the interpreter. *)
Definition get_provenance (isoformat : datetime.datetime -> string)
    (db : Database) (patient : uuid.UUID) (start end_ : option datetime.date)
    (source : option string) (cur : option cursor) (limit : Z)
    : option (list ProvenanceRecord * option cursor) :=
  if limit + 1 <? 0 then None
  else
    let rows :=
      firstn (Z.to_nat (limit + 1))
             (order_by true
                (List.filter (provenance_where patient start end_ source cur)
                             (sleep_days db))) in
    let has_more := limit <? Z.of_nat (length rows) in
    let rows := if has_more then firstn (Z.to_nat limit) rows else rows in
    let records :=
      map (fun r =>
             {| prov_sleep_day_id := uuid.str (id r);
                prov_source := orm.source r;
                prov_source_record_id := source_record_id r;
                prov_fingerprint := fingerprint r;
                prov_effective_date := datetime.isoformat (effective_date r);
                prov_ingested_at := isoformat (ingested_at r);
                prov_updated_at := isoformat (updated_at r) |})
          rows in
    let next_cursor :=
      if has_more then
        match last rows with
        | Some l => Some (row_key l)
        | None => None
        end
      else None in
    Some (records, next_cursor).

(** [store_raw_response]: append-only insert, returning the new id.
    (A body the JSONB column rejects, such as one with a NUL character,
    makes the insert fail; that is not modelled.) *)
Definition store_raw_response (db : Database) (row : RawVendorResponseModel)
    : Database * uuid.UUID :=
  ({| sleep_days := sleep_days db;
      raw_vendor_responses := raw_vendor_responses db ++ [row];
      quarantine_records := quarantine_records db;
      idempotency_keys := idempotency_keys db |}, raw_id row).

(** [quarantine]: append-only insert, returning the new id. *)
Definition quarantine (db : Database) (row : QuarantineRecordModel)
    : Database * uuid.UUID :=
  ({| sleep_days := sleep_days db;
      raw_vendor_responses := raw_vendor_responses db;
      quarantine_records := quarantine_records db ++ [row];
      idempotency_keys := idempotency_keys db |}, q_id row).

Definition with_idempotency_keys (db : Database)
    (keys : gmap string IdempotencyKeyModel) : Database :=
  {| sleep_days := sleep_days db;
     raw_vendor_responses := raw_vendor_responses db;
     quarantine_records := quarantine_records db;
     idempotency_keys := keys |}.

Inductive claim_status :=
| claimed
| completed (status_code : Z) (response_body : option json)
| in_flight
| conflict.

(** DELETE FROM idempotency_keys WHERE key = :key AND expires_at <= now(). *)
Definition purge_expired (key : string) (now : Z)
    (keys : gmap string IdempotencyKeyModel) : gmap string IdempotencyKeyModel :=
  match keys !! key with
  | Some row => if ik_expires_at row <=? now then delete key keys else keys
  | None => keys
  end.

(** INSERT ... ON CONFLICT (key) DO NOTHING, with its rowcount. *)
Definition insert_do_nothing (key source request_hash : string) (now : Z)
    (keys : gmap string IdempotencyKeyModel)
    : gmap string IdempotencyKeyModel * Z :=
  match keys !! key with
  | Some _ => (keys, 0)
  | None =>
      (<[ key := {| ik_source := source; ik_request_hash := request_hash;
                    ik_status_code := None; ik_response_body := None;
                    ik_locked_at := Some now; ik_created_at := now;
                    ik_expires_at := now + IDEMPOTENCY_TTL |} ]> keys, 1)
  end.

(** SELECT ... WHERE key = :key AND expires_at > now(). *)
Definition select_live (key : string) (now : Z)
    (keys : gmap string IdempotencyKeyModel) : option IdempotencyKeyModel :=
  match keys !! key with
  | Some row => if now <? ik_expires_at row then Some row else None
  | None => None
  end.

(** [SleepDayRepository.atomic_claim_idempotency_key]; [now] is the
    store's now(). *)
Definition atomic_claim_idempotency_key (db : Database)
    (key source request_hash : string) (now : Z) : Database * claim_status :=
  let keys := purge_expired key now (idempotency_keys db) in
  let '(keys, rowcount) := insert_do_nothing key source request_hash now keys in
  if rowcount =? 1 then (with_idempotency_keys db keys, claimed)
  else
    match select_live key now keys with
    | None =>
        let '(keys, retry) := insert_do_nothing key source request_hash now keys in
        if retry =? 1 then (with_idempotency_keys db keys, claimed)
        else (with_idempotency_keys db keys, in_flight)
    | Some existing =>
        if negb (String.eqb (ik_request_hash existing) request_hash)
        then (with_idempotency_keys db keys, conflict)
        else
          match ik_status_code existing with
          | Some code =>
              (with_idempotency_keys db keys,
               completed code (ik_response_body existing))
          | None => (with_idempotency_keys db keys, in_flight)
          end
    end.

(** [SleepDayRepository.complete_idempotency_key]: the UPDATE of the
    row of the key.  [response_body] is a JSONB column, so what a later
    SELECT reads is [jsonb response_body].  (The statement fails for a
    [status_code] outside [int4] and for a body the column rejects;
    those requests are not modelled.) *)
Definition complete_idempotency_key (db : Database) (key : string)
    (status_code : Z) (response_body : json) : Database :=
  with_idempotency_keys db
    (alter (fun row =>
              {| ik_source := ik_source row;
                 ik_request_hash := ik_request_hash row;
                 ik_status_code := Some status_code;
                 ik_response_body := Some (jsonb response_body);
                 ik_locked_at := None;
                 ik_created_at := ik_created_at row;
                 ik_expires_at := ik_expires_at row |})
           key (idempotency_keys db)).

End repository.

(* ===================================================================== *)
(** ** sleep/pipeline.py                                                  *)
(* ===================================================================== *)

Module pipeline.
Import Py orm repository.

(** Per-record result from the ingestion pipeline. *)
Record IngestRecordResult := {
  sleep_day_id : string;
  status : string
}.

(** Aggregate result from a batch ingestion. *)
Record IngestResult := {
  results : list IngestRecordResult;
  records_processed : Z;
  records_inserted : Z;
  records_updated : Z;
  records_quarantined : Z;
  batch_id : string
}.

Definition has_inserts (r : IngestResult) : bool := 0 <? records_inserted r.

(** An [AsyncSession]: the committed store and the view of the open
    transaction.  [commit] publishes the view; [rollback] discards
    everything done since the last commit. *)
Record AsyncSession := {
  committed : Database;
  pending : Database
}.

Definition commit (s : AsyncSession) : AsyncSession :=
  {| committed := pending s; pending := pending s |}.

Definition rollback (s : AsyncSession) : AsyncSession :=
  {| committed := committed s; pending := committed s |}.

Definition execute (s : AsyncSession) (db : Database) : AsyncSession :=
  {| committed := committed s; pending := db |}.

(** The session together with the supply of fresh identifiers
    ([uuid4()] and the store's generated keys). *)
Record World := {
  session : AsyncSession;
  next_uuid : uuid.UUID
}.

Definition with_session (w : World) (s : AsyncSession) : World :=
  {| session := s; next_uuid := next_uuid w |}.

Definition draw (w : World) (n : Z) : World :=
  {| session := session w; next_uuid := next_uuid w + n |}.

(** [repo.quarantine(...)] on the session, under a fresh id. *)
Definition quarantine_in (w : World) (now : Z) (patient_id : uuid.UUID)
    (source stage reason : string) (details : quarantine_details)
    (raw_payload : dict) (fingerprint : option string)
    (effective_date : option datetime.date) (raw_response_id : uuid.UUID)
    : World :=
  let row := {| q_id := next_uuid w; q_patient_id := patient_id;
                q_source := source; q_pipeline_stage := stage;
                q_quarantine_reason := reason;
                q_quarantine_details := details;
                q_raw_payload := raw_payload;
                q_fingerprint := fingerprint;
                q_effective_date := effective_date;
                q_raw_response_id := Some raw_response_id;
                q_resolved := false; q_created_at := now |} in
  draw (with_session w
          (execute (session w) (fst (quarantine (pending (session w)) row)))) 1.

(** [upsert_dict]. *)
Definition upsert_dict (d : models.SleepDay) : SleepDayModel :=
  {| id := models.id d;
     patient_id := models.patient_id d;
     source := models.value (models.source d);
     source_record_id := models.source_record_id d;
     raw_payload := models.raw_payload d;
     fingerprint := models.fingerprint d;
     effective_date := models.effective_date d;
     ingested_at := models.ingested_at d;
     updated_at := models.updated_at d;
     total_sleep_minutes := models.total_sleep_minutes d;
     deep_sleep_minutes := models.deep_sleep_minutes d;
     light_sleep_minutes := models.light_sleep_minutes d;
     rem_sleep_minutes := models.rem_sleep_minutes d;
     awake_minutes := models.awake_minutes d;
     sleep_onset := models.sleep_onset d;
     sleep_offset := models.sleep_offset d;
     sleep_efficiency := models.sleep_efficiency d;
     extra := models.extra d |}.

Definition add_quarantined (r : IngestResult) : IngestResult :=
  {| results := results r ++ [{| sleep_day_id := ""; status := "quarantined" |}];
     records_processed := records_processed r;
     records_inserted := records_inserted r;
     records_updated := records_updated r;
     records_quarantined := records_quarantined r + 1;
     batch_id := batch_id r |}.

Definition add_upserted (r : IngestResult) (row_id : uuid.UUID)
    (was_inserted : bool) : IngestResult :=
  {| results := results r ++
       [{| sleep_day_id := uuid.str row_id;
           status := if was_inserted then "created" else "deduplicated" |}];
     records_processed := records_processed r + 1;
     records_inserted :=
       if was_inserted then records_inserted r + 1 else records_inserted r;
     records_updated :=
       if was_inserted then records_updated r else records_updated r + 1;
     records_quarantined := records_quarantined r;
     batch_id := batch_id r |}.

(** The test the handler of [IntegrityError] makes. *)
Definition is_source_record_collision (exc : IntegrityError) : bool :=
  contains "uq_sleep_days_source_record" (constraint_name exc)
  || contains "source_record_id" (message exc).

(** One iteration of [for sleep_day in sleep_days]; [None] when an
    exception leaves the loop. *)
Definition ingest_record (today : datetime.date) (now : Z) (source : string)
    (patient_id raw_id : uuid.UUID) (sleep_day : models.SleepDay)
    (w : World) (result : IngestResult) : option (World * IngestResult) :=
  errors ← validation.validate_sleep_record today (validation.model_dump sleep_day);
  match errors with
  | first :: _ =>
      Some (quarantine_in w now patient_id source "validation"
              (validation.reason first) (details_validation errors)
              (models.raw_payload sleep_day)
              (Some (models.fingerprint sleep_day))
              (Some (models.effective_date sleep_day)) raw_id,
            add_quarantined result)
  | [] =>
      match upsert (pending (session w)) (upsert_dict sleep_day) now with
      | Rejected exc =>
          let w := with_session w (rollback (session w)) in
          if is_source_record_collision exc then
            Some (quarantine_in w now patient_id source "upsert"
                    "source_record_id_reused_across_dates"
                    (details_reuse (models.source_record_id sleep_day)
                       (datetime.isoformat (models.effective_date sleep_day))
                       (models.fingerprint sleep_day))
                    (models.raw_payload sleep_day)
                    (Some (models.fingerprint sleep_day))
                    (Some (models.effective_date sleep_day)) raw_id,
                  add_quarantined result)
          else None
      | Upserted db row_id was_inserted =>
          Some (with_session w (execute (session w) db),
                add_upserted result row_id was_inserted)
      end
  end.

(** The loop over the mapped candidates, in input order. *)
Fixpoint ingest_records (today : datetime.date) (now : Z) (source : string)
    (patient_id raw_id : uuid.UUID) (sleep_days : list models.SleepDay)
    (w : World) (result : IngestResult) : option (World * IngestResult) :=
  match sleep_days with
  | [] => Some (w, result)
  | sleep_day :: rest =>
      match ingest_record today now source patient_id raw_id sleep_day w result with
      | Some (w', result') =>
          ingest_records today now source patient_id raw_id rest w' result'
      | None => None
      end
  end.

Definition new_result (batch : uuid.UUID) : IngestResult :=
  {| results := []; records_processed := 0; records_inserted := 0;
     records_updated := 0; records_quarantined := 0;
     batch_id := uuid.str batch |}.

(** [ingest_sleep_data].  [now] is the clock reading of the call
    ([datetime.now(UTC)] and the store's now()), [today] is
    [date.today()]; [None] when an exception propagates to the caller.
    Logging and metrics are left out. *)
Definition ingest_sleep_data (rt : Runtime) (w : World) (now : Z)
    (today : datetime.date) (source : string) (raw_payload : dict)
    (patient_id : uuid.UUID) : option (World * IngestResult) :=
  parse ← adapters.get_adapter rt source;
  let batch := next_uuid w in
  let w := draw w 1 in
  let result := new_result batch in
  let raw_row := {| raw_id := next_uuid w; raw_patient_id := patient_id;
                    raw_source := source;
                    raw_endpoint := "/v2/" +:+ source +:+ "/sleep";
                    raw_request_params := [];
                    raw_response_body := raw_payload;
                    raw_http_status := 200;
                    raw_fetched_at := now;
                    raw_batch_id := batch |} in
  let '(db, raw_id) := store_raw_response (pending (session w)) raw_row in
  let w := draw (with_session w (execute (session w) db)) 1 in
  match parse raw_payload patient_id (next_uuid w) now with
  | None =>
      let w := quarantine_in w now patient_id source "adapter"
                 "adapter_parse_error"
                 (details_adapter "Failed to parse vendor response")
                 raw_payload None None raw_id in
      let w := with_session w (commit (session w)) in
      Some (w, {| results := []; records_processed := 0; records_inserted := 0;
                  records_updated := 0; records_quarantined := 1;
                  batch_id := uuid.str batch |})
  | Some sleep_days =>
      let w := draw w (Z.of_nat (length sleep_days)) in
      match ingest_records today now source patient_id raw_id sleep_days w result with
      | Some (w, result) => Some (with_session w (commit (session w)), result)
      | None => None
      end
  end.

(** [compute_request_hash]: SHA-256 of the canonical JSON text of the
    body; [json_dumps] is [json.dumps(., sort_keys=True, default=str)] of
    the interpreter. *)
Definition compute_request_hash (json_dumps : json -> string) (body : dict)
    : string :=
  Sha256.hexdigest (json_dumps (JObj body)).

(** The totals [replay_from_raw] returns. *)
Record ReplayStats := {
  replayed : Z;
  inserted : Z;
  updated : Z;
  quarantined : Z
}.

(** The WHERE clause of [replay_from_raw]; the bounds are aware
    timestamps, given by their instants. *)
Definition replay_where (source : string) (patient_id : uuid.UUID)
    (start_date end_date : option Z) (raw : RawVendorResponseModel) : bool :=
  String.eqb (raw_source raw) source
  && (raw_patient_id raw =? patient_id)
  && match start_date with
     | Some s => s <=? raw_fetched_at raw
     | None => true
     end
  && match end_date with
     | Some e => raw_fetched_at raw <=? e
     | None => true
     end.

(** The loop of [replay_from_raw]; [clock i] is the clock reading and
    the day of the i-th ingestion. *)
Fixpoint replay_records (rt : Runtime) (clock : nat -> Z * datetime.date)
    (i : nat) (source : string) (patient_id : uuid.UUID)
    (raw_records : list RawVendorResponseModel) (w : World)
    (total_stats : ReplayStats) : option (World * ReplayStats) :=
  match raw_records with
  | [] => Some (w, total_stats)
  | raw :: rest =>
      match ingest_sleep_data rt w (fst (clock i)) (snd (clock i)) source
              (raw_response_body raw) patient_id with
      | Some (w', ingest_result) =>
          replay_records rt clock (S i) source patient_id rest w'
            {| replayed := replayed total_stats + 1;
               inserted := inserted total_stats + records_inserted ingest_result;
               updated := updated total_stats + records_updated ingest_result;
               quarantined :=
                 quarantined total_stats + records_quarantined ingest_result |}
      | None => None
      end
  end.

(** [replay_from_raw]: every archived response of the source and
    patient in the window is ingested again, in the order the store
    returns them (here the order of insertion). *)
Definition replay_from_raw (rt : Runtime) (clock : nat -> Z * datetime.date)
    (w : World) (source : string) (patient_id : uuid.UUID)
    (start_date end_date : option Z) : option (World * ReplayStats) :=
  replay_records rt clock 0 source patient_id
    (List.filter (replay_where source patient_id start_date end_date)
                 (raw_vendor_responses (pending (session w))))
    w {| replayed := 0; inserted := 0; updated := 0; quarantined := 0 |}.

(** [sleep/api.py], [ingest_sleep]: what the response carries for one
    record ([r.sleep_day_id or None]). *)
Definition response_sleep_day_id (r : IngestRecordResult) : option string :=
  if String.eqb (sleep_day_id r) "" then None else Some (sleep_day_id r).

End pipeline.

(* ===================================================================== *)
(** ** sleep/api.py: the ingest endpoint                                  *)
(* ===================================================================== *)

Module api.
Import Py orm repository pipeline.

(** The [ProblemDetailError]s the endpoint raises
    ([shared/exceptions.py]). *)
Inductive problem :=
| MissingIdempotencyKeyError
| UnsupportedSourceError (source : string)
| IdempotencyConflictError (key : string)
| IdempotencyInFlightError (key : string).

Definition problem_status (p : problem) : Z :=
  match p with
  | MissingIdempotencyKeyError => 400
  | UnsupportedSourceError _ => 422
  | IdempotencyConflictError _ => 409
  | IdempotencyInFlightError _ => 409
  end.

(** What a request ends in: the status code with the "data" and the
    "meta" member of the body, a problem response, or an exception
    nothing handles. *)
Inductive outcome :=
| Answer (status_code : Z) (data meta : json)
| Problem (p : problem)
| Unhandled.

(** [response_data]: one record is answered by itself, any other number
    by the list and the counters. *)
Definition record_data (r : IngestRecordResult) : json :=
  JObj [ ("sleep_day_id", match response_sleep_day_id r with
                          | Some i => JStr i
                          | None => JNull
                          end);
         ("status", JStr (status r)) ].

Definition response_data (ingest_result : IngestResult) : json :=
  match results ingest_result with
  | [r] => record_data r
  | _ =>
      JObj [ ("results", JArr (map record_data (results ingest_result)));
             ("records_processed", JInt (records_processed ingest_result));
             ("records_inserted", JInt (records_inserted ingest_result));
             ("records_updated", JInt (records_updated ingest_result));
             ("records_quarantined", JInt (records_quarantined ingest_result)) ]
  end.

(** [body.model_dump(mode="json")]. *)
Definition request_body (patient_id : uuid.UUID) (data : dict) : dict :=
  [ ("patient_id", JStr (uuid.str patient_id)); ("data", JObj data) ].

(** [ingest_sleep], POST /api/v1/ingest/{source}/sleep.  The request
    runs in a session of its own ([get_session]): it sees the committed
    store, and what it has not committed when it ends is discarded.
    [now] and [today] are the clock reading and the day of the request,
    [meta] is what [_meta()] makes for it (its request id, the time of
    the response, the version of the API). *)
Definition ingest_sleep (rt : Runtime) (json_dumps : json -> string) (w : World)
    (now : Z) (today : datetime.date) (meta : json) (source : string)
    (patient_id : uuid.UUID) (data : dict) (idempotency_key : option string)
    : World * outcome :=
  let w := with_session w (rollback (session w)) in
  match idempotency_key with
  | None => (w, Problem MissingIdempotencyKeyError)
  | Some key =>
      if String.eqb key "" then (w, Problem MissingIdempotencyKeyError)
      else if negb (existsb (String.eqb source) ["oura"; "withings"])
      then (w, Problem (UnsupportedSourceError source))
      else
        let request_hash :=
          compute_request_hash json_dumps (request_body patient_id data) in
        let '(db, claim) :=
          atomic_claim_idempotency_key (pending (session w)) key source
            request_hash now in
        match claim with
        | conflict => (w, Problem (IdempotencyConflictError key))
        | in_flight => (w, Problem (IdempotencyInFlightError key))
        | completed status_code response_body =>
            (w, Answer status_code match response_body with
                                   | Some body => body
                                   | None => JNull
                                   end meta)
        | claimed =>
            let w := with_session w (commit (execute (session w) db)) in
            match ingest_sleep_data rt w now today source data patient_id with
            | None => (w, Unhandled)
            | Some (w', ingest_result) =>
                let body := response_data ingest_result in
                let status_code := if has_inserts ingest_result then 201 else 200 in
                let db' := complete_idempotency_key (pending (session w')) key
                             status_code body in
                (with_session w' (commit (execute (session w') db')),
                 Answer status_code body meta)
            end
        end
  end.

End api.

(* ===================================================================== *)
(** * Properties                                                          *)
(* ===================================================================== *)

(** ** Sanity checks of the arithmetic and hashing models *)

(** The literal 1.05 is the double nearest to 105/100. *)
Example float_1_05_literal :
  Float64.int_truediv 105 Float64.f_100_0 = Some Float64.f_1_05.
Proof. vm_compute. reflexivity. Qed.

(** FIPS 180-4 test vector, one block. *)
Example sha256_abc :
  Sha256.hexdigest "abc"
  = "ba7816bf8f01cfea414140de5dae2223b00361a396177a9cb410ff61f20015ad".
Proof. vm_compute. reflexivity. Qed.

(** A two-block message: one hundred letters a. *)
Example sha256_two_blocks :
  Sha256.hexdigest (string_of_list_ascii (repeat "a"%char 100))
  = "2816597888e4a0d3a36b82b83316ab32680eb8f00f8cd3b904d681246d285a0e".
Proof. vm_compute. reflexivity. Qed.

(** [SleepDay.compute_fingerprint(SleepSource.OURA, "abc", date(2024, 3, 14))]. *)
Example fingerprint_oura_abc :
  models.compute_fingerprint models.OURA "abc" (datetime.Date 2024 3 14)
  = "66d012a472adfeaae6734b31e51ccf4c0975154a5219f5bd9b350d0c8400fdce".
Proof. vm_compute. reflexivity. Qed.

(* ===================================================================== *)
(** ** Validation rule 4: the stage-sum tolerance                         *)
(* ===================================================================== *)

Module validation_facts.
Import validation.

(** The reason codes a list of violations carries. *)
Definition reasons (errs : list ValidationError) : list string :=
  map reason errs.

(** The largest integer not above a finite float. *)
Definition floor_int (x : Float64.float) : option Z :=
  match x with
  | S754_zero _ => Some 0
  | S754_finite s m e =>
      if 0 <=? e then Some (cond_Zopp s (Zpos m) * 2 ^ e)
      else Some (cond_Zopp s (Zpos m) / 2 ^ (- e))
  | _ => None
  end.

(** Comparing an integer with a float is comparing it with the floor. *)
Lemma int_gt_floor (n : Z) (x : Float64.float) (q : Z) :
  floor_int x = Some q -> Float64.int_gt n x = (q <? n).
Proof.
  unfold floor_int, Float64.int_gt, Float64.compare_int.
  destruct x as [s | s | | s m e]; try discriminate.
  - intros [= <-]. destruct (Z.compare_spec n 0), (Z.ltb_spec 0 n); lia.
  - destruct (Z.leb_spec 0 e) as [He | He]; intros [= <-].
    + destruct (Z.compare_spec n (cond_Zopp s (Z.pos m) * 2 ^ e)),
        (Z.ltb_spec (cond_Zopp s (Z.pos m) * 2 ^ e) n); lia.
    + assert (Hp : 0 < 2 ^ (- e)) by (apply Z.pow_pos_nonneg; lia).
      set (v := cond_Zopp s (Z.pos m)) in *.
      set (p := 2 ^ (- e)) in *.
      pose proof (Z.div_mod v p ltac:(lia)) as Hdm.
      pose proof (Z.mod_pos_bound v p Hp) as Hb.
      destruct (Z.compare_spec (n * p) v), (Z.ltb_spec (v / p) n);
        try reflexivity; exfalso; nia.
Qed.

(** For every total in the range rule 2 accepts, [total * 1.05] is a
    float whose floor is the floor of 21 * total / 20. *)
Definition tolerance_exact (total : Z) : bool :=
  match Float64.int_mul total _STAGE_SUM_TOLERANCE with
  | Some bound =>
      match floor_int bound with
      | Some q => q =? 21 * total / 20
      | None => false
      end
  | None => false
  end.

Lemma tolerance_exact_in_range :
  forallb tolerance_exact (map Z.of_nat (seq 0 1441)) = true.
Proof. vm_compute. reflexivity. Qed.

Lemma tolerance_bound (total : Z) :
  0 <= total <= 1440 ->
  exists bound,
    Float64.int_mul total _STAGE_SUM_TOLERANCE = Some bound
    /\ forall n, Float64.int_gt n bound = (21 * total <? 20 * n).
Proof.
  intros Hr.
  pose proof tolerance_exact_in_range as Hall.
  rewrite forallb_forall in Hall.
  specialize (Hall total).
  assert (Hin : In total (map Z.of_nat (seq 0 1441))).
  { apply in_map_iff. exists (Z.to_nat total). split; [lia|].
    apply in_seq. lia. }
  specialize (Hall Hin). unfold tolerance_exact in Hall.
  destruct (Float64.int_mul total _STAGE_SUM_TOLERANCE) as [bound|]; [|discriminate].
  exists bound. split; [reflexivity|]. intros n.
  destruct (floor_int bound) as [q|] eqn:Hq; [|discriminate].
  rewrite (int_gt_floor n bound q Hq).
  apply Z.eqb_eq in Hall. subst q.
  destruct (Z.ltb_spec (21 * total / 20) n), (Z.ltb_spec (21 * total) (20 * n));
    try reflexivity; exfalso; Z.div_mod_to_equations; lia.
Qed.

(** Only rule 4 reports [stage_sum_exceeds_total]. *)
Lemma not_in_app (x : string) (l1 l2 : list string) :
  ~ In x l1 -> (In x (l1 ++ l2) <-> In x l2).
Proof. intros H. rewrite in_app_iff. tauto. Qed.

Lemma not_in_app_r (x : string) (l1 l2 : list string) :
  ~ In x l2 -> (In x (l1 ++ l2) <-> In x l1).
Proof. intros H. rewrite in_app_iff. tauto. Qed.

Ltac no_stage_reason :=
  repeat match goal with
         | |- context [match ?x with _ => _ end] => destruct x
         end; cbn; intuition discriminate.

Lemma rule1_reasons r : ~ In "stage_sum_exceeds_total" (reasons (rule1 r)).
Proof. unfold rule1, reasons. no_stage_reason. Qed.

Lemma rule2_reasons r : ~ In "stage_sum_exceeds_total" (reasons (rule2 r)).
Proof. unfold rule2, reasons. no_stage_reason. Qed.

Lemma rule3_reasons r : ~ In "stage_sum_exceeds_total" (reasons (rule3 r)).
Proof.
  unfold rule3, reasons. rewrite !map_app, !in_app_iff.
  unfold rule3_field. no_stage_reason.
Qed.

Lemma rule5_reasons today r :
  ~ In "stage_sum_exceeds_total" (reasons (rule5 today r)).
Proof. unfold rule5, reasons. no_stage_reason. Qed.

Lemma rule6_reasons r : ~ In "stage_sum_exceeds_total" (reasons (rule6 r)).
Proof. unfold rule6, reasons. no_stage_reason. Qed.

Lemma rule7_reasons r : ~ In "stage_sum_exceeds_total" (reasons (rule7 r)).
Proof.
  unfold rule7, reasons. rewrite !map_app, !in_app_iff.
  unfold rule7_field. no_stage_reason.
Qed.

Lemma rule8_reasons r : ~ In "stage_sum_exceeds_total" (reasons (rule8 r)).
Proof. unfold rule8, reasons. no_stage_reason. Qed.

Lemma rule9_reasons r : ~ In "stage_sum_exceeds_total" (reasons (rule9 r)).
Proof. unfold rule9, reasons. no_stage_reason. Qed.

(** A record's outcome carries [stage_sum_exceeds_total] exactly when
    rule 4 reports it. *)
Lemma stage_reason_from_rule4 today r e4 :
  rule4 r = Some e4 ->
  exists errs,
    validate_sleep_record today r = Some errs
    /\ (In "stage_sum_exceeds_total" (reasons errs)
        <-> In "stage_sum_exceeds_total" (reasons e4)).
Proof.
  intros H4. unfold validate_sleep_record. rewrite H4. cbn.
  eexists. split; [reflexivity|].
  unfold reasons. rewrite !map_app, !in_app_iff.
  pose proof (rule1_reasons r). pose proof (rule2_reasons r).
  pose proof (rule3_reasons r). pose proof (rule5_reasons today r).
  pose proof (rule6_reasons r). pose proof (rule7_reasons r).
  pose proof (rule8_reasons r). pose proof (rule9_reasons r).
  unfold reasons in *. tauto.
Qed.

End validation_facts.

Module rule4_boundary.
Import validation validation_facts.

(** The valid record of the test suite, with the given total and
    stage minutes. *)
Definition sample (total deep light rem awake : option Z) : record :=
  {| effective_date := Some (datetime.Date 2024 3 14);
     total_sleep_minutes := total;
     deep_sleep_minutes := deep;
     light_sleep_minutes := light;
     rem_sleep_minutes := rem;
     awake_minutes := awake;
     sleep_efficiency := Some Float64.f_0_88;
     sleep_onset := Some (datetime.DateTime 1710457200 (Some datetime.UTC));
     sleep_offset := Some (datetime.DateTime 1710486000 (Some datetime.UTC));
     source := Some "oura" |}.

Definition today : datetime.date := datetime.Date 2024 3 20.

Definition flagged (today : datetime.date) (r : record) : Prop :=
  exists errs, validate_sleep_record today r = Some errs
               /\ In "stage_sum_exceeds_total" (reasons errs).

Definition passes (today : datetime.date) (r : record) : Prop :=
  exists errs, validate_sleep_record today r = Some errs
               /\ ~ In "stage_sum_exceeds_total" (reasons errs).

End rule4_boundary.

(** C5, as stated, fails outside the valid range of the total: a record
    whose stage sum equals a negative total is reported; a record whose
    total and stage sum are both 0 has its stage sum at 105.1% of the
    total and is not reported; and a record whose stage sum is exactly
    105% of a total too large for a double to hold exactly is reported. *)
Lemma rule4_boundary_counterexample :
  (let r := rule4_boundary.sample (Some (-10)) (Some (-10)) None None None in
   validation.stage_sum r = -10 /\ rule4_boundary.flagged rule4_boundary.today r)
  /\ (let r := rule4_boundary.sample (Some 0) (Some 0) None None None in
      1000 * validation.stage_sum r = 1051 * 0
      /\ rule4_boundary.passes rule4_boundary.today r)
  /\ (let r := rule4_boundary.sample (Some 180143985094819880)
                 (Some 189151184349560874) None None None in
      20 * validation.stage_sum r = 21 * 180143985094819880
      /\ rule4_boundary.flagged rule4_boundary.today r).
Proof.
  repeat split.
  - eexists. split; [vm_compute; reflexivity|]. cbn. tauto.
  - eexists. split; [vm_compute; reflexivity|]. cbn. intuition discriminate.
  - eexists. split; [vm_compute; reflexivity|]. cbn. tauto.
Qed.

(** C5 (amended): rule 4 is not evaluated when the total is absent; for a
    total in the range 0..1440 that rule 2 accepts, the record is reported
    with [stage_sum_exceeds_total] exactly when 20 * stage sum exceeds
    21 * total: a stage sum equal to the total passes, a stage sum at
    exactly 105% passes, and, for a positive total, a stage sum at 105.1%
    is reported. *)
Theorem rule4_boundary_exact (today : datetime.date) (r : validation.record) :
  (validation.total_sleep_minutes r = None -> rule4_boundary.passes today r)
  /\ (forall total,
        validation.total_sleep_minutes r = Some total ->
        0 <= total <= 1440 ->
        exists errs,
          validation.validate_sleep_record today r = Some errs
          /\ (In "stage_sum_exceeds_total" (validation_facts.reasons errs)
              <-> 21 * total < 20 * validation.stage_sum r)
          /\ (validation.stage_sum r = total ->
              ~ In "stage_sum_exceeds_total" (validation_facts.reasons errs))
          /\ (20 * validation.stage_sum r = 21 * total ->
              ~ In "stage_sum_exceeds_total" (validation_facts.reasons errs))
          /\ (0 < total -> 1000 * validation.stage_sum r = 1051 * total ->
              In "stage_sum_exceeds_total" (validation_facts.reasons errs))).
Proof.
  split.
  - intros Hnone.
    destruct (validation_facts.stage_reason_from_rule4 today r [])
      as (errs & Hv & Hiff).
    { unfold validation.rule4. rewrite Hnone. reflexivity. }
    exists errs. split; [exact Hv|]. rewrite Hiff. cbn. tauto.
  - intros total Htotal Hrange.
    destruct (validation_facts.tolerance_bound total Hrange) as (bound & Hb & Hgt).
    assert (H4 : exists e4, validation.rule4 r = Some e4
               /\ (In "stage_sum_exceeds_total" (validation_facts.reasons e4)
                   <-> 21 * total < 20 * validation.stage_sum r)).
    { unfold validation.rule4. rewrite Htotal, Hb. cbn. rewrite Hgt.
      destruct (Z.ltb_spec (21 * total) (20 * validation.stage_sum r)).
      - eexists. split; [reflexivity|]. cbn. tauto.
      - eexists. split; [reflexivity|]. cbn. intuition lia. }
    destruct H4 as (e4 & He4 & Hiff4).
    destruct (validation_facts.stage_reason_from_rule4 today r e4 He4)
      as (errs & Hv & Hiff).
    exists errs. split; [exact Hv|].
    rewrite Hiff, Hiff4. repeat split; lia.
Qed.

Lemma rule4_boundary_exact_witness :
  exists errs,
    validation.validate_sleep_record rule4_boundary.today
      (rule4_boundary.sample (Some 1000) (Some 1051) None None None) = Some errs
    /\ In "stage_sum_exceeds_total" (validation_facts.reasons errs).
Proof.
  destruct (proj2 (rule4_boundary_exact rule4_boundary.today
                     (rule4_boundary.sample (Some 1000) (Some 1051) None None None))
              1000 eq_refl ltac:(lia)) as (errs & Hv & _ & _ & _ & H).
  exists errs. split; [exact Hv|]. apply H; [lia|reflexivity].
Defined.

(* ===================================================================== *)
(** ** The vendor mappers: unit conversion and alias precedence           *)
(* ===================================================================== *)

Module adapters_facts.
Import Py.

(** Inversion of a chain of binds in a hypothesis. *)
Ltac bind_inv H :=
  repeat (let x := fresh "x" in
          let E := fresh "E" in
          apply bind_Some in H; destruct H as (x & E & H)).

(** [q] is the floor of [s / 60]. *)
Definition floor_minutes (s q : Z) : Prop := 60 * q <= s < 60 * q + 60.

Lemma floor_minutes_div (s : Z) : floor_minutes s (s / 60).
Proof. unfold floor_minutes. Z.div_mod_to_equations. lia. Qed.

(** Structural equality of two floats. *)
Definition float_same (a b : Float64.float) : bool :=
  match a, b with
  | S754_zero s, S754_zero t => Bool.eqb s t
  | S754_infinity s, S754_infinity t => Bool.eqb s t
  | S754_nan, S754_nan => true
  | S754_finite s m e, S754_finite t n f => Bool.eqb s t && Pos.eqb m n && Z.eqb e f
  | _, _ => false
  end.

Lemma float_same_eq (a b : Float64.float) : float_same a b = true -> a = b.
Proof.
  destruct a as [s|s| |s m e], b as [t|t| |t n f]; cbn; try discriminate;
    try reflexivity.
  - intros H. apply Bool.eqb_prop in H. congruence.
  - intros H. apply Bool.eqb_prop in H. congruence.
  - intros H. apply andb_prop in H as [H He]. apply andb_prop in H as [Hs Hm].
    apply Bool.eqb_prop in Hs. apply Pos.eqb_eq in Hm. apply Z.eqb_eq in He.
    congruence.
Qed.

(** What the record's fields are checked against. *)
Lemma SleepDay_init_fields id patient source rid eff fp raw ing upd
    total deep light rem awake onset offset efficiency extra d :
  models.SleepDay_init id patient source rid eff fp raw ing upd
    total deep light rem awake onset offset efficiency extra = Some d ->
  models.minutes_field total = Some (models.total_sleep_minutes d)
  /\ models.minutes_field deep = Some (models.deep_sleep_minutes d)
  /\ models.minutes_field light = Some (models.light_sleep_minutes d)
  /\ models.minutes_field rem = Some (models.rem_sleep_minutes d)
  /\ models.minutes_field awake = Some (models.awake_minutes d)
  /\ models.efficiency_field efficiency = Some (models.sleep_efficiency d)
  /\ models.str_field rid = Some (models.source_record_id d)
  /\ models.fingerprint d = fp /\ models.effective_date d = eff
  /\ models.source d = source /\ models.id d = id
  /\ models.patient_id d = patient /\ models.raw_payload d = raw
  /\ models.ingested_at d = ing /\ models.updated_at d = upd
  /\ models.sleep_onset d = onset /\ models.sleep_offset d = offset
  /\ models.extra d = extra.
Proof.
  intros H. unfold models.SleepDay_init in H.
  bind_inv H. injection H as <-. cbn. repeat split; assumption.
Qed.

(** The typed measurements of a record the Oura mapper built. *)
Lemma oura_entry_fields patient id now e d :
  adapters.oura_entry patient id now (JObj e) = Some (Some d) ->
  exists total deep light rem awake efficiency,
    adapters._sec_to_min (dict_get "total_sleep_duration" e) = Some total
    /\ adapters._sec_to_min (dict_get "deep_sleep_duration" e) = Some deep
    /\ adapters._sec_to_min (dict_get "light_sleep_duration" e) = Some light
    /\ adapters._sec_to_min (dict_get "rem_sleep_duration" e) = Some rem
    /\ adapters._sec_to_min (dict_get "awake_time" e) = Some awake
    /\ adapters._pct_to_ratio (dict_get "efficiency" e) = Some efficiency
    /\ models.minutes_field total = Some (models.total_sleep_minutes d)
    /\ models.minutes_field deep = Some (models.deep_sleep_minutes d)
    /\ models.minutes_field light = Some (models.light_sleep_minutes d)
    /\ models.minutes_field rem = Some (models.rem_sleep_minutes d)
    /\ models.minutes_field awake = Some (models.awake_minutes d)
    /\ models.efficiency_field efficiency = Some (models.sleep_efficiency d).
Proof.
  intros H. unfold adapters.oura_entry in H.
  destruct (negb (eq_str _ _)); [discriminate|].
  destruct (negb (eq_zero _)); [discriminate|].
  bind_inv H. injection H as ->.
  match goal with
  | H : models.SleepDay_init _ _ _ _ _ _ _ _ _ _ _ _ _ _ _ _ _ _ = Some _ |- _ =>
      apply SleepDay_init_fields in H; destruct H as (?&?&?&?&?&?&_)
  end.
  eexists _, _, _, _, _, _. repeat split; eassumption.
Qed.

(** Seconds held as an [int] become their floor division by 60. *)
Lemma minutes_of_seconds (v : json) (s : Z) (total : json) (m : option Z) :
  v = JInt s ->
  adapters._sec_to_min v = Some total ->
  models.minutes_field total = Some m ->
  m = Some (s / 60).
Proof.
  intros -> [= <-]. cbn. destruct (0 <=? s / 60); [|discriminate].
  now intros [= <-].
Qed.

(** For a percentage 0..100, [_pct_to_ratio] gives the double nearest to
    pct / 100, which rounding to four decimals leaves as it is, and the
    field keeps it. *)
Definition pct_ratio_exact (p : Z) : bool :=
  match Float64.int_truediv p Float64.f_100_0 with
  | Some q =>
      float_same (Float64.py_round q 4) q
      && match adapters._pct_to_ratio (JInt p) with
         | Some ratio =>
             match models.efficiency_field ratio with
             | Some (Some x) => float_same x q
             | _ => false
             end
         | None => false
         end
  | None => false
  end.

Lemma pct_ratio_exact_0_100 :
  forallb pct_ratio_exact (map Z.of_nat (seq 0 101)) = true.
Proof. vm_compute. reflexivity. Qed.

Lemma ratio_of_percentage (v : json) (p : Z) (ratio : json)
    (x : option Float64.float) :
  v = JInt p -> 0 <= p <= 100 ->
  adapters._pct_to_ratio v = Some ratio ->
  models.efficiency_field ratio = Some x ->
  exists q, Float64.int_truediv p Float64.f_100_0 = Some q
            /\ Float64.py_round q 4 = q /\ x = Some q.
Proof.
  intros -> Hr Hratio Hfield.
  pose proof pct_ratio_exact_0_100 as Hall.
  rewrite forallb_forall in Hall. specialize (Hall p).
  assert (Hin : In p (map Z.of_nat (seq 0 101))).
  { apply in_map_iff. exists (Z.to_nat p). split; [lia|]. apply in_seq. lia. }
  specialize (Hall Hin). unfold pct_ratio_exact in Hall.
  destruct (Float64.int_truediv p Float64.f_100_0) as [q|]; [|discriminate].
  apply andb_prop in Hall as [Hround Hall].
  rewrite Hratio, Hfield in Hall.
  destruct x as [x|]; [|discriminate].
  exists q. split; [reflexivity|]. split.
  - now apply float_same_eq.
  - f_equal. now apply float_same_eq.
Qed.

(** [round(x, 4)] on values of CPython 3.11: ties, values the binary
    form puts just off a tie, a signed zero, and values at and beyond
    [2^53 / 10^4], where the decimal no longer fits a double. *)
Example py_round_samples :
  forallb (fun c => float_same (Float64.py_round (fst c) 4) (snd c))
    [
    (* round(0.8812345, 4) = 0.8812 *)
    (S754_finite false 7937454731652051 (-53),
     S754_finite false 7937143983277762 (-53));
    (* round(0.12345, 4) = 0.1235 *)
    (S754_finite false 8895509983982204 (-56),
     S754_finite false 8899112863684100 (-56));
    (* round(5e-05, 4) = 0.0001 *)
    (S754_finite false 7378697629483821 (-67),
     S754_finite false 7378697629483821 (-66));
    (* round(0.00015, 4) = 0.0001 *)
    (S754_finite false 5534023222112865 (-65),
     S754_finite false 7378697629483821 (-66));
    (* round(0.99995, 4) = 1.0 *)
    (S754_finite false 9006748894778255 (-53),
     S754_finite false 4503599627370496 (-52));
    (* round(-4e-05, 4) = -0.0 *)
    (S754_finite true 5902958103587057 (-67),
     S754_zero true);
    (* round(2.675, 4) = 2.675 *)
    (S754_finite false 6023564501608038 (-51),
     S754_finite false 6023564501608038 (-51));
    (* round(844424930131968.1, 4) = 844424930131968.1 *)
    (S754_finite false 6755399441055745 (-3),
     S754_finite false 6755399441055745 (-3));
    (* round(1234567890123.4568, 4) = 1234567890123.4568 *)
    (S754_finite false 5056790077945679 (-12),
     S754_finite false 5056790077945679 (-12));
    (* round(9007199254740992.0, 4) = 9007199254740992.0 *)
    (S754_finite false 4503599627370496 (1),
     S754_finite false 4503599627370496 (1));
    (* round(5e-324, 4) = 0.0 *)
    (S754_finite false 1 (-1074),
     S754_zero false);
    (* round(1.7976931348623157e+308, 4) = 1.7976931348623157e+308 *)
    (S754_finite false 9007199254740991 (971),
     S754_finite false 9007199254740991 (971)) ] = true.
Proof. vm_compute. reflexivity. Qed.

(** [|q| * 10^ndigits] as a fraction (numerator, denominator), for a
    finite [q]. *)
Definition scaled (q : Float64.float) (ndigits : Z) : option (Z * Z) :=
  match q with
  | S754_zero _ => Some (0, 1)
  | S754_finite _ m e =>
      if 0 <=? e then Some (Zpos m * 2 ^ e * 10 ^ ndigits, 1)
      else Some (Zpos m * 10 ^ ndigits, 2 ^ (- e))
  | _ => None
  end.

(** [r] is [q] rounded to [ndigits] decimals: for an integer [k]
    nearest to [|q| * 10^ndigits], the even one of two equally near,
    [r] is the double nearest to [k / 10^ndigits], under the sign of
    [q]. *)
Definition rounded_to (ndigits : Z) (q r : Float64.float) : Prop :=
  exists num den k,
    scaled q ndigits = Some (num, den)
    /\ 0 < den /\ 0 <= k
    /\ Z.abs (2 * (num - k * den)) <= den
    /\ (Z.abs (2 * (num - k * den)) = den -> Z.even k = true)
    /\ r = Float64.of_decimal (Float64.sign_bit q) k (10 ^ ndigits).

Lemma round_half_even_nearest (p q : Z) :
  0 <= p -> 0 < q ->
  0 <= Float64.round_half_even p q
  /\ Z.abs (2 * (p - Float64.round_half_even p q * q)) <= q
  /\ (Z.abs (2 * (p - Float64.round_half_even p q * q)) = q ->
      Z.even (Float64.round_half_even p q) = true).
Proof.
  intros Hp Hq. unfold Float64.round_half_even.
  pose proof (Z.div_mod p q ltac:(lia)) as Hdm.
  pose proof (Z.mod_pos_bound p q Hq) as Hr.
  pose proof (Z.div_pos p q Hp Hq) as Hfl.
  destruct (Z.compare_spec (2 * (p mod q)) q) as [Heq | Hlt | Hgt].
  - destruct (Z.even (p / q)) eqn:Heven.
    + split; [lia|]. split; [lia|]. intros _. exact Heven.
    + split; [lia|]. split; [lia|]. intros _.
      rewrite Z.even_add, Heven. reflexivity.
  - split; [lia|]. split; lia.
  - split; [lia|]. split; lia.
Qed.

(** [round(q, ndigits)] is [q] rounded to [ndigits] decimals. *)
Lemma py_round_rounded (q : Float64.float) (ndigits : Z) :
  Float64.is_finite q = true -> 0 <= ndigits ->
  rounded_to ndigits q (Float64.py_round q ndigits).
Proof.
  intros Hfin Hn. destruct q as [s|s| |s m e]; try discriminate.
  - exists 0, 1, 0. cbn. repeat split; try lia.
  - unfold rounded_to, scaled, Float64.py_round. cbv zeta.
    assert (Hscale : 0 < 10 ^ ndigits) by (apply Z.pow_pos_nonneg; lia).
    destruct (0 <=? e) eqn:He.
    + exists (Zpos m * 2 ^ e * 10 ^ ndigits), 1, (Zpos m * 2 ^ e * 10 ^ ndigits).
      apply Z.leb_le in He.
      assert (0 < 2 ^ e) by (apply Z.pow_pos_nonneg; lia).
      repeat split; try lia; try nia.
    + apply Z.leb_gt in He.
      assert (Hden : 0 < 2 ^ (- e)) by (apply Z.pow_pos_nonneg; lia).
      destruct (round_half_even_nearest (Zpos m * 10 ^ ndigits) (2 ^ (- e))
                  ltac:(nia) Hden) as (Hk & Hnear & Htie).
      exists (Zpos m * 10 ^ ndigits), (2 ^ (- e)),
        (Float64.round_half_even (Zpos m * 10 ^ ndigits) (2 ^ (- e))).
      repeat split; assumption.
Qed.

(** What the record keeps of a float efficiency that does not exceed
    1.0. *)
Lemma efficiency_field_ratio (r : Float64.float) (x : option Float64.float) :
  Float64.ltb Float64.f_1_0 r = false ->
  models.efficiency_field (JFloat r) = Some x -> x = Some r.
Proof.
  intros Hle. unfold models.efficiency_field, models.normalize_efficiency.
  rewrite Hle. cbn [mbind option_bind].
  destruct (Float64.leb Float64.f_0_0 r && Float64.leb r Float64.f_1_0);
    [|discriminate].
  now intros [= <-].
Qed.

(** The entry of the scenario: the Oura fixture's long-sleep record. *)
Definition scenario_entry : dict :=
  [ ("id", JStr "8f9a5221-639e-4a85-81cb-4065ef23f979");
    ("day", JStr "2024-03-14");
    ("type", JStr "long_sleep");
    ("period", JInt 0);
    ("total_sleep_duration", JInt 26010);
    ("deep_sleep_duration", JInt 5160);
    ("light_sleep_duration", JInt 15600);
    ("rem_sleep_duration", JInt 5400);
    ("awake_time", JInt 2340);
    ("efficiency", JInt 88) ].

(** The same entry with the efficiency 88.12345, a percentage that
    rounding to four decimals changes. *)
Definition fractional_entry : dict :=
  [ ("id", JStr "8f9a5221-639e-4a85-81cb-4065ef23f979");
    ("day", JStr "2024-03-14");
    ("type", JStr "long_sleep");
    ("period", JInt 0);
    ("total_sleep_duration", JInt 26010);
    ("efficiency", JFloat Float64.f_88_12345) ].

(** [data.get(specific) or data.get(legacy)] takes the specific field
    exactly when its value is truthy. *)
Lemma resolve_alias_truthy (specific legacy : string) (data : dict) :
  adapters.resolve_alias specific legacy data
  = if truthy (dict_get specific data) then dict_get specific data
    else dict_get legacy data.
Proof. reflexivity. Qed.

(** A Withings series entry whose specific latency fields are present
    with the value 0 next to non-zero legacy fields. *)
Definition zero_latency_entry : json :=
  JObj [ ("id", JInt 987654321);
         ("date", JStr "2024-03-14");
         ("startdate", JInt 1710468840);
         ("enddate", JInt 1710496950);
         ("data", JObj [ ("total_sleep_time", JInt 25440);
                         ("sleep_latency", JInt 0);
                         ("durationtosleep", JInt 540);
                         ("wakeup_latency", JInt 0);
                         ("durationtowakeup", JInt 360) ]) ].

Definition no_zones : Runtime :=
  {| zoneinfo_keys := []; json_loads := fun _ => None |}.

End adapters_facts.

(** C7: for every entry the Oura mapper turns into a record, a duration
    held in seconds becomes its floor division by 60 in minutes.  A
    percentage efficiency becomes the ratio pct / 100.0 rounded to four
    decimals: for an integer 0..100 this is the double nearest to
    pct / 100, which the rounding leaves as it is; for a float pct the
    quotient q = pct / 100.0 is rounded to the nearest multiple k / 10^4
    (the even k of two equally near) and the record carries the double
    nearest to k / 10^4, as long as that ratio does not exceed 1.0.  The
    entry of the scenario maps to 433, 86, 260, 90 and 39 minutes and the
    efficiency 0.88; with the efficiency 88.12345 it maps to 0.8812. *)
Theorem oura_unit_conversion (patient id : uuid.UUID) (now : Z) :
  (forall e d,
     adapters.oura_entry patient id now (Py.JObj e) = Some (Some d) ->
     (forall s, Py.dict_get "total_sleep_duration" e = Py.JInt s ->
        models.total_sleep_minutes d = Some (s / 60)
        /\ adapters_facts.floor_minutes s (s / 60))
     /\ (forall s, Py.dict_get "deep_sleep_duration" e = Py.JInt s ->
           models.deep_sleep_minutes d = Some (s / 60))
     /\ (forall s, Py.dict_get "light_sleep_duration" e = Py.JInt s ->
           models.light_sleep_minutes d = Some (s / 60))
     /\ (forall s, Py.dict_get "rem_sleep_duration" e = Py.JInt s ->
           models.rem_sleep_minutes d = Some (s / 60))
     /\ (forall s, Py.dict_get "awake_time" e = Py.JInt s ->
           models.awake_minutes d = Some (s / 60))
     /\ (forall p, Py.dict_get "efficiency" e = Py.JInt p -> 0 <= p <= 100 ->
           exists q, Float64.int_truediv p Float64.f_100_0 = Some q
                     /\ Float64.py_round q 4 = q
                     /\ models.sleep_efficiency d = Some q)
     /\ (forall x, Py.dict_get "efficiency" e = Py.JFloat x ->
           Float64.is_finite (Float64.div x Float64.f_100_0) = true ->
           adapters_facts.rounded_to 4 (Float64.div x Float64.f_100_0)
             (Float64.py_round (Float64.div x Float64.f_100_0) 4)
           /\ (Float64.ltb Float64.f_1_0
                 (Float64.py_round (Float64.div x Float64.f_100_0) 4) = false ->
               models.sleep_efficiency d
               = Some (Float64.py_round (Float64.div x Float64.f_100_0) 4))))
  /\ (exists d,
        adapters.oura_entry patient id now (Py.JObj adapters_facts.scenario_entry)
        = Some (Some d)
        /\ models.total_sleep_minutes d = Some 433
        /\ models.deep_sleep_minutes d = Some 86
        /\ models.light_sleep_minutes d = Some 260
        /\ models.rem_sleep_minutes d = Some 90
        /\ models.awake_minutes d = Some 39
        /\ models.sleep_efficiency d = Some Float64.f_0_88)
  /\ (exists d,
        adapters.oura_entry patient id now (Py.JObj adapters_facts.fractional_entry)
        = Some (Some d)
        /\ Float64.py_round (Float64.div Float64.f_88_12345 Float64.f_100_0) 4
           = Float64.f_0_8812
        /\ Float64.div Float64.f_88_12345 Float64.f_100_0 <> Float64.f_0_8812
        /\ models.sleep_efficiency d = Some Float64.f_0_8812).
Proof.
  split; [|split].
  - intros e d H.
    destruct (adapters_facts.oura_entry_fields patient id now e d H)
      as (total & deep & light & rem & awake & eff
          & Ht & Hd & Hl & Hr & Ha & He & Ft & Fd & Fl & Fr & Fa & Fe).
    split; [|split; [|split; [|split; [|split; [|split]]]]].
    + intros s Hs. split.
      * eapply adapters_facts.minutes_of_seconds; eassumption.
      * apply adapters_facts.floor_minutes_div.
    + intros s Hs. eapply adapters_facts.minutes_of_seconds; eassumption.
    + intros s Hs. eapply adapters_facts.minutes_of_seconds; eassumption.
    + intros s Hs. eapply adapters_facts.minutes_of_seconds; eassumption.
    + intros s Hs. eapply adapters_facts.minutes_of_seconds; eassumption.
    + intros p Hp Hrange.
      destruct (adapters_facts.ratio_of_percentage _ p eff _ Hp Hrange He Fe)
        as (q & Hq & Hround & Hx).
      exists q. repeat split; assumption.
    + intros x Hx Hfin. split.
      * apply adapters_facts.py_round_rounded; [exact Hfin|lia].
      * intros Hle. rewrite Hx in He. cbn [adapters._pct_to_ratio] in He.
        injection He as <-.
        exact (adapters_facts.efficiency_field_ratio _ _ Hle Fe).
  - eexists. split; [vm_compute; reflexivity|]. cbn. repeat split.
  - eexists. split; [vm_compute; reflexivity|].
    split; [vm_compute; reflexivity|]. split; [|vm_compute; reflexivity].
    vm_compute. discriminate.
Qed.

Lemma oura_unit_conversion_witness :
  exists d,
    adapters.oura_entry 7 1 0 (Py.JObj adapters_facts.scenario_entry) = Some (Some d)
    /\ models.total_sleep_minutes d = Some (26010 / 60)
    /\ exists q, Float64.int_truediv 88 Float64.f_100_0 = Some q
                 /\ models.sleep_efficiency d = Some q.
Proof.
  destruct (proj1 (proj2 (oura_unit_conversion 7 1 0))) as (d & Hd & _).
  exists d. split; [exact Hd|].
  destruct (proj1 (oura_unit_conversion 7 1 0) _ d Hd)
    as (Ht & _ & _ & _ & _ & He & _).
  split.
  - apply (Ht 26010). reflexivity.
  - destruct (He 88 eq_refl ltac:(lia)) as (q & Hq & _ & Hx).
    exists q. split; assumption.
Defined.

(** C8 (the code at the failing input): both latency fields are present
    with the value 0, yet the record carries the minutes of the legacy
    fields, 540 // 60 = 9 and 360 // 60 = 6, where taking the specific
    fields would give 0. *)
Theorem withings_alias_zero_falls_back :
  exists d data,
    adapters.withings_entry adapters_facts.no_zones 7 1 0
      adapters_facts.zero_latency_entry = Some (Some d)
    /\ Py.dict_get "data" (models.raw_payload d) = Py.JObj data
    /\ Py.dict_has "sleep_latency" data = true
    /\ Py.dict_has "wakeup_latency" data = true
    /\ adapters._sec_to_min (Py.dict_get "sleep_latency" data) = Some (Py.JInt 0)
    /\ adapters._sec_to_min (Py.dict_get "wakeup_latency" data) = Some (Py.JInt 0)
    /\ Py.dict_get "latency_minutes" (models.extra d) = Py.JInt 9
    /\ Py.dict_get "wakeup_latency_minutes" (models.extra d) = Py.JInt 6.
Proof.
  eexists _, _. split; [vm_compute; reflexivity|]. cbn.
  repeat split; reflexivity.
Qed.

(* ===================================================================== *)
(** ** The idempotency claim                                              *)
(* ===================================================================== *)

Module claim_facts.
Import orm repository.

(** The outcome the claim protocol assigns to the prior state of a key:
    an absent or expired row gives [claimed]; a live row with another
    request hash [conflict]; a live row with the same hash [completed]
    with what it stores once a terminal status is recorded, [in_flight]
    before. *)
Definition outcome_of_prior (prior : option IdempotencyKeyModel)
    (request_hash : string) (now : Z) : claim_status :=
  match prior with
  | None => claimed
  | Some row =>
      if ik_expires_at row <=? now then claimed
      else if negb (String.eqb (ik_request_hash row) request_hash) then conflict
      else match ik_status_code row with
           | Some code => completed code (ik_response_body row)
           | None => in_flight
           end
  end.

(** The key is absent or its row has expired. *)
Definition reusable (db : Database) (key : string) (now : Z) : Prop :=
  match idempotency_keys db !! key with
  | None => True
  | Some row => ik_expires_at row <= now
  end.

Lemma claim_status_by_prior (db : Database) (key source request_hash : string)
    (now : Z) :
  snd (atomic_claim_idempotency_key db key source request_hash now)
  = outcome_of_prior (idempotency_keys db !! key) request_hash now.
Proof.
  unfold atomic_claim_idempotency_key, outcome_of_prior, purge_expired,
    insert_do_nothing, select_live.
  destruct (idempotency_keys db !! key) as [row|] eqn:Hrow.
  - destruct (Z.leb_spec (ik_expires_at row) now) as [Hexp | Hlive].
    + rewrite lookup_delete_eq. reflexivity.
    + rewrite Hrow. cbn. rewrite Hrow.
      destruct (Z.ltb_spec now (ik_expires_at row)); [|lia].
      destruct (negb (String.eqb (ik_request_hash row) request_hash)); [reflexivity|].
      destruct (ik_status_code row); reflexivity.
  - rewrite Hrow. reflexivity.
Qed.

(** A successful claim stores a row locked at [now] that carries the
    caller's hash, no terminal status, and expires one TTL later. *)
Lemma claim_stores_row (db : Database) (key source request_hash : string)
    (now : Z) :
  reusable db key now ->
  idempotency_keys (fst (atomic_claim_idempotency_key db key source request_hash now))
    !! key
  = Some {| ik_source := source; ik_request_hash := request_hash;
            ik_status_code := None; ik_response_body := None;
            ik_locked_at := Some now; ik_created_at := now;
            ik_expires_at := now + IDEMPOTENCY_TTL |}.
Proof.
  unfold reusable, atomic_claim_idempotency_key, purge_expired, insert_do_nothing.
  destruct (idempotency_keys db !! key) as [row|] eqn:Hrow.
  - intros Hexp. destruct (Z.leb_spec (ik_expires_at row) now); [|lia].
    rewrite lookup_delete_eq. cbn. apply lookup_insert_eq.
  - intros _. rewrite Hrow. cbn. apply lookup_insert_eq.
Qed.

End claim_facts.

(** C2: the status a claim returns is determined by the prior state of
    the key (absent or expired: claimed; live with another hash:
    conflict; live with the same hash: completed with the stored status
    code and body, or in_flight while none is recorded); and when a key
    is absent or expired, a claim followed by a second one with another
    request hash, made before the first one's row expires, yields claimed
    and then conflict. *)
Theorem claim_outcomes (db : orm.Database) (key source hash : string) (now : Z) :
  snd (repository.atomic_claim_idempotency_key db key source hash now)
  = claim_facts.outcome_of_prior (orm.idempotency_keys db !! key) hash now
  /\ (claim_facts.reusable db key now ->
      snd (repository.atomic_claim_idempotency_key db key source hash now)
      = repository.claimed)
  /\ (forall row, orm.idempotency_keys db !! key = Some row ->
        now < orm.ik_expires_at row -> orm.ik_request_hash row <> hash ->
        snd (repository.atomic_claim_idempotency_key db key source hash now)
        = repository.conflict)
  /\ (forall row code, orm.idempotency_keys db !! key = Some row ->
        now < orm.ik_expires_at row -> orm.ik_request_hash row = hash ->
        orm.ik_status_code row = Some code ->
        snd (repository.atomic_claim_idempotency_key db key source hash now)
        = repository.completed code (orm.ik_response_body row))
  /\ (forall row, orm.idempotency_keys db !! key = Some row ->
        now < orm.ik_expires_at row -> orm.ik_request_hash row = hash ->
        orm.ik_status_code row = None ->
        snd (repository.atomic_claim_idempotency_key db key source hash now)
        = repository.in_flight)
  /\ (forall source2 hash2 now2,
        claim_facts.reusable db key now -> hash <> hash2 ->
        now2 < now + orm.IDEMPOTENCY_TTL ->
        snd (repository.atomic_claim_idempotency_key db key source hash now)
        = repository.claimed
        /\ snd (repository.atomic_claim_idempotency_key
                  (fst (repository.atomic_claim_idempotency_key db key source hash now))
                  key source2 hash2 now2)
           = repository.conflict).
Proof.
  pose proof (claim_facts.claim_status_by_prior db key source hash now) as Hs.
  assert (Hclaimed : claim_facts.reusable db key now ->
            snd (repository.atomic_claim_idempotency_key db key source hash now)
            = repository.claimed).
  { rewrite Hs. unfold claim_facts.reusable, claim_facts.outcome_of_prior.
    destruct (orm.idempotency_keys db !! key) as [row|]; [|reflexivity].
    intros H. destruct (Z.leb_spec (orm.ik_expires_at row) now); [reflexivity|lia]. }
  split; [exact Hs|]. split; [exact Hclaimed|].
  split; [|split; [|split]].
  - rewrite Hs. unfold claim_facts.outcome_of_prior.
    intros row -> Hlive Hne.
    destruct (Z.leb_spec (orm.ik_expires_at row) now); [lia|].
    destruct (String.eqb_spec (orm.ik_request_hash row) hash); [contradiction|].
    reflexivity.
  - rewrite Hs. unfold claim_facts.outcome_of_prior.
    intros row code -> Hlive Heq Hcode.
    destruct (Z.leb_spec (orm.ik_expires_at row) now); [lia|].
    destruct (String.eqb_spec (orm.ik_request_hash row) hash); [|contradiction].
    cbn. rewrite Hcode. reflexivity.
  - rewrite Hs. unfold claim_facts.outcome_of_prior.
    intros row -> Hlive Heq Hcode.
    destruct (Z.leb_spec (orm.ik_expires_at row) now); [lia|].
    destruct (String.eqb_spec (orm.ik_request_hash row) hash); [|contradiction].
    cbn. rewrite Hcode. reflexivity.
  - intros source2 hash2 now2 Hre Hne Hlive.
    split.
    + exact (Hclaimed Hre).
    + rewrite claim_facts.claim_status_by_prior.
      rewrite (claim_facts.claim_stores_row db key source hash now Hre).
      cbn. destruct (Z.leb_spec (now + orm.IDEMPOTENCY_TTL) now2); [lia|].
      destruct (String.eqb_spec hash hash2); [contradiction|]. reflexivity.
Qed.

Lemma claim_outcomes_witness :
  snd (repository.atomic_claim_idempotency_key orm.empty "k1" "oura" "h1" 100)
  = repository.claimed
  /\ snd (repository.atomic_claim_idempotency_key
            (fst (repository.atomic_claim_idempotency_key orm.empty "k1" "oura" "h1" 100))
            "k1" "oura" "h2" 200)
     = repository.conflict.
Proof.
  apply (proj2 (proj2 (proj2 (proj2 (proj2
           (claim_outcomes orm.empty "k1" "oura" "h1" 100))))) "oura" "h2" 200).
  - exact I.
  - discriminate.
  - reflexivity.
Defined.

(* ===================================================================== *)
(** ** Upsert by fingerprint                                              *)
(* ===================================================================== *)

Module upsert_facts.
Import orm repository.

(** What an upsert that hits [old] leaves in its place: the identity and
    provenance columns of [old], the measurements, extension map and raw
    payload of the proposed [record], and [updated_at] set to [now]. *)
Definition updated_in_place (record : SleepDayModel) (now : Z)
    (old new : SleepDayModel) : Prop :=
  id new = id old
  /\ patient_id new = patient_id old
  /\ source new = source old
  /\ source_record_id new = source_record_id old
  /\ effective_date new = effective_date old
  /\ fingerprint new = fingerprint old
  /\ ingested_at new = ingested_at old
  /\ total_sleep_minutes new = total_sleep_minutes record
  /\ deep_sleep_minutes new = deep_sleep_minutes record
  /\ light_sleep_minutes new = light_sleep_minutes record
  /\ rem_sleep_minutes new = rem_sleep_minutes record
  /\ awake_minutes new = awake_minutes record
  /\ sleep_onset new = sleep_onset record
  /\ sleep_offset new = sleep_offset record
  /\ sleep_efficiency new = sleep_efficiency record
  /\ extra new = extra record
  /\ raw_payload new = raw_payload record
  /\ updated_at new = datetime.DateTime now (Some datetime.UTC).

(** Row by row, what the table holds after an upsert that updated: a
    row with the proposed fingerprint is updated in place, any other row
    is untouched. *)
Definition row_after (record : SleepDayModel) (now : Z)
    (old new : SleepDayModel) : Prop :=
  if String.eqb (fingerprint old) (fingerprint record)
  then updated_in_place record now old new
  else new = old.

Lemma do_update_in_place (record : SleepDayModel) (now : Z) (old : SleepDayModel) :
  updated_in_place record now old (do_update record now old).
Proof. unfold updated_in_place, do_update. cbn. repeat split. Qed.

Lemma map_row_after (record : SleepDayModel) (now : Z) (rows : list SleepDayModel) :
  Forall2 (row_after record now) rows
    (map (fun r => if same_fingerprint record r then do_update record now r else r)
         rows).
Proof.
  induction rows as [|r rows IH]; cbn; constructor; [|exact IH].
  unfold row_after, same_fingerprint.
  destruct (String.eqb (fingerprint r) (fingerprint record)).
  - apply do_update_in_place.
  - reflexivity.
Qed.

Lemma find_same_fingerprint_none (record : SleepDayModel) (rows : list SleepDayModel) :
  find (same_fingerprint record) rows = None ->
  forall r, In r rows -> fingerprint r <> fingerprint record.
Proof.
  intros Hnone r Hin Heq.
  pose proof (find_none _ _ Hnone r Hin) as H.
  unfold same_fingerprint in H. rewrite Heq, String.eqb_refl in H. discriminate.
Qed.

Lemma find_same_fingerprint_some (record old : SleepDayModel)
    (rows : list SleepDayModel) :
  find (same_fingerprint record) rows = Some old ->
  In old rows /\ fingerprint old = fingerprint record.
Proof.
  intros H. apply find_some in H as [Hin Hfp]. split; [exact Hin|].
  unfold same_fingerprint in Hfp. now apply String.eqb_eq in Hfp.
Qed.

(** The two ways an upsert succeeds. *)
Lemma upsert_cases (db : Database) (record : SleepDayModel) (now : Z)
    (db' : Database) (row_id : uuid.UUID) (was_inserted : bool) :
  upsert db record now = Upserted db' row_id was_inserted ->
  (exists old,
     find (same_fingerprint record) (sleep_days db) = Some old
     /\ was_inserted = false /\ row_id = id old
     /\ db' = with_sleep_days db
                (map (fun r => if same_fingerprint record r
                               then do_update record now r else r)
                     (sleep_days db)))
  \/ (find (same_fingerprint record) (sleep_days db) = None
      /\ was_inserted = true /\ row_id = id record
      /\ db' = with_sleep_days db (sleep_days db ++ [record])).
Proof.
  unfold upsert. destruct (check_violation record); [discriminate|].
  destruct (find (same_fingerprint record) (sleep_days db)) as [old|] eqn:Hfind.
  - intros [= <- <- <-]. left. exists old. repeat split.
  - destruct (existsb _ _); [discriminate|].
    destruct (existsb _ _); [discriminate|].
    intros [= <- <- <-]. right. repeat split.
Qed.

(** A stored row and a proposed row with the same fingerprint. *)
Definition sample_row (row_id : uuid.UUID) (at_ : Z) (total : Z) : SleepDayModel :=
  {| id := row_id; patient_id := 7; source := "oura"; source_record_id := "a";
     raw_payload := []; fingerprint := "f1";
     effective_date := datetime.Date 2024 3 14;
     ingested_at := datetime.DateTime at_ (Some datetime.UTC);
     updated_at := datetime.DateTime at_ (Some datetime.UTC);
     total_sleep_minutes := Some total;
     deep_sleep_minutes := None; light_sleep_minutes := None;
     rem_sleep_minutes := None; awake_minutes := None;
     sleep_onset := None; sleep_offset := None;
     sleep_efficiency := None; extra := [] |}.

End upsert_facts.

(** C4: an upsert that succeeds touches no other table; its
    [was_inserted] flag is true exactly when the table has one row more,
    and false exactly when a stored row had the proposed fingerprint.  On
    such a hit, every row with that fingerprint keeps its id, patient_id,
    source, source_record_id, effective_date, fingerprint and ingested_at
    and takes the proposed measurements, extension map and raw payload and
    the new [updated_at]; every other row is unchanged; and the returned id
    is the stored row's.  Otherwise the proposed row is appended. *)
Theorem upsert_frame (db : orm.Database) (record : orm.SleepDayModel) (now : Z)
    (db' : orm.Database) (row_id : uuid.UUID) (was_inserted : bool) :
  repository.upsert db record now = repository.Upserted db' row_id was_inserted ->
  orm.raw_vendor_responses db' = orm.raw_vendor_responses db
  /\ orm.quarantine_records db' = orm.quarantine_records db
  /\ orm.idempotency_keys db' = orm.idempotency_keys db
  /\ (was_inserted = true
      <-> length (orm.sleep_days db') = S (length (orm.sleep_days db)))
  /\ (was_inserted = false
      <-> exists old, In old (orm.sleep_days db)
                      /\ orm.fingerprint old = orm.fingerprint record)
  /\ (was_inserted = false ->
      Forall2 (upsert_facts.row_after record now)
        (orm.sleep_days db) (orm.sleep_days db')
      /\ exists old, In old (orm.sleep_days db)
                     /\ orm.fingerprint old = orm.fingerprint record
                     /\ row_id = orm.id old)
  /\ (was_inserted = true ->
      orm.sleep_days db' = orm.sleep_days db ++ [record]
      /\ row_id = orm.id record).
Proof.
  intros H.
  destruct (upsert_facts.upsert_cases db record now db' row_id was_inserted H)
    as [(old & Hfind & -> & -> & ->) | (Hfind & -> & -> & ->)]; cbn.
  - apply upsert_facts.find_same_fingerprint_some in Hfind as [Hin Hfp].
    repeat split; try discriminate; try reflexivity.
    + rewrite length_map. intros Hl. lia.
    + intros _. exists old. split; assumption.
    + apply upsert_facts.map_row_after.
    + exists old. repeat split; assumption.
  - pose proof (upsert_facts.find_same_fingerprint_none record _ Hfind) as Hnone.
    repeat split; try discriminate; try reflexivity.
    + intros _. rewrite length_app. cbn. lia.
    + intros (old & Hin & Hfp). exfalso. exact (Hnone old Hin Hfp).
Qed.

Lemma upsert_frame_witness :
  Forall2 (upsert_facts.row_after (upsert_facts.sample_row 2 20 440) 20)
    [upsert_facts.sample_row 1 10 430]
    [repository.do_update (upsert_facts.sample_row 2 20 440) 20
       (upsert_facts.sample_row 1 10 430)].
Proof.
  apply (upsert_frame
           (repository.with_sleep_days orm.empty [upsert_facts.sample_row 1 10 430])
           (upsert_facts.sample_row 2 20 440) 20
           (repository.with_sleep_days orm.empty
              [repository.do_update (upsert_facts.sample_row 2 20 440) 20
                 (upsert_facts.sample_row 1 10 430)])
           1 false);
    reflexivity.
Defined.

(* ===================================================================== *)
(** ** The ingestion loop: routing and counters                           *)
(* ===================================================================== *)

Module pipeline_facts.
Import orm repository pipeline.

(** Number of per-record results with a given status. *)
Definition count_status (s : string) (r : IngestResult) : Z :=
  Z.of_nat (length (List.filter (fun x => String.eqb (status x) s) (results r))).

(** The counter invariant of a result over [n] candidates. *)
Definition counters_hold (n : Z) (r : IngestResult) : Prop :=
  Z.of_nat (length (results r)) = n
  /\ records_inserted r = count_status "created" r
  /\ records_updated r = count_status "deduplicated" r
  /\ records_quarantined r = count_status "quarantined" r
  /\ records_inserted r + records_updated r + records_quarantined r = n
  /\ records_processed r = records_inserted r + records_updated r
  /\ Forall (fun x => status x = "quarantined" -> sleep_day_id x = "") (results r)
  /\ Forall (fun x => status x = "created" \/ status x = "deduplicated"
                      \/ status x = "quarantined") (results r).

Lemma counters_new (batch : uuid.UUID) : counters_hold 0 (new_result batch).
Proof. unfold counters_hold, count_status. cbn. repeat split; constructor. Qed.

Lemma count_status_app (s : string) (r : IngestResult) (x : IngestRecordResult)
    (r' : IngestResult) :
  results r' = results r ++ [x] ->
  count_status s r'
  = count_status s r + (if String.eqb (status x) s then 1 else 0).
Proof.
  unfold count_status. intros ->. rewrite List.filter_app, length_app. cbn.
  destruct (String.eqb (status x) s); cbn; lia.
Qed.

Lemma counters_quarantined (n : Z) (r : IngestResult) :
  counters_hold n r -> counters_hold (n + 1) (add_quarantined r).
Proof.
  intros (Hlen & Hi & Hu & Hq & Hsum & Hp & Hid & Hst).
  unfold counters_hold.
  rewrite !(count_status_app _ r {| sleep_day_id := ""; status := "quarantined" |}
              (add_quarantined r) eq_refl).
  cbn. rewrite length_app. cbn.
  repeat split; try lia.
  - apply Forall_app. split; [exact Hid|]. constructor; [reflexivity|constructor].
  - apply Forall_app. split; [exact Hst|]. constructor; [|constructor]. cbn. tauto.
Qed.

Lemma counters_upserted (n : Z) (r : IngestResult) (row_id : uuid.UUID)
    (was_inserted : bool) :
  counters_hold n r -> counters_hold (n + 1) (add_upserted r row_id was_inserted).
Proof.
  intros (Hlen & Hi & Hu & Hq & Hsum & Hp & Hid & Hst).
  unfold counters_hold.
  rewrite !(count_status_app _ r
              {| sleep_day_id := uuid.str row_id;
                 status := if was_inserted then "created" else "deduplicated" |}
              (add_upserted r row_id was_inserted) eq_refl).
  cbn. rewrite length_app. cbn.
  destruct was_inserted; cbn; repeat split; try lia.
  - apply Forall_app. split; [exact Hid|]. constructor; [discriminate|constructor].
  - apply Forall_app. split; [exact Hst|]. constructor; [|constructor]. cbn. tauto.
  - apply Forall_app. split; [exact Hid|]. constructor; [discriminate|constructor].
  - apply Forall_app. split; [exact Hst|]. constructor; [|constructor]. cbn. tauto.
Qed.

(** One candidate adds one entry to the result. *)
Lemma ingest_record_counters today now source patient raw_id d w r w' r' n :
  ingest_record today now source patient raw_id d w r = Some (w', r') ->
  counters_hold n r -> counters_hold (n + 1) r'.
Proof.
  unfold ingest_record. intros H Hc.
  destruct (validation.validate_sleep_record today (validation.model_dump d))
    as [errors|]; [|discriminate].
  cbn in H. destruct errors as [|first rest].
  - destruct (upsert _ _ _) as [db row_id ins | exc].
    + injection H as <- <-. now apply counters_upserted.
    + destruct (is_source_record_collision exc); [|discriminate].
      injection H as <- <-. now apply counters_quarantined.
  - injection H as <- <-. now apply counters_quarantined.
Qed.

Lemma ingest_records_counters today now source patient raw_id days :
  forall w r w' r' n,
    ingest_records today now source patient raw_id days w r = Some (w', r') ->
    counters_hold n r -> counters_hold (n + Z.of_nat (length days)) r'.
Proof.
  induction days as [|d days IH]; intros w r w' r' n H Hc.
  - injection H as <- <-. cbn. now rewrite Z.add_0_r.
  - cbn [ingest_records] in H.
    destruct (ingest_record today now source patient raw_id d w r)
      as [[w1 r1]|] eqn:Hstep; [|discriminate].
    pose proof (ingest_record_counters _ _ _ _ _ _ _ _ _ _ n Hstep Hc) as Hc1.
    specialize (IH _ _ _ _ _ H Hc1).
    replace (n + Z.of_nat (length (d :: days)))
      with (n + 1 + Z.of_nat (length days)) by (cbn [length]; lia).
    exact IH.
Qed.

Lemma contains_here (needle hay : string) :
  String.prefix needle hay = true -> Py.contains needle hay = true.
Proof. intros H. destruct hay; cbn in *; rewrite H; reflexivity. Qed.

Lemma contains_later (needle : string) (c : ascii) (hay : string) :
  Py.contains needle hay = true -> Py.contains needle (String c hay) = true.
Proof. intros H. cbn [Py.contains]. rewrite H. apply orb_true_r. Qed.

Lemma contains_append (needle front hay : string) :
  Py.contains needle hay = true -> Py.contains needle (front +:+ hay) = true.
Proof.
  intros H. induction front as [|c front IH]; [exact H|].
  cbn [String.append]. now apply contains_later.
Qed.

(** The text of every rejection names the column [source_record_id],
    through the statement it quotes. *)
Lemma violation_is_collision (kind name : string) :
  is_source_record_collision (violation kind name) = true.
Proof.
  unfold is_source_record_collision, violation. cbn [message constraint_name].
  apply orb_true_iff. right.
  do 4 apply contains_append. vm_compute. reflexivity.
Qed.

Lemma upsert_rejection_is_collision db record now exc :
  upsert db record now = Rejected exc -> is_source_record_collision exc = true.
Proof.
  unfold upsert.
  destruct (check_violation record).
  - intros [= <-]. apply violation_is_collision.
  - destruct (find _ _); [discriminate|].
    destruct (existsb _ _); [intros [= <-]; apply violation_is_collision|].
    destruct (existsb _ _); [intros [= <-]; apply violation_is_collision|].
    discriminate.
Qed.

(** The quarantine row written for a candidate the store rejected. *)
Definition reuse_row (w : World) (now : Z) (patient : uuid.UUID) (source : string)
    (raw_id : uuid.UUID) (d : models.SleepDay) : QuarantineRecordModel :=
  {| q_id := next_uuid w; q_patient_id := patient; q_source := source;
     q_pipeline_stage := "upsert";
     q_quarantine_reason := "source_record_id_reused_across_dates";
     q_quarantine_details :=
       details_reuse (models.source_record_id d)
         (datetime.isoformat (models.effective_date d)) (models.fingerprint d);
     q_raw_payload := models.raw_payload d;
     q_fingerprint := Some (models.fingerprint d);
     q_effective_date := Some (models.effective_date d);
     q_raw_response_id := Some raw_id;
     q_resolved := false; q_created_at := now |}.

(** A valid candidate: the night of the integration tests. *)
Definition candidate (row_id : uuid.UUID) (record_id : string)
    (day : datetime.date) : models.SleepDay :=
  {| models.id := row_id; models.patient_id := 7; models.source := models.OURA;
     models.source_record_id := record_id; models.raw_payload := [];
     models.fingerprint := models.compute_fingerprint models.OURA record_id day;
     models.effective_date := day;
     models.ingested_at := datetime.DateTime 1000 (Some datetime.UTC);
     models.updated_at := datetime.DateTime 1000 (Some datetime.UTC);
     models.total_sleep_minutes := Some 480;
     models.deep_sleep_minutes := Some 90;
     models.light_sleep_minutes := Some 240;
     models.rem_sleep_minutes := Some 120;
     models.awake_minutes := Some 30;
     models.sleep_onset :=
       Some (datetime.DateTime 1710475200 (Some (datetime.FixedOffset (-18000))));
     models.sleep_offset :=
       Some (datetime.DateTime 1710504000 (Some (datetime.FixedOffset (-18000))));
     models.sleep_efficiency := Some Float64.f_0_88;
     models.extra := [] |}.

(** A session whose store holds the given rows of [sleep_days], all
    committed. *)
Definition world_with (rows : list SleepDayModel) (next : uuid.UUID) : World :=
  {| session := {| committed := with_sleep_days orm.empty rows;
                   pending := with_sleep_days orm.empty rows |};
     next_uuid := next |}.

End pipeline_facts.

(** C10: when the adapter parses the payload into [sleep_days], every
    result the call returns has one entry per candidate; its inserted,
    updated and quarantined counters are the numbers of entries with the
    statuses created, deduplicated and quarantined, and add up to the
    number of candidates; records_processed is inserted plus updated; and
    every quarantined entry has an empty record id. *)
Theorem ingest_counter_invariant (rt : Runtime) (w : pipeline.World) (now : Z)
    (today : datetime.date) (source : string) (raw_payload : Py.dict)
    (patient_id : uuid.UUID)
    (parse : Py.dict -> uuid.UUID -> uuid.UUID -> Z -> option (list models.SleepDay))
    (sleep_days : list models.SleepDay) (w' : pipeline.World)
    (result : pipeline.IngestResult) :
  adapters.get_adapter rt source = Some parse ->
  parse raw_payload patient_id (pipeline.next_uuid w + 1 + 1) now = Some sleep_days ->
  pipeline.ingest_sleep_data rt w now today source raw_payload patient_id
  = Some (w', result) ->
  pipeline_facts.counters_hold (Z.of_nat (length sleep_days)) result.
Proof.
  intros Hadapter Hparse. unfold pipeline.ingest_sleep_data.
  rewrite Hadapter. cbn. rewrite Hparse. intros H.
  destruct (pipeline.ingest_records _ _ _ _ _ _ _ _) as [[w1 r1]|] eqn:Hloop;
    [|discriminate].
  injection H as <- <-.
  exact (pipeline_facts.ingest_records_counters _ _ _ _ _ _ _ _ _ _ 0 Hloop
           (pipeline_facts.counters_new _)).
Qed.

Module scenarios.
Import Py.

(** An Oura entry that passes all nine rules: the night of the
    integration tests, under a chosen native id and day. *)
Definition night (record_id day : string) : json :=
  JObj [ ("id", JStr record_id);
         ("day", JStr day);
         ("type", JStr "long_sleep");
         ("period", JInt 0);
         ("total_sleep_duration", JInt 28800);
         ("deep_sleep_duration", JInt 5400);
         ("light_sleep_duration", JInt 14400);
         ("rem_sleep_duration", JInt 7200);
         ("awake_time", JInt 1800);
         ("efficiency", JInt 88);
         ("bedtime_start", JStr "2024-03-14T23:00:00-05:00");
         ("bedtime_end", JStr "2024-03-15T07:00:00-05:00");
         ("time_in_bed", JInt 28800) ].

Definition payload (entries : list json) : dict := [("data", JArr entries)].

Definition runtime : Runtime :=
  {| zoneinfo_keys := ["UTC"; "America/Chicago"]; json_loads := fun _ => None |}.

(** A fresh session on an empty store. *)
Definition fresh : pipeline.World := pipeline_facts.world_with [] 1.

Definition today : datetime.date := datetime.Date 2024 3 20.

End scenarios.

Lemma ingest_counter_invariant_witness :
  exists w' result,
    pipeline.ingest_sleep_data scenarios.runtime scenarios.fresh 1000
      scenarios.today "oura"
      (scenarios.payload [scenarios.night "n1" "2024-03-14"]) 7
    = Some (w', result)
    /\ pipeline_facts.counters_hold 1 result.
Proof.
  assert (Hrun : exists w' result,
             pipeline.ingest_sleep_data scenarios.runtime scenarios.fresh 1000
               scenarios.today "oura"
               (scenarios.payload [scenarios.night "n1" "2024-03-14"]) 7
             = Some (w', result))
    by (eexists; eexists; vm_compute; reflexivity).
  destruct Hrun as (w' & result & Hrun).
  assert (Hparse : exists d,
             adapters.oura_parse
               (scenarios.payload [scenarios.night "n1" "2024-03-14"]) 7
               (pipeline.next_uuid scenarios.fresh + 1 + 1) 1000 = Some [d])
    by (eexists; vm_compute; reflexivity).
  destruct Hparse as (d & Hparse).
  exists w', result. split; [exact Hrun|].
  exact (ingest_counter_invariant scenarios.runtime scenarios.fresh 1000
           scenarios.today "oura"
           (scenarios.payload [scenarios.night "n1" "2024-03-14"]) 7
           adapters.oura_parse [d] w' result eq_refl Hparse Hrun).
Defined.

(** C3: when the upsert of a candidate that passed validation is
    rejected by the (source, source_record_id) uniqueness constraint, the
    iteration returns instead of raising: the session is rolled back, one
    quarantine row with the reason source_record_id_reused_across_dates is
    written for the candidate, the result gains the entry ("",
    quarantined), whose record id the response renders as null, and the
    loop goes on with the remaining candidates. *)
Theorem collision_is_quarantined (today : datetime.date) (now : Z) (source : string)
    (patient_id raw_id : uuid.UUID) (sleep_day : models.SleepDay)
    (rest : list models.SleepDay) (w : pipeline.World)
    (result : pipeline.IngestResult) (exc : repository.IntegrityError) :
  validation.validate_sleep_record today (validation.model_dump sleep_day) = Some [] ->
  repository.upsert (pipeline.pending (pipeline.session w))
    (pipeline.upsert_dict sleep_day) now = repository.Rejected exc ->
  repository.constraint_name exc = "uq_sleep_days_source_record" ->
  exists w',
    pipeline.ingest_record today now source patient_id raw_id sleep_day w result
    = Some (w', pipeline.add_quarantined result)
    /\ pipeline.committed (pipeline.session w')
       = pipeline.committed (pipeline.session w)
    /\ orm.quarantine_records (pipeline.pending (pipeline.session w'))
       = orm.quarantine_records (pipeline.committed (pipeline.session w))
         ++ [pipeline_facts.reuse_row w now patient_id source raw_id sleep_day]
    /\ orm.sleep_days (pipeline.pending (pipeline.session w'))
       = orm.sleep_days (pipeline.committed (pipeline.session w))
    /\ last (pipeline.results (pipeline.add_quarantined result))
       = Some {| pipeline.sleep_day_id := ""; pipeline.status := "quarantined" |}
    /\ pipeline.response_sleep_day_id
         {| pipeline.sleep_day_id := ""; pipeline.status := "quarantined" |} = None
    /\ pipeline.records_quarantined (pipeline.add_quarantined result)
       = pipeline.records_quarantined result + 1
    /\ pipeline.ingest_records today now source patient_id raw_id
         (sleep_day :: rest) w result
       = pipeline.ingest_records today now source patient_id raw_id rest w'
           (pipeline.add_quarantined result).
Proof.
  intros Hvalid Hrej Hname.
  assert (Hcoll : pipeline.is_source_record_collision exc = true).
  { unfold pipeline.is_source_record_collision. rewrite Hname. reflexivity. }
  assert (Hstep : exists w',
             pipeline.ingest_record today now source patient_id raw_id sleep_day
               w result = Some (w', pipeline.add_quarantined result)
             /\ pipeline.committed (pipeline.session w')
                = pipeline.committed (pipeline.session w)
             /\ orm.quarantine_records (pipeline.pending (pipeline.session w'))
                = orm.quarantine_records (pipeline.committed (pipeline.session w))
                  ++ [pipeline_facts.reuse_row w now patient_id source raw_id sleep_day]
             /\ orm.sleep_days (pipeline.pending (pipeline.session w'))
                = orm.sleep_days (pipeline.committed (pipeline.session w))).
  { unfold pipeline.ingest_record. rewrite Hvalid. cbn. rewrite Hrej, Hcoll.
    eexists. split; [reflexivity|]. cbn. repeat split. }
  destruct Hstep as (w' & Hrun & Hcommitted & Hq & Hrows).
  exists w'. repeat split; try assumption.
  - cbn. apply last_snoc.
  - cbn [pipeline.ingest_records]. rewrite Hrun. reflexivity.
Qed.

Lemma collision_is_quarantined_witness :
  let stored := pipeline.upsert_dict
                  (pipeline_facts.candidate 1 "x" (datetime.Date 2024 3 14)) in
  let reused := pipeline_facts.candidate 2 "x" (datetime.Date 2024 3 15) in
  exists w',
    pipeline.ingest_record scenarios.today 1000 "oura" 7 50 reused
      (pipeline_facts.world_with [stored] 3) (pipeline.new_result 9)
    = Some (w', pipeline.add_quarantined (pipeline.new_result 9))
    /\ orm.sleep_days (pipeline.pending (pipeline.session w')) = [stored].
Proof.
  cbv zeta.
  destruct (collision_is_quarantined scenarios.today 1000 "oura" 7 50
              (pipeline_facts.candidate 2 "x" (datetime.Date 2024 3 15)) []
              (pipeline_facts.world_with
                 [pipeline.upsert_dict
                    (pipeline_facts.candidate 1 "x" (datetime.Date 2024 3 14))] 3)
              (pipeline.new_result 9)
              (repository.violation "duplicate key value violates unique"
                 "uq_sleep_days_source_record"))
    as (w' & Hrun & _ & _ & Hrows & _).
  - vm_compute. reflexivity.
  - vm_compute. reflexivity.
  - reflexivity.
  - exists w'. split; [exact Hrun|exact Hrows].
Defined.

(* ===================================================================== *)
(** ** Keyset pagination of the timeline                                  *)
(* ===================================================================== *)

Module timeline_facts.
Import orm repository.

(** The order of sort keys, as a proposition. *)
Definition key_lt (a b : datetime.date * uuid.UUID) : Prop :=
  datetime.year (fst a) < datetime.year (fst b)
  \/ (datetime.year (fst a) = datetime.year (fst b)
      /\ (datetime.month (fst a) < datetime.month (fst b)
          \/ (datetime.month (fst a) = datetime.month (fst b)
              /\ (datetime.day (fst a) < datetime.day (fst b)
                  \/ (datetime.day (fst a) = datetime.day (fst b)
                      /\ snd a < snd b))))).

Lemma key_ltb_lt (a b : datetime.date * uuid.UUID) :
  key_ltb a b = true <-> key_lt a b.
Proof.
  unfold key_ltb, key_lt, datetime.date_compare.
  destruct (Z.compare_spec (datetime.year (fst a)) (datetime.year (fst b)));
    [destruct (Z.compare_spec (datetime.month (fst a)) (datetime.month (fst b)));
     [destruct (Z.compare_spec (datetime.day (fst a)) (datetime.day (fst b)))|..]|..];
    rewrite ?Z.ltb_lt; split; intros; try discriminate; try lia.
Qed.

Lemma key_ltb_false (a b : datetime.date * uuid.UUID) :
  key_ltb a b = false <-> ~ key_lt a b.
Proof.
  rewrite <- key_ltb_lt. destruct (key_ltb a b); split; intros; congruence.
Qed.

Lemma key_lt_irrefl a : ~ key_lt a a.
Proof. unfold key_lt. lia. Qed.

Lemma key_lt_trans a b c : key_lt a b -> key_lt b c -> key_lt a c.
Proof. unfold key_lt. lia. Qed.

Lemma key_lt_total a b : ~ key_lt a b -> ~ key_lt b a -> a = b.
Proof.
  unfold key_lt. destruct a as [[ya ma da] ia], b as [[yb mb db] ib]. cbn.
  intros H1 H2.
  assert (ya = yb) by lia. assert (ma = mb) by lia.
  assert (da = db) by lia. assert (ia = ib) by lia. congruence.
Qed.

(** [a] comes strictly before [b] in the direction of the query, on
    keys. *)
Definition kbefore (descending : bool) (a b : datetime.date * uuid.UUID) : bool :=
  if descending then key_ltb b a else key_ltb a b.

Lemma before_keys descending a b :
  before descending a b = kbefore descending (row_key a) (row_key b).
Proof. reflexivity. Qed.

Lemma kbefore_irrefl descending a : kbefore descending a a = false.
Proof. unfold kbefore. destruct descending; apply key_ltb_false, key_lt_irrefl. Qed.

Lemma kbefore_trans descending a b c :
  kbefore descending a b = true -> kbefore descending b c = true ->
  kbefore descending a c = true.
Proof.
  unfold kbefore. destruct descending; rewrite !key_ltb_lt; intros;
    eapply key_lt_trans; eassumption.
Qed.

Lemma kbefore_asym descending a b :
  kbefore descending a b = true -> kbefore descending b a = false.
Proof.
  intros H. destruct (kbefore descending b a) eqn:E; [|reflexivity].
  pose proof (kbefore_trans _ _ _ _ H E) as Hc.
  rewrite kbefore_irrefl in Hc. discriminate.
Qed.

Lemma kbefore_total descending a b :
  kbefore descending a b = false -> kbefore descending b a = false -> a = b.
Proof.
  unfold kbefore. destruct descending; rewrite !key_ltb_false; intros.
  - now apply key_lt_total.
  - now apply key_lt_total.
Qed.

(** [a] does not come after [b]. *)
Definition not_after (descending : bool) (a b : SleepDayModel) : Prop :=
  before descending b a = false.

Lemma before_le_trans descending a b c :
  before descending a b = true -> not_after descending b c ->
  before descending a c = true.
Proof.
  unfold not_after. rewrite !before_keys. intros Hab Hbc.
  destruct (kbefore descending (row_key a) (row_key c)) eqn:Hac; [reflexivity|].
  destruct (kbefore descending (row_key c) (row_key a)) eqn:Hca.
  - rewrite (kbefore_trans _ _ _ _ Hca Hab) in Hbc. discriminate.
  - rewrite (kbefore_total _ _ _ Hac Hca) in Hab. congruence.
Qed.

Lemma le_before_trans descending a b c :
  not_after descending a b -> before descending b c = true ->
  before descending a c = true.
Proof.
  unfold not_after. rewrite !before_keys. intros Hab Hbc.
  destruct (kbefore descending (row_key a) (row_key c)) eqn:Hac; [reflexivity|].
  destruct (kbefore descending (row_key c) (row_key a)) eqn:Hca.
  - rewrite (kbefore_trans _ _ _ _ Hbc Hca) in Hab. discriminate.
  - rewrite <- (kbefore_total _ _ _ Hac Hca) in Hbc. congruence.
Qed.

Lemma in_insert_sorted descending r l x :
  In x (insert_sorted descending r l) <-> x = r \/ In x l.
Proof.
  induction l as [|y l IH]; cbn.
  - intuition.
  - destruct (before descending r y); cbn; [intuition|]. rewrite IH. intuition.
Qed.

Lemma insert_sorted_sorted descending r l :
  StronglySorted (not_after descending) l ->
  StronglySorted (not_after descending) (insert_sorted descending r l).
Proof.
  induction 1 as [|y l Hl IH Hy]; cbn.
  - repeat constructor.
  - destruct (before descending r y) eqn:Hry.
    + constructor; [constructor; assumption|].
      constructor.
      * unfold not_after. rewrite before_keys in *. now apply kbefore_asym.
      * rewrite List.Forall_forall in *. intros z Hz. specialize (Hy z Hz).
        unfold not_after.
        pose proof (before_le_trans _ _ _ _ Hry Hy) as H.
        rewrite before_keys in *. now apply kbefore_asym.
    + constructor; [exact IH|].
      rewrite List.Forall_forall in *. intros z Hz.
      apply in_insert_sorted in Hz as [-> | Hz]; [exact Hry|now apply Hy].
Qed.

Lemma order_by_sorted descending rows :
  StronglySorted (not_after descending) (order_by descending rows).
Proof.
  induction rows as [|r rows IH]; cbn; [constructor|].
  now apply insert_sorted_sorted.
Qed.

Lemma insert_sorted_perm descending r l :
  Permutation (insert_sorted descending r l) (r :: l).
Proof.
  induction l as [|y l IH]; cbn; [reflexivity|].
  destruct (before descending r y); [reflexivity|].
  rewrite IH. apply perm_swap.
Qed.

Lemma order_by_perm descending rows :
  Permutation (order_by descending rows) rows.
Proof.
  induction rows as [|r rows IH]; cbn; [reflexivity|].
  rewrite insert_sorted_perm. now constructor.
Qed.

Lemma insert_sorted_first descending r l :
  Forall (fun y => before descending r y = true) l ->
  insert_sorted descending r l = r :: l.
Proof. destruct 1 as [|y l Hy _]; cbn; [reflexivity|]. now rewrite Hy. Qed.

(** Filtering commutes with the insertion into an ordered list. *)
Lemma filter_insert_sorted descending (P : SleepDayModel -> bool) r l :
  StronglySorted (not_after descending) l ->
  List.filter P (insert_sorted descending r l)
  = if P r then insert_sorted descending r (List.filter P l) else List.filter P l.
Proof.
  induction 1 as [|y l Hl IH Hy]; cbn.
  - destruct (P r); reflexivity.
  - destruct (before descending r y) eqn:Hry; cbn.
    + destruct (P r); [|reflexivity].
      symmetry. apply insert_sorted_first.
      assert (Hall : Forall (fun z => before descending r z = true) (y :: l)).
      { constructor; [exact Hry|].
        rewrite List.Forall_forall in *. intros z Hz.
        exact (before_le_trans _ _ _ _ Hry (Hy z Hz)). }
      rewrite List.Forall_forall in *. intros z Hz.
      apply Hall. change (In z (List.filter P (y :: l))) in Hz.
      now apply filter_In in Hz as [Hz _].
    + rewrite IH. destruct (P y), (P r); cbn; rewrite ?Hry; reflexivity.
Qed.

Lemma order_by_cons descending r rows :
  order_by descending (r :: rows)
  = insert_sorted descending r (order_by descending rows).
Proof. reflexivity. Qed.

Lemma filter_order_by descending (P : SleepDayModel -> bool) rows :
  order_by descending (List.filter P rows) = List.filter P (order_by descending rows).
Proof.
  induction rows as [|r rows IH]; [reflexivity|].
  rewrite order_by_cons, filter_insert_sorted by apply order_by_sorted.
  cbn [List.filter]. destruct (P r).
  - now rewrite order_by_cons, IH.
  - exact IH.
Qed.


(** The cursor part of the WHERE clause. *)
Definition beyond (descending : bool) (cur : option cursor) (r : SleepDayModel)
    : bool :=
  match cur with
  | Some c => kbefore descending c (row_key r)
  | None => true
  end.

Lemma timeline_where_cursor patient start end_ cur descending r :
  timeline_where patient start end_ cur descending r
  = timeline_where patient start end_ None descending r
    && beyond descending cur r.
Proof.
  unfold timeline_where, beyond, kbefore. rewrite andb_true_r.
  destruct cur as [c|]; [|now rewrite andb_true_r].
  destruct descending; reflexivity.
Qed.

Lemma filter_andb {A : Type} (f g : A -> bool) (l : list A) :
  List.filter (fun x => f x && g x) l = List.filter g (List.filter f l).
Proof.
  induction l as [|x l IH]; cbn; [reflexivity|].
  destruct (f x); cbn; [destruct (g x)|]; now rewrite IH.
Qed.

(** The rows a query matches, in the order of the query. *)
Definition ordered_rows (db : Database) (patient : uuid.UUID)
    (start end_ : option datetime.date) (cur : option cursor)
    (descending : bool) : list SleepDayModel :=
  order_by descending
    (List.filter (timeline_where patient start end_ cur descending) (sleep_days db)).

Lemma ordered_rows_cursor db patient start end_ cur descending :
  ordered_rows db patient start end_ cur descending
  = List.filter (beyond descending cur)
      (ordered_rows db patient start end_ None descending).
Proof.
  unfold ordered_rows. rewrite <- filter_order_by, <- filter_andb.
  f_equal. apply List.filter_ext. intros r. apply timeline_where_cursor.
Qed.

(** The key of the last row of a page. *)
Definition last_key (rows : list SleepDayModel) : option cursor :=
  match last rows with
  | Some l => Some (row_key l)
  | None => None
  end.

(** A page: the first [limit] rows of what the query matches, and a
    cursor when more than [limit] rows match. *)
Lemma get_timeline_page db patient start end_ cur limit descending :
  0 <= limit ->
  let matched := ordered_rows db patient start end_ cur descending in
  get_timeline db patient start end_ cur limit descending
  = Some (firstn (Z.to_nat limit) matched,
          if limit <? Z.of_nat (length matched)
          then last_key (firstn (Z.to_nat limit) matched) else None).
Proof.
  intros Hl matched. unfold get_timeline. fold (ordered_rows db patient start end_ cur descending).
  fold matched.
  destruct (Z.ltb_spec (limit + 1) 0); [lia|].
  rewrite length_firstn.
  destruct (Z.ltb_spec limit (Z.of_nat (length matched))) as [Hmore | Hlast].
  - destruct (Z.ltb_spec limit
                (Z.of_nat (Nat.min (Z.to_nat (limit + 1)) (length matched)))); [|lia].
    rewrite firstn_firstn.
    replace (Nat.min (Z.to_nat limit) (Z.to_nat (limit + 1))) with (Z.to_nat limit) by lia.
    reflexivity.
  - destruct (Z.ltb_spec limit
                (Z.of_nat (Nat.min (Z.to_nat (limit + 1)) (length matched)))); [lia|].
    rewrite !firstn_all2 by lia. reflexivity.
Qed.

(** Rows in strict order. *)
Definition strictly_ordered (descending : bool) (rows : list SleepDayModel) : Prop :=
  StronglySorted (fun a b => before descending a b = true) rows.

Lemma strictly_ordered_of_keys descending rows :
  StronglySorted (not_after descending) rows ->
  List.NoDup (map row_key rows) ->
  strictly_ordered descending rows.
Proof.
  induction 1 as [|r rows Hs IH Hr]; cbn; intros Hnd; [constructor|].
  apply List.NoDup_cons_iff in Hnd as [Hnin Hnd].
  constructor; [now apply IH|].
  rewrite List.Forall_forall in *. intros x Hx.
  destruct (before descending r x) eqn:Hrx; [reflexivity|].
  exfalso. apply Hnin.
  specialize (Hr x Hx). unfold not_after in Hr. rewrite before_keys in *.
  rewrite (kbefore_total _ _ _ Hrx Hr). now apply in_map.
Qed.

Lemma NoDup_keys_of_ids (rows : list SleepDayModel) :
  List.NoDup (map id rows) -> List.NoDup (map row_key rows).
Proof.
  intros H. apply (List.NoDup_map_inv snd). rewrite map_map. exact H.
Qed.

Lemma NoDup_filter_map {A B : Type} (f : A -> B) (P : A -> bool) (l : list A) :
  List.NoDup (map f l) -> List.NoDup (map f (List.filter P l)).
Proof.
  induction l as [|x l IH]; cbn; [trivial|].
  intros H. apply List.NoDup_cons_iff in H as [Hnin Hnd].
  destruct (P x); cbn; [|now apply IH].
  constructor; [|now apply IH].
  intros Hin. apply Hnin. apply in_map_iff in Hin as (y & Hy & Hin).
  apply filter_In in Hin as [Hin _]. apply in_map_iff. now exists y.
Qed.

(** With unique ids, what a query matches is strictly ordered. *)
Lemma ordered_rows_strict db patient start end_ cur descending :
  List.NoDup (map id (sleep_days db)) ->
  strictly_ordered descending (ordered_rows db patient start end_ cur descending).
Proof.
  intros Hids. apply strictly_ordered_of_keys; [apply order_by_sorted|].
  unfold ordered_rows.
  eapply Permutation_NoDup.
  - apply Permutation_map. symmetry. apply order_by_perm.
  - apply NoDup_filter_map. now apply NoDup_keys_of_ids.
Qed.

Lemma filter_all {A : Type} (P : A -> bool) (l : list A) :
  Forall (fun x => P x = true) l -> List.filter P l = l.
Proof. induction 1 as [|x l Hx _ IH]; cbn; [reflexivity|]. now rewrite Hx, IH. Qed.

(** In a strictly ordered list, the rows beyond the key of the row at
    index [k] are the rows after index [k]. *)
Lemma beyond_is_skipn descending (rows : list SleepDayModel) :
  strictly_ordered descending rows ->
  forall (k : nat) (x : SleepDayModel),
    nth_error rows k = Some x ->
    List.filter (beyond descending (Some (row_key x))) rows = skipn (S k) rows.
Proof.
  induction 1 as [|r rows Hs IH Hr]; intros k x Hk.
  - destruct k; discriminate.
  - destruct k as [|k]; cbn in Hk.
    + injection Hk as ->. cbn [List.filter beyond].
      rewrite kbefore_irrefl. cbn [skipn].
      apply filter_all. exact Hr.
    + cbn [List.filter beyond].
      assert (Hrx : before descending r x = true).
      { rewrite List.Forall_forall in Hr. apply Hr. eapply nth_error_In; eassumption. }
      rewrite before_keys in Hrx. rewrite (kbefore_asym _ _ _ Hrx).
      exact (IH k x Hk).
Qed.


Lemma beyond_is_drop descending (rows : list SleepDayModel) (k : nat)
    (x : SleepDayModel) :
  strictly_ordered descending rows ->
  rows !! k = Some x ->
  List.filter (beyond descending (Some (row_key x))) rows = drop (S k) rows.
Proof.
  intros Hs Hk. apply beyond_is_skipn; [exact Hs|].
  revert k Hk. induction rows as [|r rows IH]; intros [|k] Hk; try discriminate.
  - exact Hk.
  - cbn in *. apply IH; [|exact Hk]. now inversion Hs.
Qed.

(** Following the cursors from [cur], for at most [fuel] pages. *)
Fixpoint walk (fuel : nat) (db : Database) (patient : uuid.UUID)
    (start end_ : option datetime.date) (limit : Z) (descending : bool)
    (cur : option cursor) : list (list SleepDayModel * option cursor) :=
  match fuel with
  | O => []
  | S fuel' =>
      match get_timeline db patient start end_ cur limit descending with
      | Some (rows, next) =>
          (rows, next)
          :: match next with
             | Some c => walk fuel' db patient start end_ limit descending (Some c)
             | None => []
             end
      | None => []
      end
  end.

(** Consecutive chunks of [n] rows, each with the key of its last row
    while rows remain after it. *)
Fixpoint chunks (fuel n : nat) (rows : list SleepDayModel)
    : list (list SleepDayModel * option cursor) :=
  match fuel with
  | O => []
  | S fuel' =>
      if (n <? length rows)%nat
      then (take n rows, last_key (take n rows)) :: chunks fuel' n (drop n rows)
      else [(take n rows, None)]
  end.

Lemma last_key_take (n : nat) (rows : list SleepDayModel) :
  (1 <= n)%nat -> (n < length rows)%nat ->
  exists x, rows !! (n - 1)%nat = Some x
            /\ last_key (take n rows) = Some (row_key x).
Proof.
  intros Hn Hlen. unfold last_key.
  rewrite last_lookup, length_take.
  replace (Init.Nat.pred (n `min` length rows)) with (n - 1)%nat by lia.
  rewrite lookup_take_lt by lia.
  destruct (rows !! (n - 1)%nat) as [x|] eqn:Hx.
  - exists x. split; reflexivity.
  - apply lookup_ge_None in Hx. lia.
Qed.

(** With unique ids, following the cursors serves the ordered rows of the
    query in consecutive pages of [limit] rows. *)
Lemma walk_chunks db patient start end_ limit descending :
  List.NoDup (map id (sleep_days db)) -> 1 <= limit ->
  forall (fuel : nat) (cur : option cursor) (k : nat),
    ordered_rows db patient start end_ cur descending
    = drop k (ordered_rows db patient start end_ None descending) ->
    walk fuel db patient start end_ limit descending cur
    = chunks fuel (Z.to_nat limit)
        (drop k (ordered_rows db patient start end_ None descending)).
Proof.
  intros Hids Hlimit.
  pose proof (ordered_rows_strict db patient start end_ None descending Hids) as Hs.
  set (all := ordered_rows db patient start end_ None descending) in *.
  induction fuel as [|fuel IH]; intros cur k Hcur; [reflexivity|].
  cbn [walk chunks].
  rewrite (get_timeline_page db patient start end_ cur limit descending) by lia.
  cbv zeta. rewrite Hcur.
  destruct (Z.ltb_spec limit (Z.of_nat (length (drop k all)))) as [Hmore | Hlast].
  - destruct (Nat.ltb_spec (Z.to_nat limit) (length (drop k all))); [|lia].
    destruct (last_key_take (Z.to_nat limit) (drop k all)) as (x & Hx & Hkey);
      [lia|lia|].
    rewrite Hkey. f_equal.
    rewrite lookup_drop in Hx.
    rewrite drop_drop.
    replace (k + Z.to_nat limit)%nat with (S (k + (Z.to_nat limit - 1)))%nat by lia.
    apply IH.
    rewrite ordered_rows_cursor. fold all.
    now apply beyond_is_drop.
  - destruct (Nat.ltb_spec (Z.to_nat limit) (length (drop k all))); [lia|].
    reflexivity.
Qed.

(** The rows of all chunks, in order, are a prefix of the list. *)
Lemma chunks_rows (n : nat) :
  (1 <= n)%nat ->
  forall (fuel : nat) (rows : list SleepDayModel),
    concat (map fst (chunks fuel n rows)) = take (fuel * n) rows.
Proof.
  intros Hn. induction fuel as [|fuel IH]; intros rows; [reflexivity|].
  cbn [chunks]. destruct (Nat.ltb_spec n (length rows)).
  - cbn [map fst concat]. rewrite IH.
    replace (S fuel * n)%nat with (n + fuel * n)%nat by lia.
    apply take_take_drop.
  - cbn. rewrite app_nil_r, !take_ge by lia. reflexivity.
Qed.

Lemma strictly_ordered_NoDup descending rows :
  strictly_ordered descending rows -> List.NoDup rows.
Proof.
  induction 1 as [|r rows Hs IH Hr]; constructor; [|exact IH].
  intros Hin. rewrite List.Forall_forall in Hr. specialize (Hr r Hin).
  rewrite before_keys, kbefore_irrefl in Hr. discriminate.
Qed.

Lemma NoDup_take {A : Type} (n : nat) (l : list A) :
  List.NoDup l -> List.NoDup (take n l).
Proof.
  revert n. induction l as [|x l IH]; intros [|n] H; cbn; try constructor.
  - apply List.NoDup_cons_iff in H as [Hnin _]. intros Hin. apply Hnin.
    apply list_elem_of_In. apply list_elem_of_In in Hin.
    apply elem_of_take in Hin as (i & Hi & _).
    eapply list_elem_of_lookup_2; eassumption.
  - apply IH. now apply List.NoDup_cons_iff in H as [_ H].
Qed.

Lemma sorted_take descending (n : nat) rows :
  StronglySorted (not_after descending) rows ->
  StronglySorted (not_after descending) (take n rows).
Proof.
  intros H. revert n. induction H as [|r rows Hs IH Hr]; intros [|n]; cbn;
    try constructor.
  - apply IH.
  - rewrite List.Forall_forall in *. intros x Hx. apply Hr.
    apply list_elem_of_In. apply list_elem_of_In in Hx.
    apply elem_of_take in Hx as (i & Hi & _).
    eapply list_elem_of_lookup_2; eassumption.
Qed.

(** A store with three rows of one patient on consecutive dates. *)
Definition three_nights : Database :=
  with_sleep_days orm.empty
    [ pipeline.upsert_dict (pipeline_facts.candidate 11 "n1" (datetime.Date 2024 3 12));
      pipeline.upsert_dict (pipeline_facts.candidate 12 "n2" (datetime.Date 2024 3 13));
      pipeline.upsert_dict (pipeline_facts.candidate 13 "n3" (datetime.Date 2024 3 14)) ].

End timeline_facts.

(** C9, as stated, fails for a page size of 0, which the repository
    accepts and only the HTTP layer excludes: with three matching rows in
    the store the page is empty and no cursor is returned, although more
    rows exist. *)
Lemma timeline_limit_zero_counterexample :
  repository.get_timeline timeline_facts.three_nights 7 None None None 0 true
  = Some ([], None)
  /\ length (timeline_facts.ordered_rows timeline_facts.three_nights 7
               None None None true) = 3%nat.
Proof. split; vm_compute; reflexivity. Qed.

(** C9 (amended): for a page size of at least 1, a page is the first
    [limit] rows of what the query matches beyond the cursor, in the order
    of (effective_date, id); it has at most [limit] rows; a cursor is
    returned exactly when more than [limit] rows match, and it is the key
    of the page's last row.  On a store with unique ids, following the
    cursors serves the ordered rows in consecutive pages, so no row is
    served twice; with a page size of 1 and three matching rows this gives
    three pages of one row, with a cursor on the first two only. *)
Theorem timeline_pagination (db : orm.Database) (patient : uuid.UUID)
    (start end_ : option datetime.date) (descending : bool) (limit : Z) :
  1 <= limit ->
  (forall cur rows next,
     repository.get_timeline db patient start end_ cur limit descending
     = Some (rows, next) ->
     rows = take (Z.to_nat limit)
              (timeline_facts.ordered_rows db patient start end_ cur descending)
     /\ Z.of_nat (length rows) <= limit
     /\ StronglySorted (timeline_facts.not_after descending) rows
     /\ (is_Some next
         <-> limit < Z.of_nat (length (timeline_facts.ordered_rows db patient
                                         start end_ cur descending)))
     /\ (forall c, next = Some c -> timeline_facts.last_key rows = Some c))
  /\ (List.NoDup (map orm.id (orm.sleep_days db)) ->
      forall fuel,
        timeline_facts.walk fuel db patient start end_ limit descending None
        = timeline_facts.chunks fuel (Z.to_nat limit)
            (timeline_facts.ordered_rows db patient start end_ None descending)
        /\ concat (map fst (timeline_facts.walk fuel db patient start end_ limit
                              descending None))
           = take (fuel * Z.to_nat limit)
               (timeline_facts.ordered_rows db patient start end_ None descending)
        /\ List.NoDup (concat (map fst (timeline_facts.walk fuel db patient start
                                          end_ limit descending None))))
  /\ (List.NoDup (map orm.id (orm.sleep_days db)) -> limit = 1 ->
      length (timeline_facts.ordered_rows db patient start end_ None descending)
      = 3%nat ->
      exists a b c,
        timeline_facts.ordered_rows db patient start end_ None descending = [a; b; c]
        /\ forall fuel,
             timeline_facts.walk (S (S (S fuel))) db patient start end_ limit
               descending None
             = [ ([a], Some (repository.row_key a));
                 ([b], Some (repository.row_key b));
                 ([c], None) ]).
Proof.
  intros Hlimit.
  assert (Hwalk : List.NoDup (map orm.id (orm.sleep_days db)) ->
            forall fuel,
              timeline_facts.walk fuel db patient start end_ limit descending None
              = timeline_facts.chunks fuel (Z.to_nat limit)
                  (timeline_facts.ordered_rows db patient start end_ None descending)).
  { intros Hids fuel.
    exact (timeline_facts.walk_chunks db patient start end_ limit descending
             Hids Hlimit fuel None 0%nat eq_refl). }
  split; [|split].
  - intros cur rows next H.
    rewrite (timeline_facts.get_timeline_page db patient start end_ cur limit
               descending) in H by lia.
    cbv zeta in H. injection H as <- <-.
    set (matched := timeline_facts.ordered_rows db patient start end_ cur descending).
    split; [reflexivity|]. split; [rewrite length_take; lia|].
    split; [apply timeline_facts.sorted_take, timeline_facts.order_by_sorted|].
    destruct (Z.ltb_spec limit (Z.of_nat (length matched))) as [Hmore | Hlast].
    + destruct (timeline_facts.last_key_take (Z.to_nat limit) matched)
        as (x & _ & Hkey); [lia|lia|].
      rewrite Hkey. split.
      * split; [intros _; exact Hmore|intros _; eexists; reflexivity].
      * intros c Hc. exact Hc.
    + split.
      * split; [intros [c Hc]; discriminate|lia].
      * intros c Hc. discriminate.
  - intros Hids fuel. rewrite (Hwalk Hids fuel).
    rewrite timeline_facts.chunks_rows by lia.
    repeat split.
    apply timeline_facts.NoDup_take.
    eapply timeline_facts.strictly_ordered_NoDup.
    now apply timeline_facts.ordered_rows_strict.
  - intros Hids -> Hthree.
    destruct (timeline_facts.ordered_rows db patient start end_ None descending)
      as [|a [|b [|c [|d rest]]]] eqn:Hrows; try discriminate.
    exists a, b, c. split; [reflexivity|].
    intros fuel. rewrite (Hwalk Hids). rewrite ?Hrows. reflexivity.
Qed.

Lemma timeline_pagination_witness :
  exists a b c,
    timeline_facts.walk 5 timeline_facts.three_nights 7 None None 1 true None
    = [ ([a], Some (repository.row_key a));
        ([b], Some (repository.row_key b));
        ([c], None) ]
    /\ orm.effective_date a = datetime.Date 2024 3 14
    /\ orm.effective_date b = datetime.Date 2024 3 13
    /\ orm.effective_date c = datetime.Date 2024 3 12.
Proof.
  destruct (proj2 (proj2 (timeline_pagination timeline_facts.three_nights 7
                            None None true 1 ltac:(lia))))
    as (a & b & c & Hrows & Hwalk).
  - vm_compute. repeat constructor; cbn; intuition discriminate.
  - reflexivity.
  - vm_compute. reflexivity.
  - exists a, b, c. split; [exact (Hwalk 2%nat)|].
    vm_compute in Hrows. injection Hrows as <- <- <-.
    repeat split; reflexivity.
Defined.

(* ===================================================================== *)
(** ** The fingerprint                                                    *)
(* ===================================================================== *)

Module fingerprint_facts.
Import models.

(** *** Text lemmas *)

Lemma length_append (a b : string) :
  String.length (a +:+ b) = (String.length a + String.length b)%nat.
Proof. induction a as [|c a IH]; simpl; [reflexivity|]. f_equal. exact IH. Qed.

(** Two texts with equally long tails agree part by part. *)
Lemma append_inj_tail (a1 a2 b1 b2 : string) :
  String.length b1 = String.length b2 ->
  a1 +:+ b1 = a2 +:+ b2 -> a1 = a2 /\ b1 = b2.
Proof.
  revert a2. induction a1 as [|c a1 IH]; intros [|c2 a2] Hlen H.
  - split; [reflexivity|exact H].
  - exfalso. apply (f_equal String.length) in H.
    rewrite !length_append in H. cbn [String.length] in H. lia.
  - exfalso. apply (f_equal String.length) in H.
    rewrite !length_append in H. cbn [String.length] in H. lia.
  - simpl in H. injection H as -> H. destruct (IH a2 Hlen H) as [-> ->]. split; reflexivity.
Qed.

Lemma append_inj_head (s a b : string) : s +:+ a = s +:+ b -> a = b.
Proof.
  induction s as [|c s IH]; simpl; intros H; [exact H|].
  injection H as H. now apply IH.
Qed.

Lemma length_zero_pad (w : nat) (n : Z) : String.length (Py.zero_pad w n) = w.
Proof.
  revert n. induction w as [|w IH]; intros n; cbn; [reflexivity|].
  rewrite length_append, IH. cbn. lia.
Qed.

Lemma digit_char_inj (n m : Z) :
  Py.digit_char n = Py.digit_char m -> n mod 10 = m mod 10.
Proof.
  unfold Py.digit_char. intros H.
  pose proof (Z.mod_pos_bound n 10 ltac:(lia)) as Hn.
  pose proof (Z.mod_pos_bound m 10 ltac:(lia)) as Hm.
  apply (f_equal nat_of_ascii) in H.
  rewrite !nat_ascii_embedding in H by lia. lia.
Qed.

(** The padded digits determine the number up to [10 ^ w]. *)
Lemma zero_pad_inj (w : nat) :
  forall n m, Py.zero_pad w n = Py.zero_pad w m ->
              n mod 10 ^ Z.of_nat w = m mod 10 ^ Z.of_nat w.
Proof.
  induction w as [|w IH]; intros n m H.
  - cbn. now rewrite !Z.mod_1_r.
  - cbn [Py.zero_pad] in H.
    apply append_inj_tail in H as [Hhead Htail]; [|reflexivity].
    injection Htail as Hd. apply digit_char_inj in Hd.
    specialize (IH _ _ Hhead).
    rewrite Nat2Z.inj_succ, Z.pow_succ_r by lia.
    rewrite !(Z.rem_mul_r _ 10 (10 ^ Z.of_nat w)) by lia.
    lia.
Qed.

Lemma days_in_month_bound (y m : Z) : datetime.days_in_month y m <= 31.
Proof.
  unfold datetime.days_in_month.
  repeat match goal with |- context [if ?c then _ else _] => destruct c end; lia.
Qed.

(** [isoformat] is injective on the dates [date] can hold. *)
Lemma isoformat_inj (d1 d2 : datetime.date) :
  datetime.date_valid d1 = true -> datetime.date_valid d2 = true ->
  datetime.isoformat d1 = datetime.isoformat d2 -> d1 = d2.
Proof.
  unfold datetime.date_valid, datetime.isoformat.
  destruct d1 as [y1 m1 a1], d2 as [y2 m2 a2]. cbn [datetime.year datetime.month datetime.day].
  intros V1 V2 H.
  repeat (apply andb_prop in V1 as [V1 ?]). repeat (apply andb_prop in V2 as [V2 ?]).
  pose proof (days_in_month_bound y1 m1). pose proof (days_in_month_bound y2 m2).
  apply append_inj_tail in H as [Hy H];
    [|rewrite ?length_append, ?length_zero_pad; reflexivity].
  apply append_inj_tail in H as [_ H];
    [|rewrite ?length_append, ?length_zero_pad; reflexivity].
  apply append_inj_tail in H as [Hm H];
    [|rewrite ?length_append, ?length_zero_pad; reflexivity].
  apply append_inj_tail in H as [_ Hd];
    [|rewrite ?length_append, ?length_zero_pad; reflexivity].
  apply zero_pad_inj in Hy, Hm, Hd.
  change (10 ^ Z.of_nat 4) with 10000 in Hy.
  change (10 ^ Z.of_nat 2) with 100 in Hm, Hd.
  rewrite !Z.mod_small in Hy, Hm, Hd by lia.
  congruence.
Qed.

(** The hashed text determines the triple. *)
Lemma fingerprint_input_inj (s1 s2 : SleepSource) (r1 r2 : string)
    (d1 d2 : datetime.date) :
  datetime.date_valid d1 = true -> datetime.date_valid d2 = true ->
  fingerprint_input s1 r1 d1 = fingerprint_input s2 r2 d2 ->
  s1 = s2 /\ r1 = r2 /\ d1 = d2.
Proof.
  intros V1 V2 H. unfold fingerprint_input in H.
  assert (Hs : s1 = s2)
    by (destruct s1, s2; try reflexivity; simpl in H; discriminate).
  subst s2. split; [reflexivity|].
  assert (H' : r1 +:+ ":" +:+ datetime.isoformat d1
               = r2 +:+ ":" +:+ datetime.isoformat d2).
  { apply append_inj_head in H. now apply append_inj_head in H. }
  assert (Hlen : forall d, String.length (datetime.isoformat d) = 10%nat).
  { intros d. unfold datetime.isoformat.
    rewrite !length_append, !length_zero_pad. reflexivity. }
  apply append_inj_tail in H' as [Hr Hd];
    [|rewrite !length_append, !Hlen; reflexivity].
  split; [exact Hr|]. apply append_inj_head in Hd. now apply isoformat_inj.
Qed.

(** *** The digest: its length and alphabet *)

Definition is_hex (c : ascii) : bool :=
  let n := nat_of_ascii c in
  ((48 <=? n) && (n <=? 57) || (97 <=? n) && (n <=? 102))%nat.

Fixpoint all_hex (s : string) : bool :=
  match s with
  | EmptyString => true
  | String c rest => is_hex c && all_hex rest
  end.

Lemma is_hex_hex_char (n : Z) : is_hex (Sha256.hex_char n) = true.
Proof.
  unfold Sha256.hex_char, is_hex.
  pose proof (Z.mod_pos_bound n 16 ltac:(lia)) as Hb.
  destruct (Z.ltb_spec (n mod 16) 10); rewrite nat_ascii_embedding by lia.
  - apply orb_true_iff. left. apply andb_true_iff.
    split; apply Nat.leb_le; lia.
  - apply orb_true_iff. right. apply andb_true_iff.
    split; apply Nat.leb_le; lia.
Qed.

Lemma all_hex_append (a b : string) :
  all_hex (a +:+ b) = all_hex a && all_hex b.
Proof.
  induction a as [|c a IH]; simpl; [reflexivity|]. now rewrite IH, andb_assoc.
Qed.

Lemma hex8_shape (w : Z) :
  String.length (Sha256.hex8 w) = 8%nat /\ all_hex (Sha256.hex8 w) = true.
Proof.
  unfold Sha256.hex8. cbn [seq rev app map string_of_list_ascii String.length all_hex].
  rewrite !is_hex_hex_char. split; reflexivity.
Qed.

Lemma hexdigest_shape (s : string) :
  String.length (Sha256.hexdigest s) = 64%nat /\ all_hex (Sha256.hexdigest s) = true.
Proof.
  unfold Sha256.hexdigest, Sha256.hex_of_state.
  rewrite !length_append, !all_hex_append.
  repeat match goal with
         | |- context [Sha256.hex8 ?w] =>
             let H := fresh in
             destruct (hex8_shape w) as [-> ->]
         end.
  split; reflexivity.
Qed.


(** *** The digest takes finitely many values *)

Definition word (x : Z) : Prop := 0 <= x < 2 ^ 32.

Definition words (s : Sha256.state) : Prop :=
  word (Sha256.h0 s) /\ word (Sha256.h1 s) /\ word (Sha256.h2 s)
  /\ word (Sha256.h3 s) /\ word (Sha256.h4 s) /\ word (Sha256.h5 s)
  /\ word (Sha256.h6 s) /\ word (Sha256.h7 s).

Lemma add32_word (a b : Z) : word (Sha256.add32 a b).
Proof. unfold word, Sha256.add32. apply Z.mod_pos_bound. lia. Qed.

Lemma compress_words (s : Sha256.state) (block : list Z) :
  words (Sha256.compress s block).
Proof.
  unfold words, Sha256.compress. cbv zeta.
  cbn [Sha256.h0 Sha256.h1 Sha256.h2 Sha256.h3 Sha256.h4 Sha256.h5 Sha256.h6 Sha256.h7].
  repeat split; apply add32_word.
Qed.

Lemma digest_words (msg : list Z) : words (Sha256.digest msg).
Proof.
  unfold Sha256.digest.
  generalize (Sha256.chunks (length (Sha256.be_words (Sha256.pad msg)))
                (Sha256.be_words (Sha256.pad msg))).
  intros blocks.
  assert (H0 : words Sha256.H0) by (unfold words, word, Sha256.H0; cbn; lia).
  revert H0. generalize Sha256.H0.
  induction blocks as [|b blocks IH]; intros s Hs; [exact Hs|].
  cbn [fold_left]. apply IH. apply compress_words.
Qed.

(** The 256-bit number of a digest. *)
Definition state_number (s : Sha256.state) : Z :=
  Sha256.h7 s + 4294967296 * (Sha256.h6 s + 4294967296 * (Sha256.h5 s
  + 4294967296 * (Sha256.h4 s + 4294967296 * (Sha256.h3 s + 4294967296 * (Sha256.h2 s
  + 4294967296 * (Sha256.h1 s + 4294967296 * Sha256.h0 s)))))).

Lemma state_number_bound (s : Sha256.state) :
  words s -> 0 <= state_number s < 2 ^ 256.
Proof.
  unfold words, word, state_number.
  change (2 ^ 32) with 4294967296.
  change (2 ^ 256)
    with (4294967296 * (4294967296 * (4294967296 * (4294967296 * (4294967296
          * (4294967296 * (4294967296 * 4294967296))))))).
  intros (H0 & H1 & H2 & H3 & H4 & H5 & H6 & H7). nia.
Qed.

Lemma state_number_inj (s t : Sha256.state) :
  words s -> words t -> state_number s = state_number t -> s = t.
Proof.
  unfold words, word, state_number. change (2 ^ 32) with 4294967296.
  destruct s as [a0 a1 a2 a3 a4 a5 a6 a7], t as [b0 b1 b2 b3 b4 b5 b6 b7]. cbn.
  intros (A0 & A1 & A2 & A3 & A4 & A5 & A6 & A7)
         (B0 & B1 & B2 & B3 & B4 & B5 & B6 & B7) H.
  assert (a7 = b7 /\ a6 + 4294967296 * (a5 + 4294967296 * (a4 + 4294967296 * (a3
            + 4294967296 * (a2 + 4294967296 * (a1 + 4294967296 * a0)))))
          = b6 + 4294967296 * (b5 + 4294967296 * (b4 + 4294967296 * (b3
            + 4294967296 * (b2 + 4294967296 * (b1 + 4294967296 * b0)))))) as [-> H6]
    by lia.
  assert (a6 = b6 /\ a5 + 4294967296 * (a4 + 4294967296 * (a3
            + 4294967296 * (a2 + 4294967296 * (a1 + 4294967296 * a0))))
          = b5 + 4294967296 * (b4 + 4294967296 * (b3
            + 4294967296 * (b2 + 4294967296 * (b1 + 4294967296 * b0))))) as [-> H5]
    by lia.
  assert (a5 = b5 /\ a4 + 4294967296 * (a3
            + 4294967296 * (a2 + 4294967296 * (a1 + 4294967296 * a0)))
          = b4 + 4294967296 * (b3
            + 4294967296 * (b2 + 4294967296 * (b1 + 4294967296 * b0)))) as [-> H4]
    by lia.
  assert (a4 = b4 /\ a3 + 4294967296 * (a2 + 4294967296 * (a1 + 4294967296 * a0))
          = b3 + 4294967296 * (b2 + 4294967296 * (b1 + 4294967296 * b0))) as [-> H3]
    by lia.
  assert (a3 = b3 /\ a2 + 4294967296 * (a1 + 4294967296 * a0)
          = b2 + 4294967296 * (b1 + 4294967296 * b0)) as [-> H2] by lia.
  assert (a2 = b2 /\ a1 + 4294967296 * a0 = b1 + 4294967296 * b0) as [-> H1] by lia.
  assert (a1 = b1 /\ a0 = b0) as [-> ->] by lia.
  reflexivity.
Qed.

(** *** Pigeonhole *)

Lemma bounded_search (P : Z -> Prop) :
  (forall i, P i \/ ~ P i) ->
  forall n, 0 <= n ->
    (exists i, 0 <= i < n /\ P i) \/ (forall i, 0 <= i < n -> ~ P i).
Proof.
  intros Hdec n Hn. pattern n. apply natlike_ind; [| |exact Hn].
  - right. intros i Hi. lia.
  - intros m Hm [(i & Hi & HP) | Hnone].
    + left. exists i. split; [lia|exact HP].
    + destruct (Hdec m) as [HP | HnP].
      * left. exists m. split; [lia|exact HP].
      * right. intros i Hi. destruct (Z.eq_dec i m) as [-> | Hne];
          [exact HnP|apply Hnone; lia].
Qed.

(** [m + 1] values below [m] cannot all differ. *)
Lemma pigeonhole (m : Z) :
  0 <= m ->
  forall f : Z -> Z,
    (forall i, 0 <= i <= m -> 0 <= f i < m) ->
    exists i j, 0 <= i < j /\ j <= m /\ f i = f j.
Proof.
  intros Hm. pattern m. apply natlike_ind; [| |exact Hm]; clear m Hm.
  - intros f Hf. specialize (Hf 0). lia.
  - intros m Hm IH f Hf.
    destruct (bounded_search (fun i => f i = f (m + 1))
                (fun i => ltac:(destruct (Z.eq_dec (f i) (f (m + 1))); tauto))
                (m + 1) ltac:(lia))
      as [(i & Hi & Heq) | Hnone].
    + exists i, (m + 1). split; [lia|]. split; [lia|exact Heq].
    + set (g := fun i => if f i =? m then f (m + 1) else f i).
      destruct (IH g) as (i & j & Hij & Hj & Hg).
      { intros i Hi. unfold g.
        pose proof (Hf i ltac:(lia)). pose proof (Hf (m + 1) ltac:(lia)).
        pose proof (Hnone i ltac:(lia)).
        destruct (Z.eqb_spec (f i) m); lia. }
      pose proof (Hnone i ltac:(lia)). pose proof (Hnone j ltac:(lia)).
      exists i, j. split; [lia|]. split; [lia|].
      unfold g in Hg.
      destruct (Z.eqb_spec (f i) m), (Z.eqb_spec (f j) m); congruence.
Qed.

(** *** A family of distinct native ids *)

Fixpoint letters (n : nat) : string :=
  match n with
  | O => ""
  | S n' => String "a" (letters n')
  end.

Lemma length_letters (n : nat) : String.length (letters n) = n.
Proof. induction n as [|n IH]; cbn; [reflexivity|]. now rewrite IH. Qed.

Definition digest_number (source_record_id : string) : Z :=
  state_number
    (Sha256.digest
       (Sha256.encode
          (fingerprint_input OURA source_record_id (datetime.Date 2024 3 14)))).

Lemma fingerprint_of_number (r1 r2 : string) :
  digest_number r1 = digest_number r2 ->
  compute_fingerprint OURA r1 (datetime.Date 2024 3 14)
  = compute_fingerprint OURA r2 (datetime.Date 2024 3 14).
Proof.
  unfold digest_number, compute_fingerprint, Sha256.hexdigest. intros H.
  apply state_number_inj in H; [|apply digest_words|apply digest_words].
  now rewrite H.
Qed.

End fingerprint_facts.

(** [SleepDay.compute_fingerprint] always returns 64 characters, each a
    decimal digit or a lower-case letter a..f. *)
Theorem fingerprint_shape (source : models.SleepSource) (source_record_id : string)
    (effective_date : datetime.date) :
  String.length (models.compute_fingerprint source source_record_id effective_date)
  = 64%nat
  /\ fingerprint_facts.all_hex
       (models.compute_fingerprint source source_record_id effective_date) = true.
Proof. apply fingerprint_facts.hexdigest_shape. Qed.

(** The text [compute_fingerprint] hashes determines the triple (source,
    source_record_id, effective_date), for dates [date] can hold: two
    triples with the same fingerprint are equal, or their two different
    texts have the same SHA-256 digest. *)
Theorem fingerprint_text_determines_triple
    (s1 s2 : models.SleepSource) (r1 r2 : string) (d1 d2 : datetime.date) :
  datetime.date_valid d1 = true -> datetime.date_valid d2 = true ->
  (models.fingerprint_input s1 r1 d1 = models.fingerprint_input s2 r2 d2
   <-> (s1, r1, d1) = (s2, r2, d2))
  /\ (models.compute_fingerprint s1 r1 d1 = models.compute_fingerprint s2 r2 d2 ->
      (s1, r1, d1) = (s2, r2, d2)
      \/ (models.fingerprint_input s1 r1 d1 <> models.fingerprint_input s2 r2 d2
          /\ Sha256.hexdigest (models.fingerprint_input s1 r1 d1)
             = Sha256.hexdigest (models.fingerprint_input s2 r2 d2))).
Proof.
  intros V1 V2.
  assert (Hinj : models.fingerprint_input s1 r1 d1 = models.fingerprint_input s2 r2 d2
                 <-> (s1, r1, d1) = (s2, r2, d2)).
  { split.
    - intros H.
      destruct (fingerprint_facts.fingerprint_input_inj _ _ _ _ _ _ V1 V2 H)
        as (-> & -> & ->).
      reflexivity.
    - intros [= -> -> ->]. reflexivity. }
  split; [exact Hinj|].
  intros H.
  destruct (string_dec (models.fingerprint_input s1 r1 d1)
              (models.fingerprint_input s2 r2 d2)) as [Heq | Hne].
  - left. now apply Hinj.
  - right. split; [exact Hne|exact H].
Qed.

Lemma fingerprint_text_determines_triple_witness :
  models.fingerprint_input models.OURA "abc" (datetime.Date 2024 3 14)
  = models.fingerprint_input models.WITHINGS "abc" (datetime.Date 2024 3 14)
  <-> (models.OURA, "abc", datetime.Date 2024 3 14)
      = (models.WITHINGS, "abc", datetime.Date 2024 3 14).
Proof.
  exact (proj1 (fingerprint_text_determines_triple
                  models.OURA models.WITHINGS "abc" "abc"
                  (datetime.Date 2024 3 14) (datetime.Date 2024 3 14)
                  eq_refl eq_refl)).
Defined.

(** The fingerprint is not injective: it takes at most 2^256 values, so
    among the native ids a, aa, aaa, ... two different ones have the same
    fingerprint under the same source and date. *)
Theorem fingerprint_collision_exists :
  exists r1 r2,
    r1 <> r2
    /\ models.compute_fingerprint models.OURA r1 (datetime.Date 2024 3 14)
       = models.compute_fingerprint models.OURA r2 (datetime.Date 2024 3 14).
Proof.
  destruct (fingerprint_facts.pigeonhole (2 ^ 256) ltac:(lia)
              (fun i => fingerprint_facts.digest_number
                          (fingerprint_facts.letters (Z.to_nat i))))
    as (i & j & Hij & Hj & Heq).
  { intros i Hi. apply fingerprint_facts.state_number_bound,
      fingerprint_facts.digest_words. }
  exists (fingerprint_facts.letters (Z.to_nat i)),
         (fingerprint_facts.letters (Z.to_nat j)).
  split.
  - intros H. apply (f_equal String.length) in H.
    rewrite !fingerprint_facts.length_letters in H. lia.
  - now apply fingerprint_facts.fingerprint_of_number.
Qed.

(* ===================================================================== *)
(** ** Efficiency: percentages, ratios and the field's range              *)
(* ===================================================================== *)

Module efficiency_facts.
Import Py.

Definition f_10000_0 : Float64.float := S754_finite false 5497558138880000 (-39).

Definition same_field (a b : option (option Float64.float)) : bool :=
  match a, b with
  | Some (Some x), Some (Some y) => adapters_facts.float_same x y
  | Some None, Some None => true
  | None, None => true
  | _, _ => false
  end.

Lemma same_field_eq a b : same_field a b = true -> a = b.
Proof.
  destruct a as [[x|]|], b as [[y|]|]; cbn; try discriminate; try reflexivity.
  intros H. apply adapters_facts.float_same_eq in H. congruence.
Qed.

(** What the field [sleep_efficiency] makes of the integer [n]: nothing
    outside 0..100, [float(n)] for 0 and 1, and the double nearest to
    n / 100 from 2 on. *)
Definition of_integer (n : Z) : option (option Float64.float) :=
  if (n <? 0) || (100 <? n) then None
  else if n <=? 1 then option_map Some (Float64.of_int n)
  else option_map Some (Float64.int_truediv n Float64.f_100_0).

Definition of_integer_agrees (n : Z) : bool :=
  same_field (models.efficiency_field (JInt n)) (of_integer n).

Lemma of_integer_agrees_in_range :
  forallb of_integer_agrees (map (fun i => Z.of_nat i - 1000) (seq 0 (Z.to_nat 2001))) = true.
Proof. vm_compute. reflexivity. Qed.

(** The Oura path: [_pct_to_ratio] followed by the field. *)
Definition oura_efficiency (p : Z) : option (option Float64.float) :=
  ratio ← adapters._pct_to_ratio (JInt p); models.efficiency_field ratio.

Definition scaled_twice (p : Z) : bool :=
  same_field (oura_efficiency p)
             (option_map Some (Float64.int_truediv p f_10000_0)).

Lemma scaled_twice_in_range :
  forallb scaled_twice (map (fun i => Z.of_nat i + 101) (seq 0 (Z.to_nat 9900))) = true.
Proof. vm_compute. reflexivity. Qed.

(** A primary Oura entry reporting an efficiency of 150 percent. *)
Definition over_entry : dict :=
  [ ("id", JStr "n1"); ("day", JStr "2024-03-14"); ("type", JStr "long_sleep");
    ("efficiency", JInt 150) ].

Lemma in_range_from (lo : Z) (len : nat) (n : Z) (f : nat -> Z) :
  (forall i, f i = Z.of_nat i + lo) ->
  lo <= n < lo + Z.of_nat len ->
  In n (map f (seq 0 len)).
Proof.
  intros Hf Hn. apply in_map_iff. exists (Z.to_nat (n - lo)).
  split; [rewrite Hf; lia|]. apply in_seq. lia.
Qed.

End efficiency_facts.

(** The literal used below is the double 10000.0. *)
Example float_10000_literal : Float64.of_int 10000 = Some efficiency_facts.f_10000_0.
Proof. vm_compute. reflexivity. Qed.

(** [SleepDay.normalize_efficiency] with the range of the field, on an
    integer between -1000 and 1000: the value is accepted exactly when it
    lies in 0..100; 0 and 1 are kept as the ratios 0.0 and 1.0, while 2 to
    100 are read as percentages and become the double nearest to n / 100
    (so 1 means 100% and 2 means 2%). *)
Theorem efficiency_of_integer (n : Z) :
  -1000 <= n <= 1000 ->
  (is_Some (models.efficiency_field (Py.JInt n)) <-> 0 <= n <= 100)
  /\ (n = 0 -> models.efficiency_field (Py.JInt n) = Some (Some Float64.f_0_0))
  /\ (n = 1 -> models.efficiency_field (Py.JInt n) = Some (Some Float64.f_1_0))
  /\ (2 <= n <= 100 ->
      exists q, Float64.int_truediv n Float64.f_100_0 = Some q
                /\ models.efficiency_field (Py.JInt n) = Some (Some q)).
Proof.
  intros Hn.
  pose proof efficiency_facts.of_integer_agrees_in_range as Hall.
  rewrite forallb_forall in Hall. specialize (Hall n).
  assert (Hin : In n (map (fun i => Z.of_nat i - 1000) (seq 0 (Z.to_nat 2001)))).
  { apply (efficiency_facts.in_range_from (-1000)); [intros i; lia|lia]. }
  specialize (Hall Hin). apply efficiency_facts.same_field_eq in Hall.
  rewrite Hall. unfold efficiency_facts.of_integer.
  assert (Hq : 2 <= n <= 100 -> is_Some (Float64.int_truediv n Float64.f_100_0)).
  { intros Hr.
    pose proof adapters_facts.pct_ratio_exact_0_100 as Hp.
    rewrite forallb_forall in Hp. specialize (Hp n).
    assert (Hin' : In n (map Z.of_nat (seq 0 101))).
    { apply in_map_iff. exists (Z.to_nat n). split; [lia|]. apply in_seq. lia. }
    specialize (Hp Hin'). unfold adapters_facts.pct_ratio_exact in Hp.
    destruct (Float64.int_truediv n Float64.f_100_0); [eexists; reflexivity|].
    discriminate. }
  split; [split|split; [|split]].
  - intros [x Hx].
    destruct (Z.ltb_spec n 0); [discriminate|].
    destruct (Z.ltb_spec 100 n); [discriminate|]. lia.
  - intros H0.
    destruct (Z.ltb_spec n 0); [lia|]. destruct (Z.ltb_spec 100 n); [lia|]. cbn.
    destruct (Z.leb_spec n 1).
    + assert (Hc : n = 0 \/ n = 1) by lia.
      destruct Hc as [-> | ->]; vm_compute; eexists; reflexivity.
    + destruct (Hq ltac:(lia)) as [q ->]. eexists; reflexivity.
  - intros ->. reflexivity.
  - intros ->. reflexivity.
  - intros Hr.
    destruct (Z.ltb_spec n 0); [lia|]. destruct (Z.ltb_spec 100 n); [lia|]. cbn.
    destruct (Z.leb_spec n 1); [lia|].
    destruct (Hq Hr) as [q Hq']. rewrite Hq'.
    exists q. split; reflexivity.
Qed.

Lemma efficiency_of_integer_witness :
  (is_Some (models.efficiency_field (Py.JInt 101)) <-> 0 <= 101 <= 100)
  /\ models.efficiency_field (Py.JInt 1) = Some (Some Float64.f_1_0).
Proof.
  split.
  - exact (proj1 (efficiency_of_integer 101 ltac:(lia))).
  - exact (proj1 (proj2 (proj2 (efficiency_of_integer 1 ltac:(lia)))) eq_refl).
Defined.

(** An Oura efficiency above 100 is not rejected: [_pct_to_ratio] turns
    the percentage p into p / 100, which the field's validator, seeing a
    number above 1.0, divides by 100 again.  For 100 < p <= 10000 the
    record carries the double nearest to p / 10000. *)
Theorem oura_percentage_scaled_twice (patient id : uuid.UUID) (now : Z)
    (e : Py.dict) (d : models.SleepDay) (p : Z) :
  adapters.oura_entry patient id now (Py.JObj e) = Some (Some d) ->
  Py.dict_get "efficiency" e = Py.JInt p ->
  100 < p <= 10000 ->
  exists x, Float64.int_truediv p efficiency_facts.f_10000_0 = Some x
            /\ models.sleep_efficiency d = Some x.
Proof.
  intros H Hp Hr.
  destruct (adapters_facts.oura_entry_fields patient id now e d H)
    as (total & deep & light & rem & awake & eff
        & _ & _ & _ & _ & _ & He & _ & _ & _ & _ & _ & Fe).
  pose proof efficiency_facts.scaled_twice_in_range as Hall.
  rewrite forallb_forall in Hall. specialize (Hall p).
  assert (Hin : In p (map (fun i => Z.of_nat i + 101) (seq 0 (Z.to_nat 9900)))).
  { apply (efficiency_facts.in_range_from 101); [intros i; lia|lia]. }
  specialize (Hall Hin). apply efficiency_facts.same_field_eq in Hall.
  unfold efficiency_facts.oura_efficiency in Hall.
  rewrite Hp in He. rewrite He in Hall. cbn in Hall. rewrite Fe in Hall.
  destruct (Float64.int_truediv p efficiency_facts.f_10000_0) as [x|];
    [|discriminate].
  exists x. split; [reflexivity|]. now injection Hall.
Qed.

Lemma oura_percentage_scaled_twice_witness :
  exists d x,
    adapters.oura_entry 7 1 0 (Py.JObj efficiency_facts.over_entry) = Some (Some d)
    /\ Float64.int_truediv 150 efficiency_facts.f_10000_0 = Some x
    /\ models.sleep_efficiency d = Some x.
Proof.
  assert (H : exists d,
             adapters.oura_entry 7 1 0 (Py.JObj efficiency_facts.over_entry)
             = Some (Some d))
    by (eexists; vm_compute; reflexivity).
  destruct H as [d H].
  destruct (oura_percentage_scaled_twice 7 1 0 _ d 150 H eq_refl ltac:(lia))
    as (x & Hx & Hd).
  exists d, x. repeat split; assumption.
Defined.

(* ===================================================================== *)
(** ** Validation: what a typed record can violate, and the clock         *)
(* ===================================================================== *)

Module record_facts.
Import validation.

Lemma SFcompare_antisym (a b : Float64.float) (c : comparison) :
  SFcompare a b = Some c -> SFcompare b a = Some (CompOpp c).
Proof.
  destruct a as [s1|s1| |s1 m1 e1], b as [s2|s2| |s2 m2 e2]; cbn;
    try discriminate; intros [= <-];
    try (destruct s1; reflexivity); try (destruct s2; reflexivity);
    try (destruct s1, s2; reflexivity).
  pose proof (Pos.compare_cont_antisym m1 m2 Eq) as Hc. cbn in Hc.
  destruct s1, s2; cbn; try reflexivity.
  - rewrite (Z.compare_antisym e1 e2).
    destruct (e1 ?= e2); cbn; try reflexivity.
    rewrite <- Hc. now rewrite CompOpp_involutive.
  - rewrite (Z.compare_antisym e1 e2).
    destruct (e1 ?= e2); cbn; try reflexivity.
    now rewrite <- Hc.
Qed.

(** A value between 0.0 and 1.0 is not below 0.0 and not above 1.0. *)
Lemma in_unit_range (x : Float64.float) :
  Float64.leb Float64.f_0_0 x && Float64.leb x Float64.f_1_0 = true ->
  Float64.ltb x Float64.f_0_0 || Float64.ltb Float64.f_1_0 x = false.
Proof.
  unfold Float64.leb, Float64.ltb, SFleb, SFltb. intros H.
  apply andb_prop in H as [H0 H1].
  destruct (SFcompare Float64.f_0_0 x) as [c0|] eqn:E0; [|discriminate].
  destruct (SFcompare x Float64.f_1_0) as [c1|] eqn:E1; [|discriminate].
  rewrite (SFcompare_antisym _ _ _ E0), (SFcompare_antisym _ _ _ E1).
  destruct c0, c1; try discriminate; reflexivity.
Qed.

Lemma minutes_field_non_negative (v : Py.json) (n : Z) :
  models.minutes_field v = Some (Some n) -> 0 <= n.
Proof.
  destruct v as [|b|k|x|s|l|l]; cbn; try discriminate.
  - destruct b; intros [= <-]; lia.
  - destruct (Z.leb_spec 0 k); [|discriminate]. intros [= <-]. lia.
  - destruct (Float64.to_int_exact x) as [k|]; [|discriminate]. cbn.
    destruct (Z.leb_spec 0 k); [|discriminate]. intros [= <-]. lia.
Qed.

Lemma efficiency_field_in_range (v : Py.json) (x : Float64.float) :
  models.efficiency_field v = Some (Some x) ->
  Float64.leb Float64.f_0_0 x && Float64.leb x Float64.f_1_0 = true.
Proof.
  unfold models.efficiency_field.
  destruct (models.normalize_efficiency v) as [[y|]|]; cbn; try discriminate.
  destruct (Float64.leb Float64.f_0_0 y && Float64.leb y Float64.f_1_0) eqn:E;
    [|discriminate].
  now intros [= <-].
Qed.

Lemma rule3_field_typed (name : string) (v : Py.json) (m : option Z) :
  models.minutes_field v = Some m -> rule3_field name m = [].
Proof.
  destruct m as [n|]; [|reflexivity]. intros H.
  apply minutes_field_non_negative in H. unfold rule3_field.
  destruct (Z.ltb_spec n 0); [lia|reflexivity].
Qed.

(** The reasons rules 2, 4, 5, 7 and 9 report. *)
Definition reachable_reasons : list string :=
  [ "sleep_duration_out_of_range"; "stage_sum_exceeds_total"; "future_date";
    "missing_timezone"; "bedtime_order_invalid" ].

Definition reachable (e : ValidationError) : Prop := In (reason e) reachable_reasons.

Ltac by_cases :=
  repeat match goal with
         | |- context [match ?x with _ => _ end] => destruct x
         end;
  first [ apply List.Forall_nil
        | apply List.Forall_cons;
          [unfold reachable, reachable_reasons; cbn; tauto | apply List.Forall_nil] ].

Lemma rule2_reachable r : Forall reachable (rule2 r).
Proof. unfold rule2. by_cases. Qed.

Lemma rule4_reachable r e4 : rule4 r = Some e4 -> Forall reachable e4.
Proof.
  unfold rule4. destruct (total_sleep_minutes r) as [total|].
  - destruct (Float64.int_mul total _STAGE_SUM_TOLERANCE) as [bound|];
      [|discriminate]. cbn.
    destruct (Float64.int_gt (stage_sum r) bound); intros [= <-];
      [|apply List.Forall_nil].
    apply List.Forall_cons; [|apply List.Forall_nil].
    unfold reachable, reachable_reasons. cbn. tauto.
  - intros [= <-]. constructor.
Qed.

Lemma rule5_reachable today r : Forall reachable (rule5 today r).
Proof. unfold rule5. by_cases. Qed.

Lemma rule7_reachable r : Forall reachable (rule7 r).
Proof.
  unfold rule7. apply Forall_app. split; unfold rule7_field; by_cases.
Qed.

Lemma rule9_reachable r : Forall reachable (rule9 r).
Proof. unfold rule9. by_cases. Qed.

(** Dates in calendar order. *)
Definition date_lt (a b : datetime.date) : Prop :=
  datetime.year a < datetime.year b
  \/ (datetime.year a = datetime.year b
      /\ (datetime.month a < datetime.month b
          \/ (datetime.month a = datetime.month b
              /\ datetime.day a < datetime.day b))).

Lemma date_ltb_iff (a b : datetime.date) :
  datetime.date_ltb a b = true <-> date_lt a b.
Proof.
  unfold datetime.date_ltb, datetime.date_compare, date_lt.
  destruct (Z.compare_spec (datetime.year a) (datetime.year b));
    destruct (Z.compare_spec (datetime.month a) (datetime.month b));
    destruct (Z.compare_spec (datetime.day a) (datetime.day b));
    split; intros; try discriminate; try reflexivity; lia.
Qed.

Lemma date_leb_iff (a b : datetime.date) :
  datetime.date_leb a b = true <-> ~ date_lt b a.
Proof.
  unfold datetime.date_leb, datetime.date_compare, date_lt.
  destruct (Z.compare_spec (datetime.year a) (datetime.year b));
    destruct (Z.compare_spec (datetime.month a) (datetime.month b));
    destruct (Z.compare_spec (datetime.day a) (datetime.day b));
    split; intros; try discriminate; try reflexivity; lia.
Qed.

(** A later clock reports a future date only where an earlier one did. *)
Lemma rule5_later (today today' : datetime.date) (r : record) :
  datetime.date_leb today today' = true ->
  rule5 today' r = [] \/ rule5 today' r = rule5 today r.
Proof.
  intros Hle. unfold rule5. destruct (effective_date r) as [eff|]; [|now left].
  destruct (datetime.date_ltb today' eff) eqn:E'; [|now left]. right.
  destruct (datetime.date_ltb today eff) eqn:E; [reflexivity|]. exfalso.
  apply date_ltb_iff in E'. apply date_leb_iff in Hle.
  assert (Hn : ~ date_lt today eff) by (rewrite <- date_ltb_iff, E; discriminate).
  unfold date_lt in *. lia.
Qed.

(** A record that passes every rule on the day it is dated. *)
Definition typed_sample : models.SleepDay :=
  pipeline_facts.candidate 1 "n1" (datetime.Date 2024 3 14).

End record_facts.

(** A record that [SleepDay(...)] accepted cannot violate rules 1, 3, 6
    and 8 of [validate_sleep_record]: its effective date is present, its
    minutes are not negative, its efficiency lies in 0.0..1.0 and its
    source is one of the two known ones.  Whatever the outcome reports for
    it is one of sleep_duration_out_of_range, stage_sum_exceeds_total,
    future_date, missing_timezone and bedtime_order_invalid. *)
Theorem typed_record_violations
    (id patient : uuid.UUID) (source : models.SleepSource) (rid : Py.json)
    (eff : datetime.date) (fp : string) (raw : Py.dict)
    (ing upd : datetime.datetime) (total deep light rem awake : Py.json)
    (onset offset : option datetime.datetime) (efficiency : Py.json)
    (extra : Py.dict) (d : models.SleepDay) (today : datetime.date)
    (errs : list validation.ValidationError) :
  models.SleepDay_init id patient source rid eff fp raw ing upd
    total deep light rem awake onset offset efficiency extra = Some d ->
  validation.validate_sleep_record today (validation.model_dump d) = Some errs ->
  validation.rule1 (validation.model_dump d) = []
  /\ validation.rule3 (validation.model_dump d) = []
  /\ validation.rule6 (validation.model_dump d) = []
  /\ validation.rule8 (validation.model_dump d) = []
  /\ Forall record_facts.reachable errs.
Proof.
  intros Hinit Hv.
  destruct (adapters_facts.SleepDay_init_fields _ _ _ _ _ _ _ _ _ _ _ _ _ _ _ _ _ _ _
              Hinit)
    as (Ht & Hd & Hl & Hr & Ha & He & _ & _ & _ & Hs & _).
  assert (H1 : validation.rule1 (validation.model_dump d) = []) by reflexivity.
  assert (H3 : validation.rule3 (validation.model_dump d) = []).
  { unfold validation.rule3. cbn.
    rewrite (record_facts.rule3_field_typed _ _ _ Hd),
      (record_facts.rule3_field_typed _ _ _ Hl),
      (record_facts.rule3_field_typed _ _ _ Hr),
      (record_facts.rule3_field_typed _ _ _ Ha).
    reflexivity. }
  assert (H6 : validation.rule6 (validation.model_dump d) = []).
  { unfold validation.rule6. cbn.
    destruct (models.sleep_efficiency d) as [x|]; [|reflexivity].
    apply record_facts.efficiency_field_in_range, record_facts.in_unit_range in He.
    now rewrite He. }
  assert (H8 : validation.rule8 (validation.model_dump d) = []).
  { unfold validation.rule8. cbn. destruct (models.source d); reflexivity. }
  repeat split; try assumption.
  unfold validation.validate_sleep_record in Hv.
  destruct (validation.rule4 (validation.model_dump d)) as [e4|] eqn:H4;
    [|discriminate].
  cbn [mbind option_bind] in Hv. rewrite H1, H3, H6, H8 in Hv.
  cbn [app] in Hv. injection Hv as <-.
  apply Forall_app. split; [apply record_facts.rule2_reachable|].
  apply Forall_app. split; [exact (record_facts.rule4_reachable _ _ H4)|].
  apply Forall_app. split; [apply record_facts.rule5_reachable|].
  apply Forall_app. split; [apply record_facts.rule7_reachable|].
  apply record_facts.rule9_reachable.
Qed.

Lemma typed_record_violations_witness :
  exists d errs,
    validation.validate_sleep_record (datetime.Date 2024 3 1)
      (validation.model_dump d) = Some errs
    /\ validation.rule6 (validation.model_dump d) = []
    /\ Forall record_facts.reachable errs
    /\ errs <> [].
Proof.
  pose (d := {| models.id := 1; models.patient_id := 7; models.source := models.OURA;
                models.source_record_id := "n1"; models.raw_payload := [];
                models.fingerprint := "f"; models.effective_date := datetime.Date 2024 3 14;
                models.ingested_at := datetime.DateTime 0 (Some datetime.UTC);
                models.updated_at := datetime.DateTime 0 (Some datetime.UTC);
                models.total_sleep_minutes := Some 2000;
                models.deep_sleep_minutes := None; models.light_sleep_minutes := None;
                models.rem_sleep_minutes := None; models.awake_minutes := None;
                models.sleep_onset := None; models.sleep_offset := None;
                models.sleep_efficiency := Some Float64.f_0_88;
                models.extra := [] |}).
  destruct (typed_record_violations 1 7 models.OURA (Py.JStr "n1")
              (datetime.Date 2024 3 14) "f" [] (datetime.DateTime 0 (Some datetime.UTC))
              (datetime.DateTime 0 (Some datetime.UTC))
              (Py.JInt 2000) Py.JNull Py.JNull Py.JNull Py.JNull None None
              (Py.JInt 88) [] d (datetime.Date 2024 3 1)
              [ validation.Build_ValidationError "total_sleep_minutes" "range"
                  "sleep_duration_out_of_range" (validation.ev_int 2000);
                validation.Build_ValidationError "effective_date" "no_future"
                  "future_date" (validation.ev_str "2024-03-14") ])
    as (_ & _ & H6 & _ & Hall).
  - vm_compute. reflexivity.
  - vm_compute. reflexivity.
  - exists d. eexists. split; [vm_compute; reflexivity|].
    split; [exact H6|]. split; [exact Hall|discriminate].
Defined.

(** The outcome of [validate_sleep_record] depends on the day it runs
    only through rule 5, and a later day never adds a violation: what is
    reported on a later day was reported on the earlier one, so a record
    that is valid stays valid. *)
Theorem validation_is_monotone_in_the_clock (today today' : datetime.date)
    (r : validation.record) (errs : list validation.ValidationError) :
  datetime.date_leb today today' = true ->
  validation.validate_sleep_record today r = Some errs ->
  exists errs',
    validation.validate_sleep_record today' r = Some errs'
    /\ incl errs' errs
    /\ (errs = [] -> errs' = []).
Proof.
  intros Hle Hv. unfold validation.validate_sleep_record in *.
  destruct (validation.rule4 r) as [e4|]; [|discriminate].
  cbn in *. injection Hv as <-. eexists. split; [reflexivity|].
  destruct (record_facts.rule5_later today today' r Hle) as [-> | ->].
  - split.
    + intros x Hx. rewrite !in_app_iff in *. cbn in Hx. tauto.
    + intros H.
      repeat match goal with
             | H : _ ++ _ = [] |- _ => apply app_eq_nil in H; destruct H as [? H]
             end.
      repeat match goal with
             | H : ?x = [] |- _ => rewrite H
             end.
      reflexivity.
  - split; [apply incl_refl|tauto].
Qed.

Lemma validation_is_monotone_in_the_clock_witness :
  exists errs',
    validation.validate_sleep_record (datetime.Date 2024 3 20)
      (validation.model_dump record_facts.typed_sample) = Some errs'
    /\ errs' = [].
Proof.
  destruct (validation_is_monotone_in_the_clock (datetime.Date 2024 3 14)
              (datetime.Date 2024 3 20)
              (validation.model_dump record_facts.typed_sample) [])
    as (errs' & Hv & _ & Hnil).
  - reflexivity.
  - vm_compute. reflexivity.
  - exists errs'. split; [exact Hv|exact (Hnil eq_refl)].
Defined.

(* ===================================================================== *)
(** ** The mappers: what each record is made of                           *)
(* ===================================================================== *)

Module mapper_facts.
Import Py.

(** The entries [OuraMapper.parse] keeps: type long_sleep and period 0. *)
Definition is_primary (entry : json) : bool :=
  match entry with
  | JObj e => eq_str (dict_get "type" e) "long_sleep"
              && eq_zero (dict_get_default "period" (JInt 0) e)
  | _ => false
  end.

(** The loop yields one record for each entry it keeps, in order. *)
Lemma map_entries_kept
    (one : uuid.UUID -> json -> option (option models.SleepDay))
    (keep : json -> bool) (R : json -> models.SleepDay -> Prop) :
  (forall i entry, one i entry = Some None -> keep entry = false) ->
  (forall i entry d, one i entry = Some (Some d) -> keep entry = true /\ R entry d) ->
  forall entries next ds,
    adapters.map_entries one next entries = Some ds ->
    Forall2 R (List.filter keep entries) ds.
Proof.
  intros Hskip Hkeep. induction entries as [|entry rest IH]; intros next ds H.
  - injection H as <-. constructor.
  - cbn [adapters.map_entries] in H.
    destruct (one next entry) as [[d|]|] eqn:E; cbn [mbind option_bind] in H.
    + destruct (adapters.map_entries one (next + 1) rest) as [ds'|] eqn:E';
        [|discriminate].
      cbn [mbind option_bind] in H. injection H as <-.
      destruct (Hkeep _ _ _ E) as [Hk HR]. cbn [List.filter]. rewrite Hk.
      constructor; [exact HR|]. exact (IH _ _ E').
    + cbn [List.filter]. rewrite (Hskip _ _ E). exact (IH _ _ H).
    + discriminate.
Qed.

(** One entry that raises makes the whole loop raise. *)
Lemma map_entries_raises
    (one : uuid.UUID -> json -> option (option models.SleepDay)) (bad : json) :
  (forall i, one i bad = None) ->
  forall entries next, In bad entries -> adapters.map_entries one next entries = None.
Proof.
  intros Hbad. induction entries as [|entry rest IH]; intros next Hin; [destruct Hin|].
  cbn [adapters.map_entries].
  destruct Hin as [-> | Hin]; [now rewrite Hbad|].
  destruct (one next entry) as [[d|]|]; cbn [mbind option_bind];
    [|apply IH; exact Hin|reflexivity].
  now rewrite (IH (next + 1) Hin).
Qed.

Lemma date_fromisoformat_valid (s : string) (d : datetime.date) :
  datetime.date_fromisoformat s = Some d -> datetime.date_valid d = true.
Proof.
  unfold datetime.date_fromisoformat.
  destruct (negb _); [discriminate|]. destruct (negb _); [discriminate|].
  intros H. adapters_facts.bind_inv H.
  destruct (datetime.date_valid _) eqn:Hvalid; [|discriminate].
  injection H as <-. exact Hvalid.
Qed.

Lemma parse_day_valid (v : json) (d : datetime.date) :
  adapters.parse_day v = Some d -> datetime.date_valid d = true.
Proof. destruct v; try discriminate. apply date_fromisoformat_valid. Qed.

(** What every record of a mapper carries, whatever the vendor. *)
Definition provenance (source : models.SleepSource) (patient : uuid.UUID) (now : Z)
    (e : dict) (d : models.SleepDay) : Prop :=
  models.raw_payload d = e
  /\ models.source d = source
  /\ models.patient_id d = patient
  /\ models.fingerprint d
     = models.compute_fingerprint source (models.source_record_id d)
         (models.effective_date d)
  /\ datetime.date_valid (models.effective_date d) = true
  /\ models.ingested_at d = datetime.DateTime now (Some datetime.UTC)
  /\ models.updated_at d = datetime.DateTime now (Some datetime.UTC).

Lemma oura_entry_skipped patient id now entry :
  adapters.oura_entry patient id now entry = Some None -> is_primary entry = false.
Proof.
  destruct entry as [| | | | | |e]; try discriminate. cbn [adapters.oura_entry is_primary].
  destruct (eq_str (dict_get "type" e) "long_sleep"); [|reflexivity].
  destruct (eq_zero (dict_get_default "period" (JInt 0) e)); [|reflexivity].
  cbn [negb]. intros H. exfalso. adapters_facts.bind_inv H. discriminate.
Qed.

Lemma oura_entry_kept patient id now entry d :
  adapters.oura_entry patient id now entry = Some (Some d) ->
  is_primary entry = true
  /\ exists e, entry = JObj e
     /\ provenance models.OURA patient now e d
     /\ dict_item "id" e = Some (JStr (models.source_record_id d))
     /\ (day ← dict_item "day" e; adapters.parse_day day)
        = Some (models.effective_date d).
Proof.
  destruct entry as [| | | | | |e]; try discriminate. cbn [adapters.oura_entry is_primary].
  destruct (eq_str (dict_get "type" e) "long_sleep"); [|discriminate].
  destruct (eq_zero (dict_get_default "period" (JInt 0) e)); [|discriminate].
  cbn [negb andb]. intros H. split; [reflexivity|]. exists e. split; [reflexivity|].
  apply bind_Some in H as (day & Eday & H).
  apply bind_Some in H as (effective & Eeff & H).
  apply bind_Some in H as (source_id & Eid & H).
  apply bind_Some in H as (extra & Eextra & H).
  apply bind_Some in H as (rid & Erid & H).
  adapters_facts.bind_inv H. injection H as ->.
  match goal with
  | H : models.SleepDay_init _ _ _ _ _ _ _ _ _ _ _ _ _ _ _ _ _ _ = Some _ |- _ =>
      apply adapters_facts.SleepDay_init_fields in H;
      destruct H as (_ & _ & _ & _ & _ & _ & Hrid & Hfp & Heff & Hsrc & _ & Hpat
                     & Hraw & Hing & Hupd & _)
  end.
  rewrite Erid in Hrid. injection Hrid as Hrid.
  destruct source_id as [| | | |sid| |]; try discriminate.
  injection Erid as Erid.
  pose proof (parse_day_valid _ _ Eeff) as Hvalid.
  unfold provenance. rewrite Eday, Eid. cbn [mbind option_bind].
  rewrite Hfp, Heff, <- Hrid, Erid.
  repeat split; assumption.
Qed.

(** Keys of a literal dictionary, pairwise different. *)
Fixpoint distinct (keys : list string) : bool :=
  match keys with
  | [] => true
  | k :: rest => negb (existsb (String.eqb k) rest) && distinct rest
  end.

(** The value the comprehension computes for a key; [None] for a key it
    does not list. *)
Fixpoint item_value (k : string) (items : list (string * option json))
    : option json :=
  match items with
  | [] => Some JNull
  | (k', v) :: rest => if String.eqb k k' then v else item_value k rest
  end.

Lemma build_extra_absent (k : string) (items : list (string * option json)) :
  forall d, adapters.build_extra items = Some d ->
            existsb (String.eqb k) (map fst items) = false ->
            dict_get k d = JNull.
Proof.
  induction items as [|[k0 o0] rest IH]; intros d H Hk.
  - injection H as <-. reflexivity.
  - cbn [adapters.build_extra] in H. adapters_facts.bind_inv H. injection H as <-.
    cbn [map fst existsb] in Hk. apply orb_false_elim in Hk as [Hk0 Hk].
    specialize (IH _ ltac:(eassumption) Hk).
    match goal with |- dict_get k (match ?v with _ => _ end) = _ => destruct v end;
      cbn [dict_get]; rewrite ?Hk0; exact IH.
Qed.

(** Reading [extra] gives back what the comprehension computed: a
    dropped [None] reads as the [None] of a missing key. *)
Lemma build_extra_get (k : string) (items : list (string * option json)) :
  forall d, adapters.build_extra items = Some d ->
            distinct (map fst items) = true ->
            item_value k items = Some (dict_get k d).
Proof.
  induction items as [|[k0 o0] rest IH]; intros d H Hd.
  - injection H as <-. reflexivity.
  - cbn [adapters.build_extra] in H. adapters_facts.bind_inv H.
    match goal with H0 : o0 = Some _ |- _ => rename H0 into Ho end.
    match goal with H0 : adapters.build_extra rest = Some _ |- _ => rename H0 into Hr end.
    injection H as <-.
    cbn [map fst distinct] in Hd. apply andb_prop in Hd as [Hfresh Hd].
    apply negb_true_iff in Hfresh.
    cbn [item_value]. destruct (String.eqb_spec k k0) as [-> | Hne].
    + rewrite Ho. f_equal.
      match goal with |- _ = dict_get k0 (match ?v with _ => _ end) => destruct v end;
        cbn [dict_get]; rewrite ?String.eqb_refl; try reflexivity.
      symmetry. exact (build_extra_absent _ _ _ Hr Hfresh).
    + rewrite (IH _ Hr Hd). f_equal.
      apply String.eqb_neq in Hne.
      match goal with |- _ = dict_get k (match ?v with _ => _ end) => destruct v end;
        cbn [dict_get]; rewrite ?Hne; reflexivity.
Qed.

(** What [WithingsMapper.parse] computes on the way to a record. *)
Lemma withings_entry_parts rt patient id now entry d :
  adapters.withings_entry rt patient id now entry = Some (Some d) ->
  exists e data tz,
    entry = JObj e
    /\ dict_get_default "data" entry e = JObj data
    /\ adapters.entry_zone rt (dict_get "timezone" e) = Some tz
    /\ (if dict_has "id" e then adapters.py_str (dict_get "id" e)
        else s ← adapters.py_str (dict_get_default "startdate" (JStr "") e);
             t ← adapters.py_str (dict_get_default "enddate" (JStr "") e);
             Some (s +:+ "_" +:+ t)) = Some (models.source_record_id d)
    /\ provenance models.WITHINGS patient now e d
    /\ adapters._sec_to_min
         (adapters.resolve_alias "sleep_latency" "durationtosleep" data)
       = Some (dict_get "latency_minutes" (models.extra d))
    /\ adapters._sec_to_min
         (adapters.resolve_alias "wakeup_latency" "durationtowakeup" data)
       = Some (dict_get "wakeup_latency_minutes" (models.extra d))
    /\ adapters._unix_to_dt (dict_get "startdate" e) tz = Some (models.sleep_onset d)
    /\ adapters._unix_to_dt (dict_get "enddate" e) tz = Some (models.sleep_offset d).
Proof.
  destruct entry as [| | | | | |e]; try discriminate.
  cbn [adapters.withings_entry]. intros H.
  apply bind_Some in H as (day & Eday & H).
  apply bind_Some in H as (effective & Eeff & H).
  destruct (dict_get_default "data" (JObj e) e) as [| | | | | |data] eqn:Edata;
    try discriminate.
  apply bind_Some in H as (tz & Etz & H).
  apply bind_Some in H as (source_id & Eid & H).
  apply bind_Some in H as (extra & Eextra & H).
  adapters_facts.bind_inv H. injection H as ->.
  match goal with
  | H : models.SleepDay_init _ _ _ _ _ _ _ _ _ _ _ _ _ _ _ _ _ _ = Some _ |- _ =>
      apply adapters_facts.SleepDay_init_fields in H;
      destruct H as (_ & _ & _ & _ & _ & _ & Hrid & Hfp & Heff & Hsrc & _ & Hpat
                     & Hraw & Hing & Hupd & Hon & Hoff & Hextra)
  end.
  cbn [models.str_field] in Hrid. injection Hrid as Hrid.
  pose proof (parse_day_valid _ _ Eeff) as Hvalid.
  pose proof (build_extra_get "latency_minutes" _ _ Eextra eq_refl) as Hlat.
  pose proof (build_extra_get "wakeup_latency_minutes" _ _ Eextra eq_refl) as Hwake.
  cbv [item_value String.eqb Ascii.eqb Bool.eqb andb] in Hlat, Hwake.
  exists e, data, tz. subst.
  repeat split; try assumption; try reflexivity; congruence.
Qed.

Lemma withings_entry_kept rt patient id now entry :
  adapters.withings_entry rt patient id now entry <> Some None.
Proof.
  destruct entry as [| | | | | |e]; try discriminate.
  cbn [adapters.withings_entry]. intros H.
  apply bind_Some in H as (day & Eday & H).
  apply bind_Some in H as (effective & Eeff & H).
  destruct (dict_get_default "data" (JObj e) e) as [| | | | | |data];
    try discriminate.
  adapters_facts.bind_inv H. discriminate.
Qed.

(** The entry has no readable day: the key is missing ([KeyError]), its
    value is not a string ([TypeError]), or it is a string of a length
    that no form of date has ([ValueError]: [date.fromisoformat] reads
    only strings of 7, 8 or 10 characters). *)
Definition day_unreadable (e : dict) : Prop :=
  match dict_item "day" e with
  | None => True
  | Some (JStr s) =>
      String.length s <> 7%nat /\ String.length s <> 8%nat
      /\ String.length s <> 10%nat
  | Some _ => True
  end.

Lemma day_unreadable_raises (e : dict) :
  day_unreadable e -> (day ← dict_item "day" e; adapters.parse_day day) = None.
Proof.
  unfold day_unreadable. destruct (dict_item "day" e) as [day|]; [|reflexivity].
  cbn [mbind option_bind]. destruct day; try reflexivity.
  intros (_ & _ & H10). cbn [adapters.parse_day]. unfold datetime.date_fromisoformat.
  destruct (Nat.eqb (String.length s) 10) eqn:E; [|reflexivity].
  apply Nat.eqb_eq in E. contradiction.
Qed.

(** An Oura payload with a primary entry that has no day. *)
Definition no_day_payload : dict :=
  scenarios.payload
    [ scenarios.night "n1" "2024-03-14";
      JObj [ ("id", JStr "n2"); ("type", JStr "long_sleep") ] ].

(** A Withings series entry without an id and without timestamps. *)
Definition bare_entry : json :=
  JObj [ ("date", JStr "2024-03-14");
         ("data", JObj [ ("durationtosleep", JInt 540) ]) ].

(** A Withings series entry with both names of each latency. *)
Definition both_latencies (sleep_latency wakeup_latency : Z) : json :=
  JObj [ ("id", JInt 987654321);
         ("date", JStr "2024-03-14");
         ("timezone", JStr "America/Chicago");
         ("startdate", JInt 1710468840);
         ("enddate", JInt 1710496950);
         ("data", JObj [ ("total_sleep_time", JInt 25440);
                         ("sleep_latency", JInt sleep_latency);
                         ("durationtosleep", JInt 540);
                         ("wakeup_latency", JInt wakeup_latency);
                         ("durationtowakeup", JInt 360) ]) ].

End mapper_facts.

(** [OuraMapper.parse] returns one record for each entry of type
    long_sleep and period 0, in the order of the payload, and none for
    any other entry.  Each record carries its entry as raw payload, the
    entry's id and day, the source oura, the patient of the call, one
    clock reading as both timestamps, and the fingerprint of its own
    (source, id, day). *)
Theorem oura_parse_records (raw_response : Py.dict) (patient next : uuid.UUID)
    (now : Z) (ds : list models.SleepDay) :
  adapters.oura_parse raw_response patient next now = Some ds ->
  exists entries,
    adapters.iterate (Py.dict_get_default "data" (Py.JArr []) raw_response)
    = Some entries
    /\ Forall2 (fun entry d =>
                  exists e, entry = Py.JObj e
                    /\ mapper_facts.provenance models.OURA patient now e d
                    /\ Py.dict_item "id" e = Some (Py.JStr (models.source_record_id d))
                    /\ (day ← Py.dict_item "day" e; adapters.parse_day day)
                       = Some (models.effective_date d))
         (List.filter mapper_facts.is_primary entries) ds
    /\ length ds = length (List.filter mapper_facts.is_primary entries).
Proof.
  unfold adapters.oura_parse. intros H.
  apply bind_Some in H as (entries & Hentries & H).
  exists entries. split; [exact Hentries|].
  assert (HF : Forall2 (fun entry d =>
                  exists e, entry = Py.JObj e
                    /\ mapper_facts.provenance models.OURA patient now e d
                    /\ Py.dict_item "id" e = Some (Py.JStr (models.source_record_id d))
                    /\ (day ← Py.dict_item "day" e; adapters.parse_day day)
                       = Some (models.effective_date d))
         (List.filter mapper_facts.is_primary entries) ds).
  { eapply (mapper_facts.map_entries_kept
              (fun i => adapters.oura_entry patient i now)); [| |exact H].
    - intros i entry. apply mapper_facts.oura_entry_skipped.
    - intros i entry d Hd. now apply mapper_facts.oura_entry_kept in Hd. }
  split; [exact HF|]. symmetry. exact (Forall2_length _ _ _ HF).
Qed.

Lemma oura_parse_records_witness :
  exists ds,
    adapters.oura_parse
      (scenarios.payload
         [ scenarios.night "n1" "2024-03-14";
           Py.JObj [ ("id", Py.JStr "nap"); ("day", Py.JStr "2024-03-14");
                     ("type", Py.JStr "rest") ];
           scenarios.night "n2" "2024-03-15" ]) 7 1 1000 = Some ds
    /\ length ds = 2%nat.
Proof.
  eexists. split; [vm_compute; reflexivity|].
  match goal with
  | |- length ?ds = _ =>
      destruct (oura_parse_records
                  (scenarios.payload
                     [ scenarios.night "n1" "2024-03-14";
                       Py.JObj [ ("id", Py.JStr "nap"); ("day", Py.JStr "2024-03-14");
                                 ("type", Py.JStr "rest") ];
                       scenarios.night "n2" "2024-03-15" ]) 7 1 1000 ds)
        as (entries & Hentries & _ & Hlen)
  end.
  - vm_compute. reflexivity.
  - rewrite Hlen. vm_compute in Hentries. injection Hentries as <-. reflexivity.
Defined.

(** One malformed entry rejects the whole Oura payload: when a primary
    entry has no readable day, [OuraMapper.parse] raises, and a call of
    [ingest_sleep_data] that returns has stored the raw response and a
    single quarantine row of stage adapter that refers to it, has
    committed, and returns records_quarantined = 1 with an empty result
    list.  No sleep_days row is written, not even for the well-formed
    entries of the payload. *)
Theorem oura_malformed_entry_rejects_payload (rt : Runtime) (w : pipeline.World)
    (now : Z) (today : datetime.date) (raw_payload : Py.dict)
    (patient : uuid.UUID) (entries : list Py.json) (e : Py.dict) :
  adapters.iterate (Py.dict_get_default "data" (Py.JArr []) raw_payload)
  = Some entries ->
  In (Py.JObj e) entries ->
  mapper_facts.is_primary (Py.JObj e) = true ->
  mapper_facts.day_unreadable e ->
  (forall next, adapters.oura_parse raw_payload patient next now = None)
  /\ forall w' result,
       pipeline.ingest_sleep_data rt w now today "oura" raw_payload patient
       = Some (w', result) ->
       pipeline.results result = []
       /\ pipeline.records_quarantined result = 1
       /\ pipeline.records_processed result = 0
       /\ pipeline.records_inserted result = 0
       /\ pipeline.records_updated result = 0
       /\ pipeline.pending (pipeline.session w')
          = pipeline.committed (pipeline.session w')
       /\ orm.sleep_days (pipeline.committed (pipeline.session w'))
          = orm.sleep_days (pipeline.pending (pipeline.session w))
       /\ (exists raw_row,
             orm.raw_vendor_responses (pipeline.committed (pipeline.session w'))
             = orm.raw_vendor_responses (pipeline.pending (pipeline.session w))
               ++ [raw_row]
             /\ exists q,
                  orm.quarantine_records (pipeline.committed (pipeline.session w'))
                  = orm.quarantine_records (pipeline.pending (pipeline.session w))
                    ++ [q]
                  /\ orm.q_pipeline_stage q = "adapter"
                  /\ orm.q_quarantine_reason q = "adapter_parse_error"
                  /\ orm.q_raw_response_id q = Some (orm.raw_id raw_row)).
Proof.
  intros Hentries Hin Hprimary Hday.
  apply mapper_facts.day_unreadable_raises in Hday.
  assert (Hbad : forall i, adapters.oura_entry patient i now (Py.JObj e) = None).
  { intros i. cbn [adapters.oura_entry]. cbn [mapper_facts.is_primary] in Hprimary.
    apply andb_prop in Hprimary as [-> ->]. cbn [negb].
    destruct (Py.dict_item "day" e) as [day|]; [|reflexivity].
    cbn [mbind option_bind] in *. now rewrite Hday. }
  assert (Hparse : forall next, adapters.oura_parse raw_payload patient next now = None).
  { intros next. unfold adapters.oura_parse. rewrite Hentries. cbn [mbind option_bind].
    exact (mapper_facts.map_entries_raises _ _ Hbad entries next Hin). }
  split; [exact Hparse|].
  unfold pipeline.ingest_sleep_data. cbn [adapters.get_adapter String.eqb Ascii.eqb
    Bool.eqb mbind option_bind].
  cbv zeta. cbn [repository.store_raw_response]. rewrite Hparse.
  intros w' result [= <- <-]. cbn.
  repeat split.
  eexists. split; [reflexivity|].
  eexists. repeat split.
Qed.

Lemma oura_malformed_entry_rejects_payload_witness :
  exists w' result,
    pipeline.ingest_sleep_data scenarios.runtime scenarios.fresh 1000 scenarios.today
      "oura" mapper_facts.no_day_payload 7 = Some (w', result)
    /\ pipeline.results result = []
    /\ pipeline.records_quarantined result = 1
    /\ orm.sleep_days (pipeline.committed (pipeline.session w')) = [].
Proof.
  assert (Hrun : exists w' result,
             pipeline.ingest_sleep_data scenarios.runtime scenarios.fresh 1000
               scenarios.today "oura" mapper_facts.no_day_payload 7
             = Some (w', result))
    by (eexists; eexists; vm_compute; reflexivity).
  destruct Hrun as (w' & result & Hrun).
  destruct (oura_malformed_entry_rejects_payload scenarios.runtime scenarios.fresh
              1000 scenarios.today mapper_facts.no_day_payload 7
              [ scenarios.night "n1" "2024-03-14";
                Py.JObj [ ("id", Py.JStr "n2"); ("type", Py.JStr "long_sleep") ] ]
              [ ("id", Py.JStr "n2"); ("type", Py.JStr "long_sleep") ])
    as (_ & Hall).
  - reflexivity.
  - right. left. reflexivity.
  - reflexivity.
  - exact I.
  - destruct (Hall w' result Hrun) as (Hres & Hq & _ & _ & _ & _ & Hrows & _).
    exists w', result. repeat split; assumption.
Defined.

(** The native id of a Withings record: [str(entry["id"])] when the entry
    has an id, else the start and end timestamps joined by an underscore,
    each empty when missing, so that an entry with none of the three gets
    the id "_".  The record carries the entry as raw payload and the
    fingerprint of its own (withings, id, date). *)
Theorem withings_record_identity (rt : Runtime) (patient id : uuid.UUID) (now : Z)
    (e : Py.dict) (d : models.SleepDay) :
  adapters.withings_entry rt patient id now (Py.JObj e) = Some (Some d) ->
  mapper_facts.provenance models.WITHINGS patient now e d
  /\ (Py.dict_has "id" e = true ->
      adapters.py_str (Py.dict_get "id" e) = Some (models.source_record_id d))
  /\ (Py.dict_has "id" e = false ->
      exists s t,
        adapters.py_str (Py.dict_get_default "startdate" (Py.JStr "") e) = Some s
        /\ adapters.py_str (Py.dict_get_default "enddate" (Py.JStr "") e) = Some t
        /\ models.source_record_id d = s +:+ "_" +:+ t)
  /\ (Py.dict_has "id" e = false -> Py.dict_has "startdate" e = false ->
      Py.dict_has "enddate" e = false -> models.source_record_id d = "_").
Proof.
  intros H.
  destruct (mapper_facts.withings_entry_parts _ _ _ _ _ _ H)
    as (e' & data & tz & [= <-] & _ & _ & Hid & Hprov & _).
  split; [exact Hprov|].
  assert (Hno : Py.dict_has "id" e = false ->
            exists s t,
              adapters.py_str (Py.dict_get_default "startdate" (Py.JStr "") e) = Some s
              /\ adapters.py_str (Py.dict_get_default "enddate" (Py.JStr "") e) = Some t
              /\ models.source_record_id d = s +:+ "_" +:+ t).
  { intros Hhas. rewrite Hhas in Hid.
    apply bind_Some in Hid as (s & Hs & Hid).
    apply bind_Some in Hid as (t & Ht & Hid).
    injection Hid as <-. exists s, t. repeat split; assumption. }
  split; [|split; [exact Hno|]].
  - intros Hhas. now rewrite Hhas in Hid.
  - intros Hhas Hs Ht. destruct (Hno Hhas) as (s & t & Es & Et & ->).
    unfold Py.dict_get_default in Es, Et. rewrite Hs in Es. rewrite Ht in Et.
    cbn in Es, Et. injection Es as <-. injection Et as <-. reflexivity.
Qed.

Lemma withings_record_identity_witness :
  exists d,
    adapters.withings_entry adapters_facts.no_zones 7 1 0 mapper_facts.bare_entry
    = Some (Some d)
    /\ models.source_record_id d = "_".
Proof.
  assert (H : exists d,
             adapters.withings_entry adapters_facts.no_zones 7 1 0
               mapper_facts.bare_entry = Some (Some d))
    by (eexists; vm_compute; reflexivity).
  destruct H as [d H]. exists d. split; [exact H|].
  exact (proj2 (proj2 (proj2 (withings_record_identity _ _ _ _ _ _ H)))
           eq_refl eq_refl eq_refl).
Defined.

(** Alias resolution in [WithingsMapper.parse]: latency_minutes and
    wakeup_latency_minutes come from the specific field (sleep_latency,
    wakeup_latency) when its value is truthy, and from the legacy field
    (durationtosleep, durationtowakeup) otherwise.  So a specific field
    holding a non-zero number of seconds wins, while one that is missing,
    null or 0 gives way to the legacy field. *)
Theorem withings_alias_resolution (rt : Runtime) (patient id : uuid.UUID) (now : Z)
    (e data : Py.dict) (d : models.SleepDay) :
  adapters.withings_entry rt patient id now (Py.JObj e) = Some (Some d) ->
  Py.dict_get_default "data" (Py.JObj e) e = Py.JObj data ->
  (forall s, Py.dict_get "sleep_latency" data = Py.JInt s -> s <> 0 ->
     Py.dict_get "latency_minutes" (models.extra d) = Py.JInt (s / 60))
  /\ (forall t, Py.truthy (Py.dict_get "sleep_latency" data) = false ->
        Py.dict_get "durationtosleep" data = Py.JInt t ->
        Py.dict_get "latency_minutes" (models.extra d) = Py.JInt (t / 60))
  /\ (forall s, Py.dict_get "wakeup_latency" data = Py.JInt s -> s <> 0 ->
        Py.dict_get "wakeup_latency_minutes" (models.extra d) = Py.JInt (s / 60))
  /\ (forall t, Py.truthy (Py.dict_get "wakeup_latency" data) = false ->
        Py.dict_get "durationtowakeup" data = Py.JInt t ->
        Py.dict_get "wakeup_latency_minutes" (models.extra d) = Py.JInt (t / 60)).
Proof.
  intros H Hdata.
  destruct (mapper_facts.withings_entry_parts _ _ _ _ _ _ H)
    as (e' & data' & tz & [= <-] & Hdata' & _ & _ & _ & Hlat & Hwake & _).
  rewrite Hdata in Hdata'. injection Hdata' as <-.
  unfold adapters.resolve_alias, Py.py_or in Hlat, Hwake.
  repeat split.
  - intros s Hs Hne. rewrite Hs in Hlat. cbn [Py.truthy] in Hlat.
    destruct (Z.eqb_spec s 0); [contradiction|]. cbn in Hlat. congruence.
  - intros t Hf Ht. rewrite Hf, Ht in Hlat. cbn in Hlat. congruence.
  - intros s Hs Hne. rewrite Hs in Hwake. cbn [Py.truthy] in Hwake.
    destruct (Z.eqb_spec s 0); [contradiction|]. cbn in Hwake. congruence.
  - intros t Hf Ht. rewrite Hf, Ht in Hwake. cbn in Hwake. congruence.
Qed.

Lemma withings_alias_resolution_witness :
  exists d,
    adapters.withings_entry scenarios.runtime 7 1 0
      (mapper_facts.both_latencies 120 0) = Some (Some d)
    /\ Py.dict_get "latency_minutes" (models.extra d) = Py.JInt (120 / 60)
    /\ Py.dict_get "wakeup_latency_minutes" (models.extra d) = Py.JInt (360 / 60).
Proof.
  assert (H : exists d,
             adapters.withings_entry scenarios.runtime 7 1 0
               (mapper_facts.both_latencies 120 0) = Some (Some d))
    by (eexists; vm_compute; reflexivity).
  destruct H as [d H].
  destruct (withings_alias_resolution _ _ _ _ _ _ _ H eq_refl)
    as (Hspecific & _ & _ & Hlegacy).
  exists d. split; [exact H|]. split.
  - apply Hspecific; [reflexivity|discriminate].
  - apply Hlegacy; reflexivity.
Defined.

(** Timestamps of a Withings record: the epoch seconds of startdate and
    enddate are kept as the instants of sleep_onset and sleep_offset,
    under the entry's IANA zone when it names one and under UTC when the
    zone is missing or empty; a zone the time-zone database does not know
    makes the mapper raise. *)
Theorem withings_timestamps (rt : Runtime) (patient id : uuid.UUID) (now : Z)
    (e : Py.dict) :
  (forall d,
     adapters.withings_entry rt patient id now (Py.JObj e) = Some (Some d) ->
     exists zone,
       (if Py.truthy (Py.dict_get "timezone" e)
        then Py.dict_get "timezone" e = Py.JStr zone
             /\ In zone (zoneinfo_keys rt)
        else True)
       /\ (forall n, Py.dict_get "startdate" e = Py.JInt n ->
             models.sleep_onset d
             = Some (datetime.DateTime n
                       (Some (if Py.truthy (Py.dict_get "timezone" e)
                              then datetime.ZoneInfo zone else datetime.UTC))))
       /\ (forall n, Py.dict_get "enddate" e = Py.JInt n ->
             models.sleep_offset d
             = Some (datetime.DateTime n
                       (Some (if Py.truthy (Py.dict_get "timezone" e)
                              then datetime.ZoneInfo zone else datetime.UTC))))
       /\ (Py.dict_get "startdate" e = Py.JNull -> models.sleep_onset d = None)
       /\ (Py.dict_get "enddate" e = Py.JNull -> models.sleep_offset d = None))
  /\ (forall zone,
        Py.dict_get "timezone" e = Py.JStr zone -> zone <> "" ->
        ~ In zone (zoneinfo_keys rt) ->
        adapters.withings_entry rt patient id now (Py.JObj e) = None).
Proof.
  split.
  - intros d H.
    destruct (mapper_facts.withings_entry_parts _ _ _ _ _ _ H)
      as (e' & data & tz & [= <-] & _ & Hzone & _ & _ & _ & _ & Hon & Hoff).
    unfold adapters.entry_zone in Hzone.
    destruct (Py.truthy (Py.dict_get "timezone" e)) eqn:Htruthy.
    + destruct (Py.dict_get "timezone" e) as [| | | |key| |]; try discriminate.
      destruct (existsb (String.eqb key) (zoneinfo_keys rt)) eqn:Hknown;
        [|discriminate].
      injection Hzone as <-. exists key.
      split.
      { split; [reflexivity|]. apply existsb_exists in Hknown as (k & Hk & Heq).
        apply String.eqb_eq in Heq. now subst. }
      unfold adapters._unix_to_dt in Hon, Hoff.
      repeat split.
      * intros n Hn. rewrite Hn in Hon.
        destruct ((-62135596800 <=? n) && (n <=? 253402300799)); [|discriminate].
        now injection Hon as <-.
      * intros n Hn. rewrite Hn in Hoff.
        destruct ((-62135596800 <=? n) && (n <=? 253402300799)); [|discriminate].
        now injection Hoff as <-.
      * intros Hn. rewrite Hn in Hon. now injection Hon as <-.
      * intros Hn. rewrite Hn in Hoff. now injection Hoff as <-.
    + injection Hzone as <-. exists "".
      unfold adapters._unix_to_dt in Hon, Hoff.
      repeat split.
      * intros n Hn. rewrite Hn in Hon.
        destruct ((-62135596800 <=? n) && (n <=? 253402300799)); [|discriminate].
        now injection Hon as <-.
      * intros n Hn. rewrite Hn in Hoff.
        destruct ((-62135596800 <=? n) && (n <=? 253402300799)); [|discriminate].
        now injection Hoff as <-.
      * intros Hn. rewrite Hn in Hon. now injection Hon as <-.
      * intros Hn. rewrite Hn in Hoff. now injection Hoff as <-.
  - intros zone Hz Hne Hunknown.
    destruct (adapters.withings_entry rt patient id now (Py.JObj e))
      as [[d|]|] eqn:H; [| |reflexivity].
    + exfalso.
      destruct (mapper_facts.withings_entry_parts _ _ _ _ _ _ H)
        as (e' & data & tz & [= <-] & _ & Hzone & _).
      unfold adapters.entry_zone in Hzone. rewrite Hz in Hzone.
      cbn [Py.truthy] in Hzone.
      destruct (String.eqb_spec zone ""); [contradiction|]. cbn [negb] in Hzone.
      destruct (existsb (String.eqb zone) (zoneinfo_keys rt)) eqn:Hknown;
        [|discriminate].
      apply existsb_exists in Hknown as (k & Hk & Heq).
      apply String.eqb_eq in Heq. subst. contradiction.
    + exfalso. exact (mapper_facts.withings_entry_kept _ _ _ _ _ H).
Qed.

Lemma withings_timestamps_witness :
  exists d,
    adapters.withings_entry scenarios.runtime 7 1 0
      (mapper_facts.both_latencies 120 0) = Some (Some d)
    /\ models.sleep_onset d
       = Some (datetime.DateTime 1710468840
                 (Some (datetime.ZoneInfo "America/Chicago"))).
Proof.
  assert (H : exists d,
             adapters.withings_entry scenarios.runtime 7 1 0
               (mapper_facts.both_latencies 120 0) = Some (Some d))
    by (eexists; vm_compute; reflexivity).
  destruct H as [d H]. exists d. split; [exact H|].
  destruct (proj1 (withings_timestamps scenarios.runtime 7 1 0 _) d H)
    as (zone & Hzone & Hon & _).
  cbn in Hzone. destruct Hzone as [[= <-] _].
  exact (Hon 1710468840 eq_refl).
Defined.

(* ===================================================================== *)
(** ** The store: unique keys, repeated upserts, provenance pages         *)
(* ===================================================================== *)

Module store_facts.
Import orm repository.

(** The unique constraints of [sleep_days]: the primary key, the
    fingerprint and (source, source_record_id). *)
Definition source_record (r : SleepDayModel) : string * string :=
  (source r, source_record_id r).

Definition well_keyed (db : Database) : Prop :=
  List.NoDup (map id (sleep_days db))
  /\ List.NoDup (map fingerprint (sleep_days db))
  /\ List.NoDup (map source_record (sleep_days db)).

(** The rows after an update, as the statement computes them. *)
Definition updated_rows (record : SleepDayModel) (now : Z)
    (rows : list SleepDayModel) : list SleepDayModel :=
  map (fun r => if same_fingerprint record r then do_update record now r else r) rows.

Lemma updated_rows_keep {K : Type} (key : SleepDayModel -> K)
    (record : SleepDayModel) (now : Z) (rows : list SleepDayModel) :
  (forall r, key (do_update record now r) = key r) ->
  map key (updated_rows record now rows) = map key rows.
Proof.
  intros Hk. unfold updated_rows. rewrite map_map. apply map_ext.
  intros r. destruct (same_fingerprint record r); [apply Hk|reflexivity].
Qed.

Lemma NoDup_snoc {A : Type} (l : list A) (x : A) :
  ~ In x l -> List.NoDup l -> List.NoDup (l ++ [x]).
Proof.
  intros Hx Hl. induction l as [|y l IH]; cbn.
  - constructor; [intros []|constructor].
  - apply List.NoDup_cons_iff in Hl as [Hy Hl]. constructor.
    + rewrite in_app_iff. cbn. intros [H | [H | []]]; [contradiction|].
      subst. apply Hx. now left.
    + apply IH; [|exact Hl]. intros H. apply Hx. now right.
Qed.

Lemma existsb_false_not_in {K : Type} (key : SleepDayModel -> K)
    (test : SleepDayModel -> bool) (record : SleepDayModel)
    (rows : list SleepDayModel) :
  (forall r, key r = key record -> test r = true) ->
  existsb test rows = false -> ~ In (key record) (map key rows).
Proof.
  intros Htest Hex Hin. apply in_map_iff in Hin as (r & Hkey & Hin).
  assert (H : existsb test rows = true)
    by (apply existsb_exists; exists r; split; [exact Hin|now apply Htest]).
  congruence.
Qed.

Lemma in_prefix {A : Type} (x : A) (n : nat) (l : list A) :
  In x (firstn n l) -> In x l.
Proof.
  revert n. induction l as [|y l IH]; intros [|n]; cbn; try tauto.
  intros [-> | H]; [now left|right; exact (IH _ H)].
Qed.

(** A row with only [updated_at] replaced. *)
Definition touch (now : Z) (r : SleepDayModel) : SleepDayModel :=
  {| id := id r; patient_id := patient_id r; source := source r;
     source_record_id := source_record_id r; raw_payload := raw_payload r;
     fingerprint := fingerprint r; effective_date := effective_date r;
     ingested_at := ingested_at r;
     updated_at := datetime.DateTime now (Some datetime.UTC);
     total_sleep_minutes := total_sleep_minutes r;
     deep_sleep_minutes := deep_sleep_minutes r;
     light_sleep_minutes := light_sleep_minutes r;
     rem_sleep_minutes := rem_sleep_minutes r;
     awake_minutes := awake_minutes r;
     sleep_onset := sleep_onset r; sleep_offset := sleep_offset r;
     sleep_efficiency := sleep_efficiency r; extra := extra r |}.

Lemma find_updated_rows (record : SleepDayModel) (now : Z)
    (rows : list SleepDayModel) (old : SleepDayModel) :
  find (same_fingerprint record) rows = Some old ->
  find (same_fingerprint record) (updated_rows record now rows)
  = Some (do_update record now old).
Proof.
  induction rows as [|r rows IH]; [discriminate|]. cbn [find updated_rows map].
  destruct (same_fingerprint record r) eqn:E.
  - intros [= <-]. unfold same_fingerprint in *. cbn. now rewrite E.
  - intros H. rewrite E. exact (IH H).
Qed.

Lemma find_appended (record : SleepDayModel) (rows : list SleepDayModel) :
  find (same_fingerprint record) rows = None ->
  find (same_fingerprint record) (rows ++ [record]) = Some record.
Proof.
  induction rows as [|r rows IH]; cbn [find app].
  - intros _. unfold same_fingerprint. now rewrite String.eqb_refl.
  - destruct (same_fingerprint record r); [discriminate|]. exact IH.
Qed.

(** A stored row and a proposal for another night. *)
Definition stored : SleepDayModel :=
  pipeline.upsert_dict (pipeline_facts.candidate 1 "n1" (datetime.Date 2024 3 14)).

Definition other_night : SleepDayModel :=
  pipeline.upsert_dict (pipeline_facts.candidate 3 "n2" (datetime.Date 2024 3 15)).

End store_facts.

(** An upsert the store accepts keeps the unique constraints of
    sleep_days: after it, as before, no two rows share an id, a
    fingerprint or a (source, source_record_id) pair. *)
Theorem upsert_keeps_unique_keys (db : orm.Database) (record : orm.SleepDayModel)
    (now : Z) (db' : orm.Database) (row_id : uuid.UUID) (was_inserted : bool) :
  store_facts.well_keyed db ->
  repository.upsert db record now = repository.Upserted db' row_id was_inserted ->
  store_facts.well_keyed db'.
Proof.
  intros (Hid & Hfp & Hsr) H. unfold repository.upsert in H.
  destruct (repository.check_violation record); [discriminate|].
  destruct (find (repository.same_fingerprint record) (orm.sleep_days db))
    as [old|] eqn:Hfind.
  - injection H as <- _ _. unfold store_facts.well_keyed. cbn [orm.sleep_days
      repository.with_sleep_days].
    fold (store_facts.updated_rows record now (orm.sleep_days db)).
    rewrite !store_facts.updated_rows_keep by reflexivity.
    repeat split; assumption.
  - destruct (existsb (fun r => orm.id r =? orm.id record) (orm.sleep_days db))
      eqn:Hpk; [discriminate|].
    destruct (existsb (repository.same_source_record record) (orm.sleep_days db))
      eqn:Huq; [discriminate|].
    injection H as <- _ _. unfold store_facts.well_keyed.
    cbn [orm.sleep_days repository.with_sleep_days]. rewrite !map_app. cbn [map].
    repeat split; apply store_facts.NoDup_snoc; try assumption.
    + apply (store_facts.existsb_false_not_in orm.id
               (fun r => orm.id r =? orm.id record) record (orm.sleep_days db));
        [|exact Hpk].
      intros r ->. apply Z.eqb_refl.
    + intros Hin. apply in_map_iff in Hin as (r & Hkey & Hin).
      pose proof (find_none _ _ Hfind r Hin) as Hr.
      unfold repository.same_fingerprint in Hr. rewrite Hkey, String.eqb_refl in Hr.
      discriminate.
    + apply (store_facts.existsb_false_not_in store_facts.source_record
               (repository.same_source_record record) record (orm.sleep_days db));
        [|exact Huq].
      intros r [= Hs Hr]. unfold repository.same_source_record.
      now rewrite Hs, Hr, !String.eqb_refl.
Qed.

Lemma upsert_keeps_unique_keys_witness :
  store_facts.well_keyed
    (repository.with_sleep_days orm.empty
       [store_facts.stored; store_facts.other_night]).
Proof.
  apply (upsert_keeps_unique_keys
           (repository.with_sleep_days orm.empty [store_facts.stored])
           store_facts.other_night 2000 _ 3 true).
  - unfold store_facts.well_keyed. cbn.
    repeat split; (constructor; [intros []|constructor]).
  - vm_compute. reflexivity.
Defined.

(** Upserting the same record again is an update that changes nothing
    but [updated_at]: after an upsert the store accepted, a second upsert
    of that record is accepted too, reports was_inserted = false and the
    id the first one returned, and leaves every row as it was except that
    the rows with the record's fingerprint get the new [updated_at]. *)
Theorem upsert_again_only_touches (db : orm.Database) (record : orm.SleepDayModel)
    (now now' : Z) (db1 : orm.Database) (row_id : uuid.UUID) (was_inserted : bool) :
  repository.upsert db record now = repository.Upserted db1 row_id was_inserted ->
  exists db2,
    repository.upsert db1 record now' = repository.Upserted db2 row_id false
    /\ orm.sleep_days db2
       = map (fun r => if repository.same_fingerprint record r
                       then store_facts.touch now' r else r)
             (orm.sleep_days db1)
    /\ length (orm.sleep_days db2) = length (orm.sleep_days db1).
Proof.
  intros H. unfold repository.upsert in *.
  destruct (repository.check_violation record); [discriminate|].
  destruct (find (repository.same_fingerprint record) (orm.sleep_days db))
    as [old|] eqn:Hfind.
  - injection H as <- <- _. cbn [orm.sleep_days repository.with_sleep_days].
    fold (store_facts.updated_rows record now (orm.sleep_days db)).
    rewrite (store_facts.find_updated_rows _ now _ _ Hfind).
    eexists. split; [reflexivity|]. cbn [orm.sleep_days repository.with_sleep_days].
    split; [|now rewrite length_map].
    unfold store_facts.updated_rows. rewrite !map_map. apply map_ext. intros r.
    destruct (repository.same_fingerprint record r) eqn:E.
    + unfold repository.same_fingerprint in *. cbn. rewrite E. reflexivity.
    + now rewrite E.
  - destruct (existsb _ _); [discriminate|]. destruct (existsb _ _); [discriminate|].
    injection H as <- <- _. cbn [orm.sleep_days repository.with_sleep_days].
    rewrite (store_facts.find_appended _ _ Hfind).
    eexists. split; [reflexivity|]. cbn [orm.sleep_days repository.with_sleep_days].
    split; [|now rewrite length_map].
    rewrite !map_app. cbn [map]. f_equal.
    apply map_ext_in. intros r Hin.
    now rewrite (find_none _ _ Hfind r Hin).
Qed.

Lemma upsert_again_only_touches_witness :
  exists db2,
    repository.upsert
      (repository.with_sleep_days orm.empty [store_facts.stored])
      store_facts.stored 3000
    = repository.Upserted db2 1 false
    /\ orm.sleep_days db2 = [store_facts.touch 3000 store_facts.stored].
Proof.
  destruct (upsert_again_only_touches orm.empty store_facts.stored 2000 3000
              (repository.with_sleep_days orm.empty [store_facts.stored]) 1 true)
    as (db2 & Hrun & Hrows & _).
  - vm_compute. reflexivity.
  - exists db2. split; [exact Hrun|]. rewrite Hrows. reflexivity.
Defined.

(** Every row [get_timeline] returns is a stored row of the requested
    patient whose effective date lies in [start, end); and when at least
    as many rows are asked for as match, the page holds all of them and
    there is no cursor. *)
Theorem timeline_rows_match (db : orm.Database) (patient : uuid.UUID)
    (start end_ : option datetime.date) (cur : option repository.cursor)
    (limit : Z) (descending : bool) (rows : list orm.SleepDayModel)
    (next : option repository.cursor) :
  repository.get_timeline db patient start end_ cur limit descending
  = Some (rows, next) ->
  Forall (fun r =>
            In r (orm.sleep_days db)
            /\ orm.patient_id r = patient
            /\ (forall s, start = Some s ->
                  datetime.date_leb s (orm.effective_date r) = true)
            /\ (forall e, end_ = Some e ->
                  datetime.date_ltb (orm.effective_date r) e = true)) rows
  /\ (Z.of_nat (length (List.filter
                          (repository.timeline_where patient start end_ cur descending)
                          (orm.sleep_days db))) <= limit ->
      next = None
      /\ Permutation rows
           (List.filter (repository.timeline_where patient start end_ cur descending)
                        (orm.sleep_days db))).
Proof.
  unfold repository.get_timeline.
  destruct (Z.ltb_spec (limit + 1) 0) as [Hneg | Hlimit]; [discriminate|].
  set (matching := List.filter
                     (repository.timeline_where patient start end_ cur descending)
                     (orm.sleep_days db)).
  set (page := firstn (Z.to_nat (limit + 1)) (repository.order_by descending matching)).
  intros H.
  assert (Hsub : forall r, In r rows -> In r matching).
  { intros r Hr. injection H as <- _.
    assert (Hpage : In r page).
    { destruct (limit <? Z.of_nat (length page)); [|exact Hr].
      eapply store_facts.in_prefix; exact Hr. }
    apply store_facts.in_prefix in Hpage.
    eapply Permutation_in; [apply timeline_facts.order_by_perm|exact Hpage]. }
  split.
  - apply List.Forall_forall. intros r Hr. specialize (Hsub r Hr).
    apply filter_In in Hsub as [Hin Hw]. unfold repository.timeline_where in Hw.
    apply andb_prop in Hw as [Hw _]. apply andb_prop in Hw as [Hw Hend].
    apply andb_prop in Hw as [Hpat Hstart]. apply Z.eqb_eq in Hpat.
    repeat split; try assumption.
    + intros s ->. exact Hstart.
    + intros e ->. exact Hend.
  - intros Hall.
    assert (Hlen : length (repository.order_by descending matching) = length matching)
      by (apply Permutation_length, timeline_facts.order_by_perm).
    assert (Hpage : page = repository.order_by descending matching).
    { unfold page. apply firstn_all2. lia. }
    rewrite Hpage in H. rewrite Hlen in H.
    destruct (Z.ltb_spec limit (Z.of_nat (length matching))); [lia|].
    injection H as <- <-. split; [reflexivity|].
    apply timeline_facts.order_by_perm.
Qed.

Lemma timeline_rows_match_witness :
  exists rows,
    repository.get_timeline timeline_facts.three_nights 7 None None None 10 true
    = Some (rows, None)
    /\ Permutation rows (orm.sleep_days timeline_facts.three_nights).
Proof.
  eexists. split; [vm_compute; reflexivity|].
  match goal with
  | |- Permutation ?rows _ =>
      destruct (timeline_rows_match timeline_facts.three_nights 7 None None None 10
                  true rows None) as [_ Hall]
  end.
  - vm_compute. reflexivity.
  - destruct Hall as [_ Hperm]; [vm_compute; discriminate|].
    exact Hperm.
Defined.

(** A page size below 1: [get_timeline] with limit 0 or -1 returns an
    empty page without a cursor, whatever the store holds, and with a
    limit below -1 the store rejects the query. *)
Theorem timeline_without_rows (db : orm.Database) (patient : uuid.UUID)
    (start end_ : option datetime.date) (cur : option repository.cursor)
    (limit : Z) (descending : bool) :
  limit <= 0 ->
  repository.get_timeline db patient start end_ cur limit descending
  = if limit <? -1 then None else Some ([], None).
Proof.
  intros Hl. unfold repository.get_timeline.
  destruct (Z.ltb_spec (limit + 1) 0), (Z.ltb_spec limit (-1)); try lia;
    [reflexivity|].
  set (matching := repository.order_by descending _).
  assert (Hc : limit = 0 \/ limit = -1) by lia.
  destruct Hc as [-> | ->]; cbn [Z.add Z.to_nat Pos.to_nat Pos.iter_op Nat.add firstn].
  - change (Z.to_nat 1) with 1%nat.
    destruct matching as [|r rest]; reflexivity.
  - reflexivity.
Qed.

Lemma timeline_without_rows_witness :
  repository.get_timeline timeline_facts.three_nights 7 None None None (-1) true
  = Some ([], None)
  /\ repository.get_timeline timeline_facts.three_nights 7 None None None (-2) true
     = None.
Proof.
  split.
  - exact (timeline_without_rows timeline_facts.three_nights 7 None None None (-1)
             true ltac:(lia)).
  - exact (timeline_without_rows timeline_facts.three_nights 7 None None None (-2)
             true ltac:(lia)).
Defined.

Module provenance_facts.
Import orm repository.

(** The record [get_provenance] makes of a row. *)
Definition record_of (isoformat : datetime.datetime -> string) (r : SleepDayModel)
    : ProvenanceRecord :=
  {| prov_sleep_day_id := uuid.str (id r);
     prov_source := source r;
     prov_source_record_id := source_record_id r;
     prov_fingerprint := fingerprint r;
     prov_effective_date := datetime.isoformat (effective_date r);
     prov_ingested_at := isoformat (ingested_at r);
     prov_updated_at := isoformat (updated_at r) |}.

(** The rows of one source; all rows when no source is asked for. *)
Definition of_source (source : option string) (r : SleepDayModel) : bool :=
  match source with
  | Some s => if String.eqb s "" then true else String.eqb (orm.source r) s
  | None => true
  end.

Lemma provenance_where_split patient start end_ source cur r :
  provenance_where patient start end_ source cur r
  = of_source source r && timeline_where patient start end_ cur true r.
Proof.
  unfold provenance_where, timeline_where, of_source.
  destruct (patient_id r =? patient); [|now rewrite andb_false_r].
  destruct start as [s|]; destruct end_ as [e|]; destruct cur as [c|];
    cbn [andb]; rewrite ?andb_true_r;
    repeat match goal with
           | |- context [datetime.date_leb ?a ?b] => destruct (datetime.date_leb a b)
           | |- context [datetime.date_ltb ?a ?b] => destruct (datetime.date_ltb a b)
           | |- context [key_ltb ?a ?b] => destruct (key_ltb a b)
           end;
    cbn [andb]; rewrite ?andb_true_r, ?andb_false_r; reflexivity.
Qed.

End provenance_facts.

(** [get_provenance] pages like the timeline read newest first: its
    records are the provenance columns of the rows [get_timeline] returns
    in descending order for the same patient, window, cursor and limit on
    the rows of the requested source (on all rows when no source, or an
    empty one, is given), and its cursor is the same. *)
Theorem provenance_pages_like_timeline (isoformat : datetime.datetime -> string)
    (db : orm.Database) (patient : uuid.UUID) (start end_ : option datetime.date)
    (source : option string) (cur : option repository.cursor) (limit : Z) :
  repository.get_provenance isoformat db patient start end_ source cur limit
  = match repository.get_timeline
            (repository.with_sleep_days db
               (List.filter (provenance_facts.of_source source) (orm.sleep_days db)))
            patient start end_ cur limit true with
    | Some (rows, next) =>
        Some (map (provenance_facts.record_of isoformat) rows, next)
    | None => None
    end.
Proof.
  unfold repository.get_provenance, repository.get_timeline.
  destruct (limit + 1 <? 0); [reflexivity|].
  cbn [orm.sleep_days repository.with_sleep_days].
  rewrite <- timeline_facts.filter_andb.
  rewrite (List.filter_ext _ _
             (provenance_facts.provenance_where_split patient start end_ source cur)).
  reflexivity.
Qed.

(* ===================================================================== *)
(** ** Idempotency keys: claim, complete, claim again                     *)
(* ===================================================================== *)

Module key_facts.
Import orm repository.

Lemma with_own_keys (db : Database) :
  with_idempotency_keys db (idempotency_keys db) = db.
Proof. destruct db. reflexivity. Qed.

(** The row a completed request leaves under its key. *)
Definition completed_row (source request_hash : string) (now : Z)
    (status_code : Z) (response_body : Py.json) : IdempotencyKeyModel :=
  {| ik_source := source; ik_request_hash := request_hash;
     ik_status_code := Some status_code; ik_response_body := Some response_body;
     ik_locked_at := None; ik_created_at := now;
     ik_expires_at := now + IDEMPOTENCY_TTL |}.

Lemma claim_then_complete (db : Database) (key source request_hash : string)
    (now : Z) (status_code : Z) (response_body : Py.json) :
  claim_facts.reusable db key now ->
  idempotency_keys
    (complete_idempotency_key
       (fst (atomic_claim_idempotency_key db key source request_hash now))
       key status_code response_body) !! key
  = Some (completed_row source request_hash now status_code (jsonb response_body)).
Proof.
  intros Hre. unfold complete_idempotency_key.
  cbn [idempotency_keys with_idempotency_keys].
  rewrite lookup_alter_eq.
  rewrite (claim_facts.claim_stores_row db key source request_hash now Hre).
  reflexivity.
Qed.

(** A claim on a key that is live and not the caller's to take changes
    nothing. *)
Lemma claim_on_live_key (db : Database) (key source request_hash : string)
    (now : Z) (row : IdempotencyKeyModel) :
  idempotency_keys db !! key = Some row -> now < ik_expires_at row ->
  fst (atomic_claim_idempotency_key db key source request_hash now) = db.
Proof.
  intros Hrow Hlive.
  unfold atomic_claim_idempotency_key, purge_expired, insert_do_nothing, select_live.
  rewrite Hrow. destruct (Z.leb_spec (ik_expires_at row) now); [lia|].
  rewrite Hrow. cbn. rewrite Hrow.
  destruct (Z.ltb_spec now (ik_expires_at row)); [|lia].
  destruct (negb _); [apply with_own_keys|].
  destruct (ik_status_code row); apply with_own_keys.
Qed.

End key_facts.

(** A completed request is replayed from its key: after a claim that
    took the key at [now] and the completion that recorded a status code
    and a body, every claim with the same request hash made before
    [now] + 24 h returns completed with that code and with the body as
    the JSONB column gives it back, the members of every object in the
    order of their keys (so not, in general, in the order they were
    written in), and leaves the store as it is; a claim with another hash
    returns conflict; and from [now] + 24 h on the key is claimed anew:
    completing a request does not extend the life of its key.  The status
    code is one an INTEGER column holds and the body is without floats
    and NUL characters. *)
Theorem completed_key_is_replayed (db : orm.Database)
    (key source request_hash : string) (now : Z) (status_code : Z)
    (response_body : Py.json) :
  claim_facts.reusable db key now ->
  orm.int4 status_code = true ->
  orm.jsonb_plain response_body = true ->
  let db' :=
    repository.complete_idempotency_key
      (fst (repository.atomic_claim_idempotency_key db key source request_hash now))
      key status_code response_body in
  (forall source' now',
     now' < now + orm.IDEMPOTENCY_TTL ->
     repository.atomic_claim_idempotency_key db' key source' request_hash now'
     = (db', repository.completed status_code (Some (orm.jsonb response_body))))
  /\ (forall source' request_hash' now',
        now' < now + orm.IDEMPOTENCY_TTL -> request_hash' <> request_hash ->
        repository.atomic_claim_idempotency_key db' key source' request_hash' now'
        = (db', repository.conflict))
  /\ (forall source' request_hash' now',
        now + orm.IDEMPOTENCY_TTL <= now' ->
        snd (repository.atomic_claim_idempotency_key db' key source' request_hash' now')
        = repository.claimed).
Proof.
  intros Hre _ _ db'.
  pose proof (key_facts.claim_then_complete db key source request_hash now
                status_code response_body Hre) as Hrow.
  fold db' in Hrow.
  assert (Hpair : forall (x : orm.Database * repository.claim_status) a b,
             fst x = a -> snd x = b -> x = (a, b))
    by (intros [? ?] ? ? <- <-; reflexivity).
  split; [|split].
  - intros source' now' Hlive. apply Hpair.
    + exact (key_facts.claim_on_live_key db' key source' request_hash now' _ Hrow Hlive).
    + rewrite claim_facts.claim_status_by_prior, Hrow. cbn.
      destruct (Z.leb_spec (now + orm.IDEMPOTENCY_TTL) now'); [lia|].
      now rewrite String.eqb_refl.
  - intros source' request_hash' now' Hlive Hne. apply Hpair.
    + exact (key_facts.claim_on_live_key db' key source' request_hash' now' _ Hrow Hlive).
    + rewrite claim_facts.claim_status_by_prior, Hrow. cbn.
      destruct (Z.leb_spec (now + orm.IDEMPOTENCY_TTL) now'); [lia|].
      destruct (String.eqb_spec request_hash request_hash'); [congruence|].
      reflexivity.
  - intros source' request_hash' now' Hexp.
    rewrite claim_facts.claim_status_by_prior, Hrow. cbn.
    destruct (Z.leb_spec (now + orm.IDEMPOTENCY_TTL) now'); [reflexivity|lia].
Qed.

Lemma completed_key_is_replayed_witness :
  let db' :=
    repository.complete_idempotency_key
      (fst (repository.atomic_claim_idempotency_key orm.empty "k1" "oura" "h1" 100))
      "k1" 201
      (Py.JObj [("sleep_day_id", Py.JStr "a1"); ("status", Py.JStr "created")]) in
  repository.atomic_claim_idempotency_key db' "k1" "oura" "h1" 200
  = (db', repository.completed 201
            (Some (Py.JObj [("status", Py.JStr "created");
                            ("sleep_day_id", Py.JStr "a1")]))).
Proof.
  cbv zeta.
  apply (proj1 (completed_key_is_replayed orm.empty "k1" "oura" "h1" 100 201
                  (Py.JObj [("sleep_day_id", Py.JStr "a1");
                            ("status", Py.JStr "created")]) I eq_refl eq_refl)).
  reflexivity.
Defined.

(** A claim touches nothing but the row of its key: the other keys and
    the other three tables are as before. *)
Theorem claim_frame (db : orm.Database) (key source request_hash : string) (now : Z) :
  let db' := fst (repository.atomic_claim_idempotency_key db key source
                    request_hash now) in
  orm.sleep_days db' = orm.sleep_days db
  /\ orm.raw_vendor_responses db' = orm.raw_vendor_responses db
  /\ orm.quarantine_records db' = orm.quarantine_records db
  /\ forall other, other <> key ->
       orm.idempotency_keys db' !! other = orm.idempotency_keys db !! other.
Proof.
  cbv zeta.
  unfold repository.atomic_claim_idempotency_key, repository.purge_expired,
    repository.insert_do_nothing, repository.select_live.
  destruct (orm.idempotency_keys db !! key) as [row|] eqn:Hrow.
  - destruct (Z.leb_spec (orm.ik_expires_at row) now).
    + rewrite lookup_delete_eq. cbn. repeat split.
      intros other Hne. rewrite lookup_insert_ne by congruence.
      now rewrite lookup_delete_ne by congruence.
    + rewrite Hrow. cbn. rewrite Hrow.
      destruct (Z.ltb_spec now (orm.ik_expires_at row)); [|lia].
      destruct (negb _); [cbn; repeat split|].
      destruct (orm.ik_status_code row); cbn; repeat split.
  - rewrite Hrow. cbn. repeat split.
    intros other Hne. now rewrite lookup_insert_ne by congruence.
Qed.

(* ===================================================================== *)
(** ** Ingestion: checks, the archive of raw responses, replays           *)
(* ===================================================================== *)

Module ingest_facts.
Import orm repository pipeline.

Lemma app_nil_both {A : Type} (l1 l2 : list A) : l1 ++ l2 = [] -> l1 = [] /\ l2 = [].
Proof. destruct l1; [now split|discriminate]. Qed.

(** A record without violations has passed each rule. *)
(** The two timestamps are ordered by Python as the store orders them,
    by their instants.  That is so unless both are readings of one IANA
    zone: two values that share their [tzinfo] are compared by their
    wall-clock readings, which across a change of the zone's offset are
    not in the order of the instants. *)
Definition compared_by_instant (a b : option datetime.datetime) : Prop :=
  match a, b with
  | Some x, Some y =>
      match datetime.tz x, datetime.tz y with
      | Some (datetime.ZoneInfo k1), Some (datetime.ZoneInfo k2) => k1 <> k2
      | _, _ => True
      end
  | _, _ => True
  end.

(** The five durations are values the INTEGER columns hold. *)
Definition fits_columns (d : models.SleepDay) : bool :=
  let fits (m : option Z) := match m with Some n => int4 n | None => true end in
  fits (models.total_sleep_minutes d) && fits (models.deep_sleep_minutes d)
  && fits (models.light_sleep_minutes d) && fits (models.rem_sleep_minutes d)
  && fits (models.awake_minutes d).

Lemma valid_rules (today : datetime.date) (r : validation.record) :
  validation.validate_sleep_record today r = Some [] ->
  validation.rule7 r = [] /\ validation.rule9 r = [].
Proof.
  unfold validation.validate_sleep_record.
  destruct (validation.rule4 r) as [e4|]; [|discriminate].
  cbn [mbind option_bind]. intros [= H].
  repeat match goal with
         | H : _ ++ _ = [] |- _ => apply app_nil_both in H; destruct H as [? H]
         end.
  split; assumption.
Qed.

Lemma minutes_field_check (v : Py.json) (m : option Z) :
  models.minutes_field v = Some m -> non_negative m = true.
Proof.
  destruct m as [n|]; [|reflexivity]. intros H.
  apply record_facts.minutes_field_non_negative in H. cbn. lia.
Qed.

(** The three ways one candidate is routed. *)
Definition step_upserted (now : Z) (d : models.SleepDay) (w : World)
    (r : IngestResult) (w' : World) (r' : IngestResult) : Prop :=
  exists row_id was_inserted,
    upsert (pending (session w)) (upsert_dict d) now
    = Upserted (pending (session w')) row_id was_inserted
    /\ r' = add_upserted r row_id was_inserted
    /\ next_uuid w' = next_uuid w.

Definition step_invalid (raw_id : uuid.UUID) (w : World) (r : IngestResult)
    (w' : World) (r' : IngestResult) : Prop :=
  r' = add_quarantined r
  /\ sleep_days (pending (session w')) = sleep_days (pending (session w))
  /\ raw_vendor_responses (pending (session w'))
     = raw_vendor_responses (pending (session w))
  /\ exists q,
       quarantine_records (pending (session w'))
       = quarantine_records (pending (session w)) ++ [q]
       /\ q_pipeline_stage q = "validation"
       /\ q_raw_response_id q = Some raw_id.

Definition step_rejected (raw_id : uuid.UUID) (w : World) (r : IngestResult)
    (w' : World) (r' : IngestResult) : Prop :=
  r' = add_quarantined r
  /\ sleep_days (pending (session w')) = sleep_days (committed (session w))
  /\ raw_vendor_responses (pending (session w'))
     = raw_vendor_responses (committed (session w))
  /\ exists q,
       quarantine_records (pending (session w'))
       = quarantine_records (committed (session w)) ++ [q]
       /\ q_pipeline_stage q = "upsert"
       /\ q_raw_response_id q = Some raw_id.

Lemma ingest_record_step today now source patient raw_id d w r w' r' :
  ingest_record today now source patient raw_id d w r = Some (w', r') ->
  committed (session w') = committed (session w)
  /\ (step_upserted now d w r w' r'
      \/ step_invalid raw_id w r w' r'
      \/ step_rejected raw_id w r w' r').
Proof.
  unfold ingest_record.
  destruct (validation.validate_sleep_record today (validation.model_dump d))
    as [errors|]; [|discriminate].
  cbn [mbind option_bind]. destruct errors as [|first rest].
  - destruct (upsert (pending (session w)) (upsert_dict d) now)
      as [db row_id ins | exc] eqn:Hup.
    + intros [= <- <-]. split; [reflexivity|]. left.
      exists row_id, ins. cbn. split; [exact Hup|split; reflexivity].
    + destruct (is_source_record_collision exc); [|discriminate].
      intros [= <- <-]. split; [reflexivity|]. right. right.
      unfold step_rejected. cbn. repeat split. eexists. repeat split.
  - intros [= <- <-]. split; [reflexivity|]. right. left.
    unfold step_invalid. cbn. repeat split. eexists. repeat split.
Qed.

(** An upsert leaves the archive and the quarantine as they are. *)
Lemma upsert_other_tables db record now db' row_id ins :
  upsert db record now = Upserted db' row_id ins ->
  raw_vendor_responses db' = raw_vendor_responses db
  /\ quarantine_records db' = quarantine_records db.
Proof.
  intros H.
  destruct (upsert_facts.upsert_cases _ _ _ _ _ _ H)
    as [(old & _ & _ & _ & ->) | (_ & _ & _ & ->)]; split; reflexivity.
Qed.

(** What the loop keeps true of the archive: the raw response of the
    call is still pending and no row of stage upsert has been written,
    or a rollback has taken the archive back to the committed one. *)
Definition archive_inv (db0 : Database) (raw_row : RawVendorResponseModel)
    (w : World) : Prop :=
  committed (session w) = db0
  /\ (forall q, In q (quarantine_records (pending (session w))) ->
                ~ In q (quarantine_records db0) ->
                q_pipeline_stage q = "upsert" ->
                q_raw_response_id q = Some (raw_id raw_row))
  /\ ((raw_vendor_responses (pending (session w))
       = raw_vendor_responses db0 ++ [raw_row]
       /\ forall q, In q (quarantine_records (pending (session w))) ->
                    q_pipeline_stage q = "upsert" ->
                    In q (quarantine_records db0))
      \/ raw_vendor_responses (pending (session w)) = raw_vendor_responses db0).

Lemma archive_inv_step db0 raw_row today now source patient d w r w' r' :
  archive_inv db0 raw_row w ->
  ingest_record today now source patient (raw_id raw_row) d w r = Some (w', r') ->
  archive_inv db0 raw_row w'.
Proof.
  intros (Hc & Hnew & Hraw) H.
  apply ingest_record_step in H as [Hc' [Hs | [Hs | Hs]]].
  - destruct Hs as (row_id & ins & Hup & _ & _).
    apply upsert_other_tables in Hup as [Hr Hq].
    unfold archive_inv. rewrite Hc', Hr, Hq. repeat split; assumption.
  - destruct Hs as (_ & _ & Hr & q & Hq & Hstage & Hrid).
    unfold archive_inv. rewrite Hc', Hr, Hq. split; [exact Hc|]. split.
    + intros q' Hin Hfresh Hst. apply in_app_iff in Hin as [Hin | [<- | []]].
      * now apply Hnew.
      * exact Hrid.
    + destruct Hraw as [[Hraw Hold] | Hraw]; [left|right; exact Hraw].
      split; [exact Hraw|]. intros q' Hin Hst.
      apply in_app_iff in Hin as [Hin | [<- | []]]; [now apply Hold|].
      rewrite Hstage in Hst. discriminate.
  - destruct Hs as (_ & _ & Hr & q & Hq & Hstage & Hrid).
    unfold archive_inv. rewrite Hc', Hr, Hq, Hc. split; [reflexivity|]. split.
    + intros q' Hin Hfresh Hst. apply in_app_iff in Hin as [Hin | [<- | []]].
      * contradiction.
      * exact Hrid.
    + right. reflexivity.
Qed.

Lemma archive_inv_loop db0 raw_row today now source patient days :
  forall w r w' r',
    archive_inv db0 raw_row w ->
    ingest_records today now source patient (raw_id raw_row) days w r
    = Some (w', r') ->
    archive_inv db0 raw_row w'.
Proof.
  induction days as [|d days IH]; intros w r w' r' Hinv H.
  - injection H as <- _. exact Hinv.
  - cbn [ingest_records] in H.
    destruct (ingest_record today now source patient (raw_id raw_row) d w r)
      as [[w1 r1]|] eqn:Hstep; [|discriminate].
    exact (IH _ _ _ _ (archive_inv_step _ _ _ _ _ _ _ _ _ _ _ Hinv Hstep) H).
Qed.

(** The counter of quarantined candidates never goes down, and where it
    stays the archive and the quarantine stay. *)
Lemma quarantined_step today now source patient raw_id d w r w' r' :
  ingest_record today now source patient raw_id d w r = Some (w', r') ->
  records_quarantined r <= records_quarantined r'
  /\ (records_quarantined r' = records_quarantined r ->
      raw_vendor_responses (pending (session w'))
      = raw_vendor_responses (pending (session w))
      /\ quarantine_records (pending (session w'))
         = quarantine_records (pending (session w))).
Proof.
  intros H. apply ingest_record_step in H as [_ [Hs | [Hs | Hs]]].
  - destruct Hs as (row_id & ins & Hup & -> & _).
    apply upsert_other_tables in Hup. cbn. split; [lia|]. intros _. exact Hup.
  - destruct Hs as (-> & _). cbn. split; lia.
  - destruct Hs as (-> & _). cbn. split; lia.
Qed.

Lemma quarantined_loop today now source patient raw_id days :
  forall w r w' r',
    ingest_records today now source patient raw_id days w r = Some (w', r') ->
    records_quarantined r <= records_quarantined r'
    /\ (records_quarantined r' = records_quarantined r ->
        raw_vendor_responses (pending (session w'))
        = raw_vendor_responses (pending (session w))
        /\ quarantine_records (pending (session w'))
           = quarantine_records (pending (session w))).
Proof.
  induction days as [|d days IH]; intros w r w' r' H.
  - injection H as <- <-. split; [lia|]. intros _. split; reflexivity.
  - cbn [ingest_records] in H.
    destruct (ingest_record today now source patient raw_id d w r)
      as [[w1 r1]|] eqn:Hstep; [|discriminate].
    destruct (quarantined_step _ _ _ _ _ _ _ _ _ _ Hstep) as [Hle1 Hsame1].
    destruct (IH _ _ _ _ H) as [Hle Hsame].
    split; [lia|]. intros Heq.
    destruct (Hsame ltac:(lia)) as [-> ->]. apply Hsame1. lia.
Qed.

(** The row [ingest_sleep_data] archives. *)
Definition raw_row_of (w : World) (now : Z) (source : string) (raw_payload : Py.dict)
    (patient_id : uuid.UUID) : RawVendorResponseModel :=
  {| raw_id := next_uuid w + 1; raw_patient_id := patient_id;
     raw_source := source;
     raw_endpoint := "/v2/" +:+ source +:+ "/sleep";
     raw_request_params := [];
     raw_response_body := raw_payload;
     raw_http_status := 200;
     raw_fetched_at := now;
     raw_batch_id := next_uuid w |}.

(** A call that quarantines nothing archives its raw response and
    leaves the quarantine as it is. *)
Lemma ingest_without_quarantine rt w now today source raw_payload patient w' result :
  ingest_sleep_data rt w now today source raw_payload patient = Some (w', result) ->
  0 <= records_quarantined result
  /\ (records_quarantined result = 0 ->
      raw_vendor_responses (pending (session w'))
      = raw_vendor_responses (pending (session w))
        ++ [raw_row_of w now source raw_payload patient]
      /\ quarantine_records (pending (session w'))
         = quarantine_records (pending (session w))).
Proof.
  unfold ingest_sleep_data.
  destruct (adapters.get_adapter rt source) as [parse|]; [|discriminate].
  cbn [mbind option_bind]. cbv zeta. cbn [store_raw_response].
  match goal with
  | |- context [parse raw_payload patient ?n now] =>
      destruct (parse raw_payload patient n now) as [days|]
  end.
  - match goal with
    | |- context [ingest_records ?t ?n ?s ?p ?rid ?ds ?w0 ?r0] =>
        destruct (ingest_records t n s p rid ds w0 r0) as [[w1 r1]|] eqn:Hloop;
          [|discriminate]
    end.
    intros [= <- <-].
    destruct (quarantined_loop _ _ _ _ _ _ _ _ _ _ Hloop) as [Hle Hsame].
    cbn in Hle. split; [exact Hle|]. intros H0.
    destruct (Hsame H0) as [Hr Hq]. cbn in Hr, Hq. cbn. split; assumption.
  - intros [= <- <-]. cbn. split; [lia|discriminate].
Qed.

Lemma replay_where_open source patient (raw : RawVendorResponseModel) :
  raw_source raw = source -> raw_patient_id raw = patient ->
  replay_where source patient None None raw = true.
Proof.
  intros <- <-. unfold replay_where. now rewrite String.eqb_refl, Z.eqb_refl.
Qed.

Lemma replayed_match source patient (olds news : list RawVendorResponseModel) :
  Forall2 (fun old new =>
             raw_response_body new = raw_response_body old
             /\ raw_source new = source
             /\ raw_patient_id new = patient) olds news ->
  Forall (fun new => replay_where source patient None None new = true) news.
Proof.
  induction 1 as [|old new olds news (_ & Hs & Hp) _ IH]; constructor; [|exact IH].
  now apply replay_where_open.
Qed.

(** The loop of [replay_from_raw], when nothing is quarantined. *)
Lemma replay_records_archive rt clock source patient raws :
  forall i w stats w' stats',
    replay_records rt clock i source patient raws w stats = Some (w', stats') ->
    0 <= quarantined stats ->
    quarantined stats' = 0 ->
    replayed stats' = replayed stats + Z.of_nat (length raws)
    /\ exists again,
         raw_vendor_responses (pending (session w'))
         = raw_vendor_responses (pending (session w)) ++ again
         /\ Forall2 (fun old new =>
                       raw_response_body new = raw_response_body old
                       /\ raw_source new = source
                       /\ raw_patient_id new = patient) raws again.
Proof.
  induction raws as [|raw raws IH]; intros i w stats w' stats' H Hq0 Hq.
  - injection H as <- <-. split; [cbn; lia|].
    exists []. split; [now rewrite app_nil_r|constructor].
  - cbn [replay_records] in H.
    destruct (ingest_sleep_data rt w (fst (clock i)) (snd (clock i)) source
                (raw_response_body raw) patient) as [[w1 r1]|] eqn:Hcall;
      [|discriminate].
    destruct (ingest_without_quarantine _ _ _ _ _ _ _ _ _ Hcall) as [Hge Harch].
    assert (Hmono : forall raws' i' w0 s0 w2 s2,
               replay_records rt clock i' source patient raws' w0 s0 = Some (w2, s2) ->
               0 <= quarantined s0 -> quarantined s0 <= quarantined s2).
    { induction raws' as [|raw' raws' IH']; intros i' w0 s0 w2 s2 H' Hs0.
      - injection H' as <- <-. lia.
      - cbn [replay_records] in H'.
        destruct (ingest_sleep_data rt w0 (fst (clock i')) (snd (clock i')) source
                    (raw_response_body raw') patient) as [[w3 r3]|] eqn:Hcall';
          [|discriminate].
        destruct (ingest_without_quarantine _ _ _ _ _ _ _ _ _ Hcall') as [Hge' _].
        specialize (IH' _ _ _ _ _ H'). cbn in IH'. lia. }
    pose proof (Hmono _ _ _ _ _ _ H) as Hm. cbn in Hm.
    assert (Hr1 : records_quarantined r1 = 0) by lia.
    assert (Hs0 : quarantined stats = 0) by lia.
    destruct (Harch Hr1) as [Hraw _].
    destruct (IH _ _ _ _ _ H) as (Hcount & again & Hagain & Hall);
      [cbn; lia|exact Hq|].
    cbn in Hcount. split; [cbn [length]; lia|].
    eexists (_ :: again). split.
    + rewrite Hagain, Hraw, <- app_assoc. reflexivity.
    + constructor; [|exact Hall]. cbn. repeat split.
Qed.

(** A stored night and a payload that reuses its native id on the next
    day. *)
Definition reused_world : World :=
  pipeline_facts.world_with
    [upsert_dict (pipeline_facts.candidate 1 "x" (datetime.Date 2024 3 14))] 10.

Definition reused_payload : Py.dict :=
  scenarios.payload [scenarios.night "x" "2024-03-15"].

(** An archive with one response to replay. *)
Definition archived_world : World :=
  {| session :=
       {| committed :=
            {| sleep_days := [];
               raw_vendor_responses :=
                 [raw_row_of scenarios.fresh 500 "oura"
                    (scenarios.payload [scenarios.night "n1" "2024-03-14"]) 7];
               quarantine_records := []; idempotency_keys := ∅ |};
          pending :=
            {| sleep_days := [];
               raw_vendor_responses :=
                 [raw_row_of scenarios.fresh 500 "oura"
                    (scenarios.payload [scenarios.night "n1" "2024-03-14"]) 7];
               quarantine_records := []; idempotency_keys := ∅ |} |};
     next_uuid := 10 |}.

End ingest_facts.

(** The rules cover the CHECK constraints of sleep_days: a record that
    [SleepDay(...)] accepted and [validate_sleep_record] found without
    violation violates none of them, so an integrity error of its upsert
    can only name the primary key or the constraint on (source,
    source_record_id).  This is for a record whose durations the INTEGER
    columns hold and whose two timestamps Python orders by their
    instants, as the store does; for two readings of one IANA zone rule 9
    compares wall clocks, and does not cover the CHECK on the order of
    the timestamps. *)
Theorem valid_record_passes_checks
    (id patient : uuid.UUID) (source : models.SleepSource) (rid : Py.json)
    (eff : datetime.date) (fp : string) (raw : Py.dict)
    (ing upd : datetime.datetime) (total deep light rem awake : Py.json)
    (onset offset : option datetime.datetime) (efficiency : Py.json)
    (extra : Py.dict) (d : models.SleepDay) (today : datetime.date) :
  models.SleepDay_init id patient source rid eff fp raw ing upd
    total deep light rem awake onset offset efficiency extra = Some d ->
  validation.validate_sleep_record today (validation.model_dump d) = Some [] ->
  ingest_facts.compared_by_instant (models.sleep_onset d) (models.sleep_offset d) ->
  ingest_facts.fits_columns d = true ->
  repository.check_violation (pipeline.upsert_dict d) = None
  /\ forall db now exc,
       repository.upsert db (pipeline.upsert_dict d) now = repository.Rejected exc ->
       repository.constraint_name exc = "sleep_days_pkey"
       \/ repository.constraint_name exc = "uq_sleep_days_source_record".
Proof.
  intros Hinit Hv _ _.
  destruct (adapters_facts.SleepDay_init_fields _ _ _ _ _ _ _ _ _ _ _ _ _ _ _ _ _ _ _
              Hinit)
    as (Ht & Hd & Hl & Hr & Ha & He & _).
  destruct (ingest_facts.valid_rules _ _ Hv) as [H7 H9].
  assert (Hcheck : repository.check_violation (pipeline.upsert_dict d) = None).
  { unfold repository.check_violation. cbn.
    rewrite (ingest_facts.minutes_field_check _ _ Ht),
      (ingest_facts.minutes_field_check _ _ Hd),
      (ingest_facts.minutes_field_check _ _ Hl),
      (ingest_facts.minutes_field_check _ _ Hr),
      (ingest_facts.minutes_field_check _ _ Ha).
    cbn [negb].
    assert (Heff : match models.sleep_efficiency d with
                   | Some x => negb (Float64.leb Float64.f_0_0 x
                                     && Float64.leb x Float64.f_1_0)
                   | None => false
                   end = false).
    { destruct (models.sleep_efficiency d) as [x|]; [|reflexivity].
      now rewrite (record_facts.efficiency_field_in_range _ _ He). }
    rewrite Heff.
    unfold validation.rule7, validation.rule7_field, validation.rule9 in H7, H9.
    cbn in H7, H9.
    destruct (models.sleep_onset d) as [on|]; [|reflexivity].
    destruct (models.sleep_offset d) as [off|]; [|reflexivity].
    destruct (datetime.tz on); [|discriminate].
    destruct (datetime.tz off); [|discriminate].
    unfold datetime.aware_geb in H9.
    destruct (Z.leb_spec (datetime.instant off) (datetime.instant on));
      [discriminate|].
    destruct (Z.ltb_spec (datetime.instant on) (datetime.instant off)); [|lia].
    reflexivity. }
  split; [exact Hcheck|].
  intros db now exc. unfold repository.upsert. rewrite Hcheck.
  destruct (find _ _); [discriminate|].
  destruct (existsb _ _); [intros [= <-]; now left|].
  destruct (existsb _ _); [intros [= <-]; now right|].
  discriminate.
Qed.

Lemma valid_record_passes_checks_witness :
  repository.check_violation
    (pipeline.upsert_dict (pipeline_facts.candidate 1 "n1" (datetime.Date 2024 3 14)))
  = None.
Proof.
  refine (proj1 (valid_record_passes_checks 1 7 models.OURA (Py.JStr "n1")
                   (datetime.Date 2024 3 14)
                   (models.compute_fingerprint models.OURA "n1" (datetime.Date 2024 3 14))
                   [] (datetime.DateTime 1000 (Some datetime.UTC))
                   (datetime.DateTime 1000 (Some datetime.UTC))
                   (Py.JInt 480) (Py.JInt 90) (Py.JInt 240) (Py.JInt 120) (Py.JInt 30)
                   (Some (datetime.DateTime 1710475200
                            (Some (datetime.FixedOffset (-18000)))))
                   (Some (datetime.DateTime 1710504000
                            (Some (datetime.FixedOffset (-18000)))))
                   (Py.JFloat Float64.f_0_88) []
                   (pipeline_facts.candidate 1 "n1" (datetime.Date 2024 3 14))
                   (datetime.Date 2024 3 20) _ _ I eq_refl)).
  - vm_compute. reflexivity.
  - vm_compute. reflexivity.
Defined.

(** A rejected upsert costs the call its archive: [ingest_sleep_data]
    answers a store rejection with [session.rollback()], which also
    discards the raw response stored at the start of the call.  So
    whenever a call that started on a clean session leaves a new
    quarantine row of stage upsert, the table of raw responses is as it
    was before the call, and the raw_response_id of that row refers to no
    stored response. *)
Theorem rejected_upsert_loses_the_archive (rt : Runtime) (w : pipeline.World)
    (now : Z) (today : datetime.date) (source : string) (raw_payload : Py.dict)
    (patient : uuid.UUID) (w' : pipeline.World) (result : pipeline.IngestResult)
    (q : orm.QuarantineRecordModel) :
  pipeline.pending (pipeline.session w) = pipeline.committed (pipeline.session w) ->
  ~ In (pipeline.next_uuid w + 1)
       (map orm.raw_id
            (orm.raw_vendor_responses (pipeline.committed (pipeline.session w)))) ->
  pipeline.ingest_sleep_data rt w now today source raw_payload patient
  = Some (w', result) ->
  In q (orm.quarantine_records (pipeline.committed (pipeline.session w'))) ->
  ~ In q (orm.quarantine_records (pipeline.committed (pipeline.session w))) ->
  orm.q_pipeline_stage q = "upsert" ->
  orm.q_raw_response_id q = Some (pipeline.next_uuid w + 1)
  /\ orm.raw_vendor_responses (pipeline.committed (pipeline.session w'))
     = orm.raw_vendor_responses (pipeline.committed (pipeline.session w))
  /\ ~ In (pipeline.next_uuid w + 1)
          (map orm.raw_id
               (orm.raw_vendor_responses (pipeline.committed (pipeline.session w')))).
Proof.
  intros Hclean Hfresh Hrun Hin Hnew Hstage.
  set (db0 := pipeline.committed (pipeline.session w)) in *.
  set (raw_row := ingest_facts.raw_row_of w now source raw_payload patient).
  unfold pipeline.ingest_sleep_data in Hrun.
  destruct (adapters.get_adapter rt source) as [parse|]; [|discriminate].
  cbn [mbind option_bind] in Hrun. cbv zeta in Hrun.
  cbn [repository.store_raw_response] in Hrun.
  match type of Hrun with
  | context [parse raw_payload patient ?n now] =>
      destruct (parse raw_payload patient n now) as [days|]
  end.
  - match type of Hrun with
    | context [pipeline.ingest_records ?t ?n ?s ?p ?rid ?ds ?w0 ?r0] =>
        destruct (pipeline.ingest_records t n s p rid ds w0 r0)
          as [[w1 r1]|] eqn:Hloop; [|discriminate];
        assert (Hstart : ingest_facts.archive_inv db0 raw_row w0)
    end.
    { unfold ingest_facts.archive_inv. cbn. fold db0. rewrite Hclean. fold db0.
      split; [reflexivity|]. split; [intros; contradiction|].
      left. split; [reflexivity|]. intros; assumption. }
    injection Hrun as <- _. cbn in Hin |- *.
    destruct (ingest_facts.archive_inv_loop db0 raw_row _ _ _ _ _ _ _ _ _
                Hstart Hloop) as (_ & Hq & Hraw).
    split; [exact (Hq q Hin Hnew Hstage)|].
    destruct Hraw as [[_ Hold] | Hraw].
    + exfalso. exact (Hnew (Hold q Hin Hstage)).
    + rewrite Hraw. split; [reflexivity|exact Hfresh].
  - exfalso. injection Hrun as <- _. cbn in Hin. rewrite Hclean in Hin. fold db0 in Hin.
    apply in_app_iff in Hin as [Hin | [<- | []]]; [contradiction|].
    discriminate.
Qed.

Lemma rejected_upsert_loses_the_archive_witness :
  exists w' result q,
    pipeline.ingest_sleep_data scenarios.runtime ingest_facts.reused_world 1000
      scenarios.today "oura" ingest_facts.reused_payload 7 = Some (w', result)
    /\ In q (orm.quarantine_records (pipeline.committed (pipeline.session w')))
    /\ orm.q_raw_response_id q = Some 11
    /\ orm.raw_vendor_responses (pipeline.committed (pipeline.session w')) = [].
Proof.
  eexists _, _, _.
  match goal with
  | |- ?run = ?res /\ _ =>
      assert (Hrun : run = res) by (vm_compute; reflexivity)
  end.
  split; [exact Hrun|].
  match goal with
  | |- In ?q ?rows /\ _ =>
      assert (Hin : In q rows) by (cbn; left; reflexivity)
  end.
  split; [exact Hin|].
  destruct (rejected_upsert_loses_the_archive scenarios.runtime
              ingest_facts.reused_world 1000 scenarios.today "oura"
              ingest_facts.reused_payload 7 _ _ _
              eq_refl (fun H : False => H) Hrun Hin (fun H : False => H) eq_refl)
    as (H1 & H2 & _).
  split; [exact H1|exact H2].
Defined.

(** [replay_from_raw] archives again what it replays: when a replay
    quarantines nothing, it has ingested every archived response of the
    source and patient in the window, and each of them has been stored
    once more as a new raw response with the same body.  With an open
    window the archive of that source and patient is twice as long after
    the replay, and so is the work of the next one. *)
Theorem replay_archives_again (rt : Runtime) (clock : nat -> Z * datetime.date)
    (w : pipeline.World) (source : string) (patient : uuid.UUID)
    (start_date end_date : option Z) (w' : pipeline.World)
    (stats : pipeline.ReplayStats) :
  pipeline.replay_from_raw rt clock w source patient start_date end_date
  = Some (w', stats) ->
  pipeline.quarantined stats = 0 ->
  let replayed_rows :=
    List.filter (pipeline.replay_where source patient start_date end_date)
      (orm.raw_vendor_responses (pipeline.pending (pipeline.session w))) in
  pipeline.replayed stats = Z.of_nat (length replayed_rows)
  /\ (exists again,
        orm.raw_vendor_responses (pipeline.pending (pipeline.session w'))
        = orm.raw_vendor_responses (pipeline.pending (pipeline.session w)) ++ again
        /\ Forall2 (fun old new =>
                      orm.raw_response_body new = orm.raw_response_body old
                      /\ orm.raw_source new = source
                      /\ orm.raw_patient_id new = patient) replayed_rows again)
  /\ (start_date = None -> end_date = None ->
      length (List.filter (pipeline.replay_where source patient None None)
                (orm.raw_vendor_responses (pipeline.pending (pipeline.session w'))))
      = (2 * length replayed_rows)%nat).
Proof.
  intros Hrun Hq replayed_rows. unfold pipeline.replay_from_raw in Hrun.
  fold replayed_rows in Hrun.
  destruct (ingest_facts.replay_records_archive _ _ _ _ _ _ _ _ _ _ Hrun
              ltac:(cbn; lia) Hq) as (Hcount & again & Hagain & Hall).
  cbn in Hcount. split; [exact Hcount|]. split; [exists again; split; assumption|].
  intros -> ->. rewrite Hagain, List.filter_app, length_app.
  fold replayed_rows.
  rewrite (timeline_facts.filter_all _ again)
    by exact (ingest_facts.replayed_match _ _ _ _ Hall).
  rewrite <- (Forall2_length _ _ _ Hall). lia.
Qed.

Lemma replay_archives_again_witness :
  exists w' stats,
    pipeline.replay_from_raw scenarios.runtime (fun _ => (1000, scenarios.today))
      ingest_facts.archived_world "oura" 7 None None = Some (w', stats)
    /\ pipeline.replayed stats = 1
    /\ length (List.filter (pipeline.replay_where "oura" 7 None None)
                 (orm.raw_vendor_responses (pipeline.pending (pipeline.session w'))))
       = 2%nat.
Proof.
  eexists _, _.
  match goal with
  | |- ?run = ?res /\ _ =>
      assert (Hrun : run = res) by (vm_compute; reflexivity)
  end.
  split; [exact Hrun|].
  destruct (replay_archives_again _ _ _ _ _ _ _ _ _ Hrun eq_refl)
    as (Hcount & _ & Hdouble).
  split; [exact Hcount|]. exact (Hdouble eq_refl eq_refl).
Defined.


(* ===================================================================== *)
(** ** The ingest endpoint: one answer per idempotency key                *)
(* ===================================================================== *)

Module api_facts.
Import orm repository pipeline.

(** Both views of the session hold the same idempotency keys. *)
Definition keys_are (keys : gmap string IdempotencyKeyModel) (w : World) : Prop :=
  idempotency_keys (committed (session w)) = keys
  /\ idempotency_keys (pending (session w)) = keys.

Lemma upsert_keeps_keys db record now db' row_id ins :
  upsert db record now = Upserted db' row_id ins ->
  idempotency_keys db' = idempotency_keys db.
Proof.
  intros H.
  destruct (upsert_facts.upsert_cases _ _ _ _ _ _ H)
    as [(old & _ & _ & _ & ->) | (_ & _ & _ & ->)]; reflexivity.
Qed.

Lemma ingest_record_keys keys today now source patient raw_id d w r w' r' :
  keys_are keys w ->
  ingest_record today now source patient raw_id d w r = Some (w', r') ->
  keys_are keys w'.
Proof.
  intros [Hc Hp]. unfold ingest_record.
  destruct (validation.validate_sleep_record today (validation.model_dump d))
    as [errors|]; [|discriminate].
  cbn [mbind option_bind]. destruct errors as [|first rest].
  - destruct (upsert (pending (session w)) (upsert_dict d) now)
      as [db row_id ins | exc] eqn:Hup.
    + intros [= <- <-]. split; cbn; [exact Hc|].
      now rewrite (upsert_keeps_keys _ _ _ _ _ _ Hup).
    + destruct (is_source_record_collision exc); [|discriminate].
      intros [= <- <-]. split; cbn; exact Hc.
  - intros [= <- <-]. split; cbn; assumption.
Qed.

Lemma ingest_records_keys keys today now source patient raw_id days :
  forall w r w' r',
    keys_are keys w ->
    ingest_records today now source patient raw_id days w r = Some (w', r') ->
    keys_are keys w'.
Proof.
  induction days as [|d days IH]; intros w r w' r' Hk H.
  - injection H as <- _. exact Hk.
  - cbn [ingest_records] in H.
    destruct (ingest_record today now source patient raw_id d w r)
      as [[w1 r1]|] eqn:Hstep; [|discriminate].
    exact (IH _ _ _ _ (ingest_record_keys _ _ _ _ _ _ _ _ _ _ _ Hk Hstep) H).
Qed.

(** [ingest_sleep_data] leaves the idempotency keys alone and ends on a
    committed session. *)
Lemma ingest_keeps_keys keys rt w now today source raw_payload patient w' result :
  keys_are keys w ->
  ingest_sleep_data rt w now today source raw_payload patient = Some (w', result) ->
  keys_are keys w'
  /\ pending (session w') = committed (session w').
Proof.
  intros [Hc Hp]. unfold ingest_sleep_data.
  destruct (adapters.get_adapter rt source) as [parse|]; [|discriminate].
  cbn [mbind option_bind]. cbv zeta. cbn [store_raw_response].
  match goal with
  | |- context [parse raw_payload patient ?n now] =>
      destruct (parse raw_payload patient n now) as [days|]
  end.
  - match goal with
    | |- context [ingest_records ?t ?n ?s ?p ?rid ?ds ?w0 ?r0] =>
        destruct (ingest_records t n s p rid ds w0 r0) as [[w1 r1]|] eqn:Hloop;
          [|discriminate];
        assert (Hstart : keys_are keys w0) by (split; cbn; assumption)
    end.
    intros [= <- <-].
    destruct (ingest_records_keys _ _ _ _ _ _ _ _ _ _ _ Hstart Hloop) as [_ Hp1].
    split; [split; cbn; exact Hp1|reflexivity].
  - intros [= <- <-]. split; [split; cbn; exact Hp|reflexivity].
Qed.

Lemma clean_session (w : World) :
  pending (session w) = committed (session w) ->
  with_session w (rollback (session w)) = w.
Proof. destruct w as [[c p] n]. cbn. now intros ->. Qed.

(** The row a claim stores under its key, and what it becomes when the
    request is completed. *)
Definition claimed_row (source request_hash : string) (now : Z)
    : IdempotencyKeyModel :=
  {| ik_source := source; ik_request_hash := request_hash;
     ik_status_code := None; ik_response_body := None;
     ik_locked_at := Some now; ik_created_at := now;
     ik_expires_at := now + IDEMPOTENCY_TTL |}.

Lemma claimed_is_stored db key source request_hash now :
  snd (atomic_claim_idempotency_key db key source request_hash now) = claimed ->
  idempotency_keys (fst (atomic_claim_idempotency_key db key source request_hash now))
    !! key = Some (claimed_row source request_hash now).
Proof.
  intros H. apply claim_facts.claim_stores_row.
  rewrite claim_facts.claim_status_by_prior in H.
  unfold claim_facts.reusable, claim_facts.outcome_of_prior in *.
  destruct (idempotency_keys db !! key) as [row|]; [|exact I].
  destruct (Z.leb_spec (ik_expires_at row) now); [assumption|].
  destruct (negb _); [discriminate|]. destruct (ik_status_code row); discriminate.
Qed.

(** The first request under a key, up to the call of the pipeline. *)
Definition claimed_world (json_dumps : Py.json -> string) (w : World) (now : Z)
    (source : string) (patient_id : uuid.UUID) (data : Py.dict) (key : string)
    : World :=
  let w := with_session w (rollback (session w)) in
  with_session w
    (commit (execute (session w)
               (fst (atomic_claim_idempotency_key (pending (session w)) key source
                       (compute_request_hash json_dumps
                          (api.request_body patient_id data)) now)))).

(** A request that passes the two guards and claims its key. *)
Lemma ingest_sleep_claimed rt json_dumps w now today meta source patient data key :
  key <> "" ->
  existsb (String.eqb source) ["oura"; "withings"] = true ->
  snd (atomic_claim_idempotency_key
         (committed (session w)) key source
         (compute_request_hash json_dumps (api.request_body patient data)) now)
  = claimed ->
  api.ingest_sleep rt json_dumps w now today meta source patient data (Some key)
  = let w0 := claimed_world json_dumps w now source patient data key in
    match ingest_sleep_data rt w0 now today source data patient with
    | None => (w0, api.Unhandled)
    | Some (w', ingest_result) =>
        let body := api.response_data ingest_result in
        let status_code := if has_inserts ingest_result then 201 else 200 in
        (with_session w'
           (commit (execute (session w')
                      (complete_idempotency_key (pending (session w')) key
                         status_code body))),
         api.Answer status_code body meta)
    end.
Proof.
  intros Hkey Hsource Hclaim. unfold api.ingest_sleep, claimed_world.
  apply String.eqb_neq in Hkey. rewrite Hkey, Hsource. cbn [negb].
  cbv zeta. cbn [pending session with_session rollback].
  destruct (atomic_claim_idempotency_key (committed (session w)) key source
              (compute_request_hash json_dumps (api.request_body patient data)) now)
    as [db claim] eqn:Hc.
  cbn [fst snd] in *. subst claim. reflexivity.
Qed.

(** A request on a key that is live. *)
Lemma ingest_sleep_on_live_key rt json_dumps w now today meta source patient data
    key row :
  key <> "" ->
  existsb (String.eqb source) ["oura"; "withings"] = true ->
  pending (session w) = committed (session w) ->
  idempotency_keys (committed (session w)) !! key = Some row ->
  now < ik_expires_at row ->
  api.ingest_sleep rt json_dumps w now today meta source patient data (Some key)
  = (w, if negb (String.eqb (ik_request_hash row)
                   (compute_request_hash json_dumps (api.request_body patient data)))
        then api.Problem (api.IdempotencyConflictError key)
        else match ik_status_code row with
             | Some code =>
                 api.Answer code match ik_response_body row with
                                 | Some body => body
                                 | None => Py.JNull
                                 end meta
             | None => api.Problem (api.IdempotencyInFlightError key)
             end).
Proof.
  intros Hkey Hsource Hclean Hrow Hlive. unfold api.ingest_sleep.
  apply String.eqb_neq in Hkey. rewrite Hkey, Hsource. cbn [negb].
  cbv zeta. rewrite (clean_session w Hclean). rewrite Hclean.
  pose proof (claim_facts.claim_status_by_prior (committed (session w)) key source
                (compute_request_hash json_dumps (api.request_body patient data)) now)
    as Hstatus.
  destruct (atomic_claim_idempotency_key (committed (session w)) key source
              (compute_request_hash json_dumps (api.request_body patient data)) now)
    as [db claim].
  cbn [snd] in Hstatus. subst claim. rewrite Hrow.
  unfold claim_facts.outcome_of_prior.
  destruct (Z.leb_spec (ik_expires_at row) now); [lia|].
  destruct (negb _); [reflexivity|].
  destruct (ik_status_code row); reflexivity.
Qed.

(** A payload whose total no double can hold. *)
Definition overflowing_payload : Py.dict :=
  scenarios.payload
    [ Py.JObj [ ("id", Py.JStr "n1"); ("day", Py.JStr "2024-03-14");
                ("type", Py.JStr "long_sleep");
                ("total_sleep_duration", Py.JInt (60 * 2 ^ 1100)) ] ].

Definition dumps (v : Py.json) : string :=
  match v with
  | Py.JObj [ (_, Py.JStr patient); (_, Py.JObj [ (_, Py.JArr entries) ]) ] =>
      patient +:+ ":" +:+ Py.str_of_int (Z.of_nat (length entries))
  | _ => ""
  end.

End api_facts.

(** A request is answered once per idempotency key.  When a request
    with a usable key and a supported source is answered with a status
    code and a body, every later request with the same key whose body has
    the same hash, made less than 24 hours after the first, is answered
    from the store: it gets that status code and, as "data", the body the
    JSONB column gives back, whose members are in the order of their keys
    and not in the order of the first answer, next to a "meta" of its
    own.  A later request whose body has another hash gets an idempotency
    conflict.  Neither runs the pipeline nor changes the store.  The
    source of the later request plays no part: the hash covers the body
    only. *)
Theorem request_is_answered_once (rt : Runtime) (json_dumps : Py.json -> string)
    (w : pipeline.World) (now : Z) (today : datetime.date) (meta : Py.json)
    (source : string) (patient : uuid.UUID) (data : Py.dict) (key : string)
    (w1 : pipeline.World) (status_code : Z) (body : Py.json) :
  key <> "" ->
  existsb (String.eqb source) ["oura"; "withings"] = true ->
  claim_facts.reusable (pipeline.committed (pipeline.session w)) key now ->
  api.ingest_sleep rt json_dumps w now today meta source patient data (Some key)
  = (w1, api.Answer status_code body meta) ->
  forall now' today' meta' source' patient' data',
    existsb (String.eqb source') ["oura"; "withings"] = true ->
    now' < now + orm.IDEMPOTENCY_TTL ->
    api.ingest_sleep rt json_dumps w1 now' today' meta' source' patient' data'
      (Some key)
    = (w1, if String.eqb
                (pipeline.compute_request_hash json_dumps
                   (api.request_body patient data))
                (pipeline.compute_request_hash json_dumps
                   (api.request_body patient' data'))
           then api.Answer status_code (orm.jsonb body) meta'
           else api.Problem (api.IdempotencyConflictError key)).
Proof.
  intros Hkey Hsource Hre Hrun now' today' meta' source' patient' data' Hsource' Hlive.
  set (hash := pipeline.compute_request_hash json_dumps
                 (api.request_body patient data)) in *.
  assert (Hclaim : snd (repository.atomic_claim_idempotency_key
                          (pipeline.committed (pipeline.session w)) key source
                          hash now) = repository.claimed).
  { rewrite claim_facts.claim_status_by_prior.
    unfold claim_facts.reusable, claim_facts.outcome_of_prior in *.
    destruct (orm.idempotency_keys _ !! key) as [row|]; [|reflexivity].
    destruct (Z.leb_spec (orm.ik_expires_at row) now); [reflexivity|lia]. }
  rewrite (api_facts.ingest_sleep_claimed rt json_dumps w now today meta source
             patient data key Hkey Hsource Hclaim) in Hrun.
  cbv zeta in Hrun.
  set (w0 := api_facts.claimed_world json_dumps w now source patient data key) in *.
  destruct (pipeline.ingest_sleep_data rt w0 now today source data patient)
    as [[w' result]|] eqn:Hingest; [|discriminate].
  injection Hrun as <- <- <-.
  assert (Hkeys : api_facts.keys_are
                    (orm.idempotency_keys
                       (fst (repository.atomic_claim_idempotency_key
                               (pipeline.committed (pipeline.session w)) key source
                               hash now))) w0)
    by (split; reflexivity).
  destruct (api_facts.ingest_keeps_keys _ _ _ _ _ _ _ _ _ _ Hkeys Hingest)
    as [[_ Hp] _].
  rewrite (api_facts.ingest_sleep_on_live_key rt json_dumps _ now' today' meta'
             source' patient' data' key
             (key_facts.completed_row source hash now
                (if pipeline.has_inserts result then 201 else 200)
                (orm.jsonb (api.response_data result)))).
  - cbn [orm.ik_request_hash orm.ik_status_code orm.ik_response_body
         key_facts.completed_row].
    destruct (String.eqb hash _); reflexivity.
  - exact Hkey.
  - exact Hsource'.
  - reflexivity.
  - cbn [pipeline.committed pipeline.session pipeline.with_session pipeline.commit
         pipeline.execute pipeline.pending repository.complete_idempotency_key
         orm.idempotency_keys repository.with_idempotency_keys].
    rewrite lookup_alter_eq, Hp.
    rewrite (api_facts.claimed_is_stored _ _ _ _ _ Hclaim). reflexivity.
  - cbn [orm.ik_expires_at key_facts.completed_row]. exact Hlive.
Qed.

Lemma request_is_answered_once_witness :
  exists w1,
    api.ingest_sleep scenarios.runtime api_facts.dumps scenarios.fresh 1000
      scenarios.today (Py.JStr "first") "oura" 7
      (scenarios.payload [scenarios.night "n1" "2024-03-14"]) (Some "k1")
    = (w1, api.Answer 201
             (Py.JObj [ ("sleep_day_id",
                         Py.JStr "00000000-0000-0000-0000-000000000003");
                        ("status", Py.JStr "created") ])
             (Py.JStr "first"))
    /\ api.ingest_sleep scenarios.runtime api_facts.dumps w1 2000
         scenarios.today (Py.JStr "second") "withings" 7
         (scenarios.payload [scenarios.night "n1" "2024-03-14"]) (Some "k1")
       = (w1, api.Answer 201
                (Py.JObj [ ("status", Py.JStr "created");
                           ("sleep_day_id",
                            Py.JStr "00000000-0000-0000-0000-000000000003") ])
                (Py.JStr "second"))
    /\ api.ingest_sleep scenarios.runtime api_facts.dumps w1 2000
         scenarios.today (Py.JStr "second") "oura" 7 (scenarios.payload [])
         (Some "k1")
       = (w1, api.Problem (api.IdempotencyConflictError "k1")).
Proof.
  eexists.
  match goal with
  | |- ?run = ?res /\ _ => assert (Hrun : run = res) by (vm_compute; reflexivity)
  end.
  split; [exact Hrun|].
  pose proof (request_is_answered_once scenarios.runtime api_facts.dumps
                scenarios.fresh 1000 scenarios.today (Py.JStr "first") "oura" 7 _
                "k1" _ _ _ ltac:(discriminate) eq_refl I Hrun) as Hnext.
  split.
  - exact (Hnext 2000 scenarios.today (Py.JStr "second") "withings" 7
             (scenarios.payload [scenarios.night "n1" "2024-03-14"]) eq_refl eq_refl).
  - exact (Hnext 2000 scenarios.today (Py.JStr "second") "oura" 7
             (scenarios.payload []) eq_refl eq_refl).
Defined.

(** A request that fails leaves its key in flight.  When the pipeline
    raises after the key was claimed, the claim stays committed without a
    status code: for the next 24 hours a retry of the same request is
    refused as in flight (and one with another body as a conflict),
    without running the pipeline. *)
Theorem failed_request_blocks_its_key (rt : Runtime)
    (json_dumps : Py.json -> string) (w : pipeline.World) (now : Z)
    (today : datetime.date) (meta : Py.json) (source : string)
    (patient : uuid.UUID) (data : Py.dict) (key : string) (w1 : pipeline.World) :
  api.ingest_sleep rt json_dumps w now today meta source patient data (Some key)
  = (w1, api.Unhandled) ->
  forall now' today' meta' source' patient' data',
    existsb (String.eqb source') ["oura"; "withings"] = true ->
    now' < now + orm.IDEMPOTENCY_TTL ->
    api.ingest_sleep rt json_dumps w1 now' today' meta' source' patient' data'
      (Some key)
    = (w1, if String.eqb
                (pipeline.compute_request_hash json_dumps
                   (api.request_body patient data))
                (pipeline.compute_request_hash json_dumps
                   (api.request_body patient' data'))
           then api.Problem (api.IdempotencyInFlightError key)
           else api.Problem (api.IdempotencyConflictError key)).
Proof.
  intros Hrun now' today' meta' source' patient' data' Hsource' Hlive.
  set (hash := pipeline.compute_request_hash json_dumps
                 (api.request_body patient data)) in *.
  assert (Hguards : key <> ""
                    /\ existsb (String.eqb source) ["oura"; "withings"] = true
                    /\ snd (repository.atomic_claim_idempotency_key
                              (pipeline.committed (pipeline.session w)) key source
                              hash now) = repository.claimed).
  { unfold api.ingest_sleep in Hrun.
    destruct (String.eqb_spec key ""); [discriminate|].
    destruct (existsb (String.eqb source) ["oura"; "withings"]); [|discriminate].
    cbn [negb] in Hrun. cbv zeta in Hrun.
    cbn [pipeline.pending pipeline.session pipeline.with_session pipeline.rollback]
      in Hrun. fold hash in Hrun.
    destruct (repository.atomic_claim_idempotency_key
                (pipeline.committed (pipeline.session w)) key source hash now)
      as [db claim].
    destruct claim; try discriminate. repeat split; assumption. }
  destruct Hguards as (Hkey & Hsource & Hclaim).
  rewrite (api_facts.ingest_sleep_claimed rt json_dumps w now today meta source
             patient data key Hkey Hsource Hclaim) in Hrun.
  cbv zeta in Hrun.
  set (w0 := api_facts.claimed_world json_dumps w now source patient data key) in *.
  destruct (pipeline.ingest_sleep_data rt w0 now today source data patient)
    as [[w' result]|]; [discriminate|].
  injection Hrun as <-.
  rewrite (api_facts.ingest_sleep_on_live_key rt json_dumps _ now' today' meta'
             source' patient' data' key (api_facts.claimed_row source hash now)).
  - cbn [orm.ik_request_hash orm.ik_status_code api_facts.claimed_row].
    destruct (String.eqb hash _); reflexivity.
  - exact Hkey.
  - exact Hsource'.
  - reflexivity.
  - exact (api_facts.claimed_is_stored _ _ _ _ _ Hclaim).
  - cbn [orm.ik_expires_at api_facts.claimed_row]. exact Hlive.
Qed.

Lemma failed_request_blocks_its_key_witness :
  exists w1,
    api.ingest_sleep scenarios.runtime api_facts.dumps scenarios.fresh 1000
      scenarios.today Py.JNull "oura" 7 api_facts.overflowing_payload (Some "k1")
    = (w1, api.Unhandled)
    /\ api.ingest_sleep scenarios.runtime api_facts.dumps w1 2000
         scenarios.today Py.JNull "oura" 7 api_facts.overflowing_payload (Some "k1")
       = (w1, api.Problem (api.IdempotencyInFlightError "k1")).
Proof.
  eexists.
  match goal with
  | |- ?run = ?res /\ _ => assert (Hrun : run = res) by (vm_compute; reflexivity)
  end.
  split; [exact Hrun|].
  exact (failed_request_blocks_its_key scenarios.runtime api_facts.dumps
           scenarios.fresh 1000 scenarios.today Py.JNull "oura" 7 _ "k1" _ Hrun
           2000 scenarios.today Py.JNull "oura" 7 api_facts.overflowing_payload
           eq_refl eq_refl).
Defined.

(** The status code of a first answer: 201 when the call created at
    least one record, 200 when every record was deduplicated or
    quarantined; and the body is the answer of the pipeline's result. *)
Theorem status_code_reports_inserts (rt : Runtime) (json_dumps : Py.json -> string)
    (w : pipeline.World) (now : Z) (today : datetime.date) (meta : Py.json)
    (source : string) (patient : uuid.UUID) (data : Py.dict) (key : string)
    (w1 : pipeline.World) (status_code : Z) (body : Py.json) :
  claim_facts.reusable (pipeline.committed (pipeline.session w)) key now ->
  api.ingest_sleep rt json_dumps w now today meta source patient data (Some key)
  = (w1, api.Answer status_code body meta) ->
  exists w' result,
    pipeline.ingest_sleep_data rt
      (api_facts.claimed_world json_dumps w now source patient data key)
      now today source data patient = Some (w', result)
    /\ body = api.response_data result
    /\ status_code
       = (if existsb (fun r => String.eqb (pipeline.status r) "created")
                     (pipeline.results result)
          then 201 else 200).
Proof.
  intros Hre Hrun.
  set (hash := pipeline.compute_request_hash json_dumps
                 (api.request_body patient data)) in *.
  assert (Hclaim : snd (repository.atomic_claim_idempotency_key
                          (pipeline.committed (pipeline.session w)) key source
                          hash now) = repository.claimed).
  { rewrite claim_facts.claim_status_by_prior.
    unfold claim_facts.reusable, claim_facts.outcome_of_prior in *.
    destruct (orm.idempotency_keys _ !! key) as [row|]; [|reflexivity].
    destruct (Z.leb_spec (orm.ik_expires_at row) now); [reflexivity|lia]. }
  assert (Hguards : key <> ""
                    /\ existsb (String.eqb source) ["oura"; "withings"] = true).
  { unfold api.ingest_sleep in Hrun.
    destruct (String.eqb_spec key ""); [discriminate|].
    destruct (existsb (String.eqb source) ["oura"; "withings"]); [|discriminate].
    split; [assumption|reflexivity]. }
  destruct Hguards as [Hkey Hsource].
  rewrite (api_facts.ingest_sleep_claimed rt json_dumps w now today meta source
             patient data key Hkey Hsource Hclaim) in Hrun.
  cbv zeta in Hrun.
  destruct (pipeline.ingest_sleep_data rt _ now today source data patient)
    as [[w' result]|] eqn:Hingest; [|discriminate].
  injection Hrun as _ <- <-.
  exists w', result. split; [reflexivity|]. split; [reflexivity|].
  assert (Hcount : pipeline.records_inserted result
                   = pipeline_facts.count_status "created" result).
  { unfold pipeline.ingest_sleep_data in Hingest.
    destruct (adapters.get_adapter rt source) as [parse|]; [|discriminate].
    cbn [mbind option_bind] in Hingest. cbv zeta in Hingest.
    cbn [repository.store_raw_response] in Hingest.
    match type of Hingest with
    | context [parse data patient ?n now] =>
        destruct (parse data patient n now) as [days|]
    end.
    - match type of Hingest with
      | context [pipeline.ingest_records ?t ?n ?s ?p ?rid ?ds ?w0 ?r0] =>
          destruct (pipeline.ingest_records t n s p rid ds w0 r0)
            as [[w2 r2]|] eqn:Hloop; [|discriminate]
      end.
      injection Hingest as _ <-.
      exact (proj1 (proj2 (pipeline_facts.ingest_records_counters _ _ _ _ _ _ _ _ _ _ 0
                             Hloop (pipeline_facts.counters_new _)))).
    - injection Hingest as _ <-. reflexivity. }
  unfold pipeline.has_inserts. rewrite Hcount. unfold pipeline_facts.count_status.
  destruct (existsb _ (pipeline.results result)) eqn:Hex.
  - apply existsb_exists in Hex as (x & Hin & Hx).
    assert (Hin' : In x (List.filter
                           (fun x => String.eqb (pipeline.status x) "created")
                           (pipeline.results result)))
      by (apply filter_In; split; assumption).
    destruct (List.filter _ (pipeline.results result)); [destruct Hin'|].
    reflexivity.
  - assert (Hnone : List.filter (fun x => String.eqb (pipeline.status x) "created")
                      (pipeline.results result) = []).
    { destruct (List.filter _ (pipeline.results result)) as [|x l] eqn:Hf;
        [reflexivity|].
      assert (Hin : In x (List.filter
                            (fun x => String.eqb (pipeline.status x) "created")
                            (pipeline.results result)))
        by (rewrite Hf; now left).
      apply filter_In in Hin as [Hin Hx].
      assert (existsb (fun r => String.eqb (pipeline.status r) "created")
                (pipeline.results result) = true)
        by (apply existsb_exists; exists x; split; assumption).
      congruence. }
    rewrite Hnone. reflexivity.
Qed.

Lemma status_code_reports_inserts_witness :
  exists w1 w' result,
    api.ingest_sleep scenarios.runtime api_facts.dumps
      (pipeline_facts.world_with [store_facts.stored] 10) 1000
      scenarios.today Py.JNull "oura" 7
      (scenarios.payload [scenarios.night "n1" "2024-03-14"]) (Some "k1")
    = (w1, api.Answer 200
             (Py.JObj [ ("sleep_day_id",
                         Py.JStr "00000000-0000-0000-0000-000000000001");
                        ("status", Py.JStr "deduplicated") ])
             Py.JNull)
    /\ pipeline.ingest_sleep_data scenarios.runtime
         (api_facts.claimed_world api_facts.dumps
            (pipeline_facts.world_with [store_facts.stored] 10) 1000 "oura" 7
            (scenarios.payload [scenarios.night "n1" "2024-03-14"]) "k1")
         1000 scenarios.today "oura"
         (scenarios.payload [scenarios.night "n1" "2024-03-14"]) 7
       = Some (w', result)
    /\ Py.JObj [ ("sleep_day_id", Py.JStr "00000000-0000-0000-0000-000000000001");
                 ("status", Py.JStr "deduplicated") ]
       = api.response_data result.
Proof.
  assert (Hrun : exists w1,
             api.ingest_sleep scenarios.runtime api_facts.dumps
               (pipeline_facts.world_with [store_facts.stored] 10) 1000
               scenarios.today Py.JNull "oura" 7
               (scenarios.payload [scenarios.night "n1" "2024-03-14"]) (Some "k1")
             = (w1, api.Answer 200
                      (Py.JObj [ ("sleep_day_id",
                                  Py.JStr "00000000-0000-0000-0000-000000000001");
                                 ("status", Py.JStr "deduplicated") ])
                      Py.JNull))
    by (eexists; vm_compute; reflexivity).
  destruct Hrun as [w1 Hrun].
  destruct (status_code_reports_inserts scenarios.runtime api_facts.dumps
              (pipeline_facts.world_with [store_facts.stored] 10) 1000
              scenarios.today Py.JNull "oura" 7
              (scenarios.payload [scenarios.night "n1" "2024-03-14"]) "k1" w1 200
              (Py.JObj [ ("sleep_day_id",
                          Py.JStr "00000000-0000-0000-0000-000000000001");
                         ("status", Py.JStr "deduplicated") ]) I Hrun)
    as (w' & result & Hingest & Hbody & _).
  exists w1, w', result. repeat split; assumption.
Defined.

(* ===================================================================== *)
(** ** Ingesting the same payload again                                   *)
(* ===================================================================== *)

Module rerun_facts.
Import Py orm repository pipeline.

(** A candidate under another identifier and another clock reading: what
    a second run of a mapper makes of the same entry. *)
Definition stamp (i : uuid.UUID) (t : datetime.datetime) (d : models.SleepDay)
    : models.SleepDay :=
  {| models.id := i; models.patient_id := models.patient_id d;
     models.source := models.source d;
     models.source_record_id := models.source_record_id d;
     models.raw_payload := models.raw_payload d;
     models.fingerprint := models.fingerprint d;
     models.effective_date := models.effective_date d;
     models.ingested_at := t; models.updated_at := t;
     models.total_sleep_minutes := models.total_sleep_minutes d;
     models.deep_sleep_minutes := models.deep_sleep_minutes d;
     models.light_sleep_minutes := models.light_sleep_minutes d;
     models.rem_sleep_minutes := models.rem_sleep_minutes d;
     models.awake_minutes := models.awake_minutes d;
     models.sleep_onset := models.sleep_onset d;
     models.sleep_offset := models.sleep_offset d;
     models.sleep_efficiency := models.sleep_efficiency d;
     models.extra := models.extra d |}.

(** The candidate without its identifier and its clock readings. *)
Definition night (d : models.SleepDay) : models.SleepDay :=
  stamp 0 (datetime.DateTime 0 None) d.

Lemma SleepDay_init_stamp i t i' t' p s sid eff fp e
    total deep light rem awake onset offset effi extra :
  models.SleepDay_init i' p s sid eff fp e t' t' total deep light rem awake
    onset offset effi extra
  = option_map (stamp i' t')
      (models.SleepDay_init i p s sid eff fp e t t total deep light rem awake
         onset offset effi extra).
Proof.
  unfold models.SleepDay_init.
  destruct (models.str_field sid); [|reflexivity].
  destruct (models.minutes_field total); [|reflexivity].
  destruct (models.minutes_field deep); [|reflexivity].
  destruct (models.minutes_field light); [|reflexivity].
  destruct (models.minutes_field rem); [|reflexivity].
  destruct (models.minutes_field awake); [|reflexivity].
  destruct (models.efficiency_field effi); reflexivity.
Qed.

Definition restamped (i' : uuid.UUID) (now' : Z)
    (r : option (option models.SleepDay)) : option (option models.SleepDay) :=
  option_map (option_map (stamp i' (datetime.DateTime now' (Some datetime.UTC)))) r.

Lemma oura_entry_stamp p i now i' now' entry :
  adapters.oura_entry p i' now' entry
  = restamped i' now' (adapters.oura_entry p i now entry).
Proof.
  unfold adapters.oura_entry, restamped. destruct entry; try reflexivity.
  destruct (negb _); [reflexivity|]. destruct (negb _); [reflexivity|].
  destruct (dict_item "day" fields) as [day|]; [|reflexivity].
  cbn [mbind option_bind].
  destruct (adapters.parse_day day) as [effective|]; [|reflexivity].
  cbn [mbind option_bind].
  destruct (dict_item "id" fields) as [source_id|]; [|reflexivity].
  cbn [mbind option_bind].
  destruct (adapters.build_extra _) as [extra|]; [|reflexivity].
  cbn [mbind option_bind].
  destruct (models.str_field source_id) as [rid|]; [|reflexivity].
  cbn [mbind option_bind].
  destruct (adapters._sec_to_min (dict_get "total_sleep_duration" fields));
    [|reflexivity]; cbn [mbind option_bind].
  destruct (adapters._sec_to_min (dict_get "deep_sleep_duration" fields));
    [|reflexivity]; cbn [mbind option_bind].
  destruct (adapters._sec_to_min (dict_get "light_sleep_duration" fields));
    [|reflexivity]; cbn [mbind option_bind].
  destruct (adapters._sec_to_min (dict_get "rem_sleep_duration" fields));
    [|reflexivity]; cbn [mbind option_bind].
  destruct (adapters._sec_to_min (dict_get "awake_time" fields));
    [|reflexivity]; cbn [mbind option_bind].
  destruct (adapters._parse_iso (dict_get "bedtime_start" fields));
    [|reflexivity]; cbn [mbind option_bind].
  destruct (adapters._parse_iso (dict_get "bedtime_end" fields));
    [|reflexivity]; cbn [mbind option_bind].
  destruct (adapters._pct_to_ratio _); [|reflexivity]. cbn [mbind option_bind].
  rewrite (SleepDay_init_stamp i (datetime.DateTime now (Some datetime.UTC)) i'
             (datetime.DateTime now' (Some datetime.UTC))).
  destruct (models.SleepDay_init i _ _ _ _ _ _ _ _ _ _ _ _ _ _ _ _ _); reflexivity.
Qed.

Lemma withings_entry_stamp rt p i now i' now' entry :
  adapters.withings_entry rt p i' now' entry
  = restamped i' now' (adapters.withings_entry rt p i now entry).
Proof.
  unfold adapters.withings_entry, restamped. destruct entry; try reflexivity.
  destruct (dict_item "date" fields) as [day|]; [|reflexivity].
  cbn [mbind option_bind].
  destruct (adapters.parse_day day) as [effective|]; [|reflexivity].
  cbn [mbind option_bind].
  destruct (dict_get_default "data" (JObj fields) fields); try reflexivity.
  destruct (adapters.entry_zone rt _) as [tz|]; [|reflexivity].
  cbn [mbind option_bind].
  match goal with
  | |- context [mbind _ (if ?c then ?a else ?b)] =>
      destruct (if c then a else b) as [source_id|]; [|reflexivity]
  end.
  cbn [mbind option_bind].
  destruct (adapters.build_extra _) as [extra|]; [|reflexivity].
  cbn [mbind option_bind].
  destruct (adapters._sec_to_min (dict_get "total_sleep_time" _));
    [|reflexivity]; cbn [mbind option_bind].
  destruct (adapters._sec_to_min (dict_get "deepsleepduration" _));
    [|reflexivity]; cbn [mbind option_bind].
  destruct (adapters._sec_to_min (dict_get "lightsleepduration" _));
    [|reflexivity]; cbn [mbind option_bind].
  destruct (adapters._sec_to_min (dict_get "remsleepduration" _));
    [|reflexivity]; cbn [mbind option_bind].
  destruct (adapters._sec_to_min (dict_get "wakeupduration" _));
    [|reflexivity]; cbn [mbind option_bind].
  destruct (adapters._unix_to_dt (dict_get "startdate" fields) tz);
    [|reflexivity]; cbn [mbind option_bind].
  destruct (adapters._unix_to_dt (dict_get "enddate" fields) tz);
    [|reflexivity]; cbn [mbind option_bind].
  rewrite (SleepDay_init_stamp i (datetime.DateTime now (Some datetime.UTC)) i'
             (datetime.DateTime now' (Some datetime.UTC))).
  destruct (models.SleepDay_init i _ _ _ _ _ _ _ _ _ _ _ _ _ _ _ _ _); reflexivity.
Qed.

(** The loop of a mapper makes the same nights whatever identifiers and
    clock reading it is given. *)
Lemma map_entries_nights
    (one : uuid.UUID -> Z -> json -> option (option models.SleepDay))
    (now now' : Z) :
  (forall i i' entry, one i' now' entry = restamped i' now' (one i now entry)) ->
  forall entries n n',
    option_map (map night)
      (adapters.map_entries (fun i => one i now') n' entries)
    = option_map (map night)
        (adapters.map_entries (fun i => one i now) n entries).
Proof.
  intros Hone. induction entries as [|entry rest IH]; intros n n'; [reflexivity|].
  cbn [adapters.map_entries]. rewrite (Hone n n' entry).
  destruct (one n now entry) as [[d|]|]; cbn; [|apply IH|reflexivity].
  specialize (IH (n + 1) (n' + 1)).
  destruct (adapters.map_entries _ (n' + 1) rest),
           (adapters.map_entries _ (n + 1) rest); cbn in *;
    try discriminate; try reflexivity.
  injection IH as IH. now rewrite IH.
Qed.

Lemma parse_nights rt source parse raw_response p n now n' now' :
  adapters.get_adapter rt source = Some parse ->
  option_map (map night) (parse raw_response p n' now')
  = option_map (map night) (parse raw_response p n now).
Proof.
  unfold adapters.get_adapter.
  destruct (String.eqb source "oura").
  - intros [= <-]. unfold adapters.oura_parse.
    destruct (adapters.iterate _) as [records|]; [|reflexivity].
    cbn [mbind option_bind].
    apply (map_entries_nights (fun i t => adapters.oura_entry p i t)).
    intros. apply oura_entry_stamp.
  - destruct (String.eqb source "withings"); [|discriminate].
    intros [= <-]. unfold adapters.withings_parse.
    destruct (dict_get_default "body" _ _); try reflexivity.
    destruct (adapters.iterate _) as [series|]; [|reflexivity].
    cbn [mbind option_bind].
    apply (map_entries_nights (fun i t => adapters.withings_entry rt p i t)).
    intros. apply withings_entry_stamp.
Qed.

(** The last of the candidates that carries a fingerprint. *)
Definition last_with (ds : list models.SleepDay) (f : string)
    : option models.SleepDay :=
  find (fun d => String.eqb f (models.fingerprint d)) (rev ds).

Lemma find_snoc {A : Type} (p : A -> bool) (l : list A) (x : A) :
  find p (l ++ [x])
  = match find p l with
    | Some y => Some y
    | None => if p x then Some x else None
    end.
Proof.
  induction l as [|a l IH]; cbn; [reflexivity|]. destruct (p a); [reflexivity|exact IH].
Qed.

Lemma last_with_cons d ds f :
  last_with (d :: ds) f
  = match last_with ds f with
    | Some x => Some x
    | None => if String.eqb f (models.fingerprint d) then Some d else None
    end.
Proof.
  unfold last_with. cbn [rev].
  exact (find_snoc (fun x => String.eqb f (models.fingerprint x)) (rev ds) d).
Qed.

Lemma find_nights (f : string) (l : list models.SleepDay) :
  find (fun d => String.eqb f (models.fingerprint d)) (map night l)
  = option_map night (find (fun d => String.eqb f (models.fingerprint d)) l).
Proof.
  induction l as [|a l IH]; cbn; [reflexivity|].
  destruct (String.eqb f (models.fingerprint a)); [reflexivity|exact IH].
Qed.

Lemma last_with_nights ds f :
  last_with (map night ds) f = option_map night (last_with ds f).
Proof. unfold last_with. rewrite <- map_rev. apply find_nights. Qed.

(** What the upserts of a run make of a stored row: the update by the
    last candidate with its fingerprint. *)
Definition settle (ds : list models.SleepDay) (now : Z) (row : SleepDayModel)
    : SleepDayModel :=
  match last_with ds (fingerprint row) with
  | Some d => do_update (upsert_dict d) now row
  | None => row
  end.

Lemma settle_nights ds now row : settle (map night ds) now row = settle ds now row.
Proof.
  unfold settle. rewrite last_with_nights.
  destruct (last_with ds (fingerprint row)); reflexivity.
Qed.

Lemma settle_fingerprint ds now row :
  fingerprint (settle ds now row) = fingerprint row.
Proof. unfold settle. destruct (last_with ds (fingerprint row)); reflexivity. Qed.

Lemma settle_nothing now (rows : list SleepDayModel) :
  map (settle [] now) rows = rows.
Proof. induction rows as [|row rows IH]; cbn; [reflexivity|now rewrite IH]. Qed.

Definition step (d : models.SleepDay) (now : Z) (row : SleepDayModel)
    : SleepDayModel :=
  if same_fingerprint (upsert_dict d) row
  then do_update (upsert_dict d) now row else row.

Lemma settle_cons d ds now row :
  settle ds now (step d now row) = settle (d :: ds) now row.
Proof.
  unfold settle, step, same_fingerprint. rewrite last_with_cons.
  cbn [fingerprint upsert_dict].
  destruct (String.eqb (fingerprint row) (models.fingerprint d)) eqn:E;
    cbn [fingerprint do_update];
    destruct (last_with ds (fingerprint row)); reflexivity.
Qed.

(** The row already carries the measurements of the candidate: updating
    it from the candidate changes [updated_at] only. *)
Definition agrees (d : models.SleepDay) (row : SleepDayModel) : Prop :=
  do_update (upsert_dict d) 0 row = store_facts.touch 0 row.

Lemma agrees_at d row t :
  agrees d row -> do_update (upsert_dict d) t row = store_facts.touch t row.
Proof.
  unfold agrees, do_update, store_facts.touch. intros H.
  injection H as H1 H2 H3 H4 H5 H6 H7 H8 H9 H10.
  f_equal; assumption.
Qed.

Lemma agrees_updated d now row : agrees d (do_update (upsert_dict d) now row).
Proof. reflexivity. Qed.

Lemma agrees_inserted d : agrees d (upsert_dict d).
Proof. reflexivity. Qed.

(** What an accepted upsert did. *)
Lemma upsert_rows db record now db' row_id ins :
  upsert db record now = Upserted db' row_id ins ->
  check_violation record = None
  /\ ((ins = false
       /\ In (fingerprint record) (map fingerprint (sleep_days db))
       /\ sleep_days db'
          = map (fun r => if same_fingerprint record r
                          then do_update record now r else r) (sleep_days db))
      \/ (ins = true
          /\ find (same_fingerprint record) (sleep_days db) = None
          /\ sleep_days db' = sleep_days db ++ [record])).
Proof.
  unfold upsert. destruct (check_violation record); [discriminate|].
  destruct (find (same_fingerprint record) (sleep_days db)) as [old|] eqn:Hfind.
  - intros [= <- _ <-]. split; [reflexivity|]. left.
    split; [reflexivity|]. split; [|reflexivity].
    apply find_some in Hfind as [Hin Heq]. unfold same_fingerprint in Heq.
    apply String.eqb_eq in Heq. rewrite <- Heq. now apply in_map.
  - destruct (existsb _ _); [discriminate|]. destruct (existsb _ _); [discriminate|].
    intros [= <- _ <-]. split; [reflexivity|]. right. repeat split.
Qed.

Lemma present_is_found record (rows : list SleepDayModel) :
  In (fingerprint record) (map fingerprint rows) ->
  exists old, find (same_fingerprint record) rows = Some old.
Proof.
  intros Hin. apply in_map_iff in Hin as (r & Heq & Hin).
  destruct (find (same_fingerprint record) rows) as [old|] eqn:Hfind;
    [now exists old|].
  exfalso. apply (find_none _ _ Hfind) in Hin. unfold same_fingerprint in Hin.
  rewrite Heq, String.eqb_refl in Hin. discriminate.
Qed.

Lemma valid_later (today today' : datetime.date) (r : validation.record) :
  datetime.date_leb today today' = true ->
  validation.validate_sleep_record today r = Some [] ->
  validation.validate_sleep_record today' r = Some [].
Proof.
  intros Hle Hv. unfold validation.validate_sleep_record in *.
  destruct (validation.rule4 r) as [e4|]; [|discriminate].
  cbn [mbind option_bind] in *. injection Hv as Hv.
  destruct (record_facts.rule5_later today today' r Hle) as [-> | ->];
    [|now rewrite Hv].
  repeat match goal with
         | H : _ ++ _ = [] |- _ => apply app_eq_nil in H; destruct H as [? H]
         end.
  repeat match goal with
         | H : ?x = [] |- _ => rewrite H
         end.
  reflexivity.
Qed.

(** What one iteration that quarantines nothing did. *)
Lemma clean_step today now source patient raw_id d w r w' r' :
  ingest_record today now source patient raw_id d w r = Some (w', r') ->
  records_quarantined r' = records_quarantined r ->
  validation.validate_sleep_record today (validation.model_dump d) = Some []
  /\ exists row_id ins,
       upsert (pending (session w)) (upsert_dict d) now
       = Upserted (pending (session w')) row_id ins
       /\ r' = add_upserted r row_id ins.
Proof.
  unfold ingest_record.
  destruct (validation.validate_sleep_record today (validation.model_dump d))
    as [errors|]; [|discriminate].
  cbn [mbind option_bind]. destruct errors as [|first rest].
  - destruct (upsert (pending (session w)) (upsert_dict d) now)
      as [db row_id ins | exc] eqn:Hup.
    + intros [= <- <-] _. split; [reflexivity|]. exists row_id, ins. now split.
    + destruct (is_source_record_collision exc); [|discriminate].
      intros [= <- <-]. cbn. lia.
  - intros [= <- <-]. cbn. lia.
Qed.

(** A loop that quarantines nothing: every candidate was valid and
    accepted, every stored row is settled, and the rows added carry the
    measurements of the last candidate with their fingerprint. *)
Lemma clean_loop today now source patient raw_id ds :
  forall w r w' r',
    ingest_records today now source patient raw_id ds w r = Some (w', r') ->
    records_quarantined r' = records_quarantined r ->
    Forall (fun d =>
              validation.validate_sleep_record today (validation.model_dump d)
              = Some []
              /\ check_violation (upsert_dict d) = None
              /\ In (models.fingerprint d)
                    (map fingerprint (sleep_days (pending (session w'))))) ds
    /\ records_processed r' = records_processed r + Z.of_nat (length ds)
    /\ exists added,
         sleep_days (pending (session w'))
         = map (settle ds now) (sleep_days (pending (session w))) ++ added
         /\ Forall (fun row => exists x, last_with ds (fingerprint row) = Some x
                                          /\ agrees x row) added.
Proof.
  induction ds as [|d ds IH]; intros w r w' r' H Hq.
  - injection H as <- <-. split; [constructor|]. split; [cbn; lia|].
    exists []. rewrite app_nil_r. split; [|constructor].
    symmetry. apply settle_nothing.
  - cbn [ingest_records] in H.
    destruct (ingest_record today now source patient raw_id d w r)
      as [[w1 r1]|] eqn:Hstep; [|discriminate].
    pose proof (ingest_facts.quarantined_step _ _ _ _ _ _ _ _ _ _ Hstep) as [Hle1 _].
    pose proof (ingest_facts.quarantined_loop _ _ _ _ _ _ _ _ _ _ H) as [Hle _].
    destruct (clean_step _ _ _ _ _ _ _ _ _ _ Hstep ltac:(lia))
      as (Hvalid & row_id & ins & Hup & ->).
    destruct (IH _ _ _ _ H ltac:(lia)) as (Hall & Hcount & added & Hrows & Hadded).
    apply upsert_rows in Hup as (Hcheck & Hup).
    assert (Hkeep : incl (map fingerprint (sleep_days (pending (session w1))))
                         (map fingerprint (sleep_days (pending (session w'))))).
    { rewrite Hrows, map_app, map_map.
      rewrite (map_ext _ fingerprint (settle_fingerprint ds now)).
      apply incl_appl, incl_refl. }
    split; [|split].
    + constructor; [|exact Hall]. split; [exact Hvalid|]. split; [exact Hcheck|].
      apply Hkeep. destruct Hup as [(_ & Hin & ->) | (_ & _ & ->)].
      * rewrite map_map.
        rewrite (map_ext _ fingerprint); [exact Hin|].
        intros row. destruct (same_fingerprint (upsert_dict d) row); reflexivity.
      * rewrite map_app. apply in_or_app. right. now left.
    + rewrite Hcount. cbn [records_processed add_upserted length].
      rewrite Nat2Z.inj_succ. lia.
    + destruct Hup as [(_ & _ & Hnew) | (_ & Hfind & Hnew)].
      * exists added. split.
        -- rewrite Hrows, Hnew, map_map. f_equal. apply map_ext.
           intros row. apply (settle_cons d ds now row).
        -- eapply List.Forall_impl; [|exact Hadded].
           intros row (x & Hx & Hag). exists x. split; [|exact Hag].
           rewrite last_with_cons, Hx. reflexivity.
      * exists (settle ds now (upsert_dict d) :: added). split.
        -- rewrite Hrows, Hnew, map_app. cbn [map]. rewrite <- app_assoc.
           cbn [app]. f_equal. apply map_ext_in. intros row Hin.
           apply (find_none _ _ Hfind) in Hin.
           unfold settle. rewrite last_with_cons.
           unfold same_fingerprint in Hin. cbn [fingerprint upsert_dict] in Hin.
           rewrite Hin. destruct (last_with ds (fingerprint row)); reflexivity.
        -- constructor.
           ++ rewrite settle_fingerprint. cbn [fingerprint upsert_dict].
              rewrite last_with_cons. unfold settle.
              cbn [fingerprint upsert_dict].
              destruct (last_with ds (models.fingerprint d)) as [x|].
              ** exists x. split; [reflexivity|]. apply agrees_updated.
              ** exists d. rewrite String.eqb_refl. split; [reflexivity|].
                 apply agrees_inserted.
           ++ eapply List.Forall_impl; [|exact Hadded].
              intros row (x & Hx & Hag). exists x. split; [|exact Hag].
              rewrite last_with_cons, Hx. reflexivity.
Qed.

(** A loop over valid candidates whose fingerprints are all stored:
    every one is an update. *)
Lemma rerun_loop today now source patient raw_id ds :
  forall w r,
    Forall (fun d =>
              validation.validate_sleep_record today (validation.model_dump d)
              = Some []
              /\ check_violation (upsert_dict d) = None
              /\ In (models.fingerprint d)
                    (map fingerprint (sleep_days (pending (session w))))) ds ->
    exists w' r' more,
      ingest_records today now source patient raw_id ds w r = Some (w', r')
      /\ committed (session w') = committed (session w)
      /\ sleep_days (pending (session w'))
         = map (settle ds now) (sleep_days (pending (session w)))
      /\ records_processed r' = records_processed r + Z.of_nat (length ds)
      /\ records_inserted r' = records_inserted r
      /\ records_updated r' = records_updated r + Z.of_nat (length ds)
      /\ records_quarantined r' = records_quarantined r
      /\ results r' = results r ++ more
      /\ Forall (fun x => status x = "deduplicated") more.
Proof.
  induction ds as [|d ds IH]; intros w r Hall.
  - exists w, r, []. cbn [ingest_records length Z.of_nat].
    rewrite app_nil_r, settle_nothing.
    repeat split; try lia. constructor.
  - inversion Hall as [|? ? (Hvalid & Hcheck & Hin) Hrest]; subst.
    destruct (present_is_found (upsert_dict d) _ Hin) as [old Hfind].
    assert (Hstep : ingest_record today now source patient raw_id d w r
                    = Some (with_session w
                              (execute (session w)
                                 (with_sleep_days (pending (session w))
                                    (map (step d now)
                                       (sleep_days (pending (session w)))))),
                            add_upserted r (id old) false)).
    { unfold ingest_record. rewrite Hvalid. cbn [mbind option_bind].
      unfold upsert. rewrite Hcheck, Hfind. reflexivity. }
    edestruct (IH (with_session w
                     (execute (session w)
                        (with_sleep_days (pending (session w))
                           (map (step d now) (sleep_days (pending (session w)))))))
                  (add_upserted r (id old) false))
      as (w' & r' & more & Hloop & Hc & Hrows & Hp & Hi & Hu & Hq & Hres & Hmore).
    { eapply List.Forall_impl; [|exact Hrest].
      intros x (Hv & Hc & Hx). split; [exact Hv|]. split; [exact Hc|].
      cbn. rewrite map_map. rewrite (map_ext _ fingerprint); [exact Hx|].
      intros row. unfold step.
      destruct (same_fingerprint (upsert_dict d) row); reflexivity. }
    exists w', r',
      ({| sleep_day_id := uuid.str (id old); status := "deduplicated" |} :: more).
    cbn [ingest_records]. rewrite Hstep. split; [exact Hloop|].
    split; [exact Hc|]. split.
    { rewrite Hrows. cbn. rewrite map_map. apply map_ext.
      intros row. apply settle_cons. }
    cbn in Hp, Hi, Hu, Hq, Hres. cbn [length]. rewrite Nat2Z.inj_succ.
    repeat split; try lia.
    + rewrite Hres, <- app_assoc. reflexivity.
    + constructor; [reflexivity|exact Hmore].
Qed.

(** A candidate the store will update: valid, within the CHECK
    constraints, and with its fingerprint among the rows. *)
Definition ready (today : datetime.date) (rows : list SleepDayModel)
    (d : models.SleepDay) : Prop :=
  validation.validate_sleep_record today (validation.model_dump d) = Some []
  /\ check_violation (upsert_dict d) = None
  /\ In (models.fingerprint d) (map fingerprint rows).

Lemma Forall2_map_self {A : Type} (R : A -> A -> Prop) (f : A -> A) (l : list A) :
  (forall x, In x l -> R x (f x)) -> Forall2 R l (map f l).
Proof.
  induction l as [|a l IH]; intros H; cbn; constructor.
  - apply H. now left.
  - apply IH. intros x Hx. apply H. now right.
Qed.

End rerun_facts.

(** Ingesting a payload again only touches what is stored.  When a call
    of [ingest_sleep_data] returns without quarantining anything, a
    second call with the same source, payload and patient, on the same
    day or a later one, returns too, and every record it processes is an
    update: it inserts and quarantines nothing, reports each record as
    deduplicated, and leaves the same rows in [sleep_days], each either
    as it was or with a new [updated_at] and nothing else changed. *)
Theorem ingest_again_only_touches (rt : Runtime) (w : pipeline.World) (now : Z)
    (today : datetime.date) (source : string) (raw_payload : Py.dict)
    (patient : uuid.UUID) (w1 : pipeline.World) (r1 : pipeline.IngestResult)
    (now' : Z) (today' : datetime.date) :
  pipeline.ingest_sleep_data rt w now today source raw_payload patient
  = Some (w1, r1) ->
  pipeline.records_quarantined r1 = 0 ->
  datetime.date_leb today today' = true ->
  exists w2 r2,
    pipeline.ingest_sleep_data rt w1 now' today' source raw_payload patient
    = Some (w2, r2)
    /\ pipeline.records_processed r2 = pipeline.records_processed r1
    /\ pipeline.records_inserted r2 = 0
    /\ pipeline.records_updated r2 = pipeline.records_processed r1
    /\ pipeline.records_quarantined r2 = 0
    /\ Forall (fun x => pipeline.status x = "deduplicated") (pipeline.results r2)
    /\ Forall2 (fun row row' => row' = row \/ row' = store_facts.touch now' row)
         (orm.sleep_days (pipeline.committed (pipeline.session w1)))
         (orm.sleep_days (pipeline.committed (pipeline.session w2))).
Proof.
  intros Hrun Hq Hle. unfold pipeline.ingest_sleep_data in Hrun |- *.
  destruct (adapters.get_adapter rt source) as [parse|] eqn:Hget; [|discriminate].
  cbn [mbind option_bind] in *. cbv zeta in *.
  cbn [repository.store_raw_response] in *.
  match type of Hrun with
  | context [parse raw_payload patient ?n now] =>
      destruct (parse raw_payload patient n now) as [ds|] eqn:Hparse;
        [|injection Hrun as <- <-; discriminate Hq];
      match goal with
      | |- context [parse raw_payload patient ?n' now'] =>
          pose proof (rerun_facts.parse_nights rt source parse raw_payload patient
                        n now n' now' Hget) as Hn;
          rewrite Hparse in Hn;
          destruct (parse raw_payload patient n' now') as [ds'|];
            [|discriminate Hn]
      end
  end.
  cbn [option_map] in Hn. injection Hn as Hn.
  match type of Hrun with
  | context [pipeline.ingest_records ?t ?n ?s ?p ?rid ?days ?w0 ?r0] =>
      destruct (pipeline.ingest_records t n s p rid days w0 r0)
        as [[wl rl]|] eqn:Hloop; [|discriminate]
  end.
  injection Hrun as <- <-.
  destruct (rerun_facts.clean_loop _ _ _ _ _ _ _ _ _ _ Hloop Hq)
    as (Hall & Hcount & added & Hrows & Hadded).
  assert (Hlen : length ds' = length ds).
  { apply (f_equal (@length _)) in Hn. now rewrite !length_map in Hn. }
  match goal with
  | |- context [pipeline.ingest_records ?t ?n ?s ?p ?rid ds' ?w0 ?r0] =>
      destruct (rerun_facts.rerun_loop t n s p rid ds' w0 r0)
        as (w2 & r2 & more & Hloop2 & Hc2 & Hrows2 & Hp & Hi & Hu & Hq2 & Hres & Hmore)
  end.
  { pose (rows := orm.sleep_days (pipeline.pending (pipeline.session wl))).
    apply (List.Forall_impl
             (P := fun d => rerun_facts.ready today' rows (rerun_facts.night d)));
      [intros d H; exact H|].
    apply (proj1 (List.Forall_map rerun_facts.night
                    (rerun_facts.ready today' rows) ds')).
    rewrite Hn.
    apply (proj2 (List.Forall_map rerun_facts.night
                    (rerun_facts.ready today' rows) ds)).
    eapply List.Forall_impl; [|exact Hall].
    intros d (Hv & Hc & Hin). split; [|split; assumption].
    exact (rerun_facts.valid_later today today' _ Hle Hv). }
  rewrite Hloop2. exists (pipeline.with_session w2 (pipeline.commit (pipeline.session w2))), r2.
  split; [reflexivity|].
  cbn [pipeline.records_processed pipeline.records_inserted pipeline.records_updated
       pipeline.records_quarantined pipeline.results pipeline.new_result] in *.
  split; [lia|]. split; [lia|]. split; [lia|]. split; [lia|]. split.
  { rewrite Hres. exact Hmore. }
  cbn [pipeline.session pipeline.with_session pipeline.commit pipeline.committed].
  rewrite Hrows2.
  cbn [pipeline.session pipeline.with_session pipeline.commit pipeline.committed
       pipeline.pending pipeline.draw pipeline.execute orm.sleep_days].
  apply rerun_facts.Forall2_map_self. intros row Hin.
  rewrite <- rerun_facts.settle_nights, Hn, rerun_facts.settle_nights.
  unfold rerun_facts.settle.
  destruct (rerun_facts.last_with ds (orm.fingerprint row)) as [x|] eqn:Hlast;
    [right|now left].
  apply rerun_facts.agrees_at.
  rewrite Hrows in Hin. apply in_app_or in Hin as [Hin | Hin].
  - apply in_map_iff in Hin as (row0 & <- & _).
    rewrite rerun_facts.settle_fingerprint in Hlast.
    unfold rerun_facts.settle. rewrite Hlast. apply rerun_facts.agrees_updated.
  - rewrite List.Forall_forall in Hadded.
    destruct (Hadded row Hin) as (x' & Hx' & Hag).
    rewrite Hlast in Hx'. injection Hx' as <-. exact Hag.
Qed.

Lemma ingest_again_only_touches_witness :
  exists w1 r1 w2 r2,
    pipeline.ingest_sleep_data scenarios.runtime scenarios.fresh 1000
      scenarios.today "oura"
      (scenarios.payload [ scenarios.night "n1" "2024-03-14";
                           scenarios.night "n2" "2024-03-15" ]) 7
    = Some (w1, r1)
    /\ pipeline.records_inserted r1 = 2
    /\ pipeline.ingest_sleep_data scenarios.runtime w1 2000
         (datetime.Date 2024 3 21) "oura"
         (scenarios.payload [ scenarios.night "n1" "2024-03-14";
                              scenarios.night "n2" "2024-03-15" ]) 7
       = Some (w2, r2)
    /\ pipeline.records_inserted r2 = 0
    /\ pipeline.records_updated r2 = 2.
Proof.
  assert (Hrun : exists w1 r1,
             pipeline.ingest_sleep_data scenarios.runtime scenarios.fresh 1000
               scenarios.today "oura"
               (scenarios.payload [ scenarios.night "n1" "2024-03-14";
                                    scenarios.night "n2" "2024-03-15" ]) 7
             = Some (w1, r1)
             /\ pipeline.records_inserted r1 = 2
             /\ pipeline.records_processed r1 = 2
             /\ pipeline.records_quarantined r1 = 0)
    by (eexists; eexists; vm_compute; repeat split; reflexivity).
  destruct Hrun as (w1 & r1 & Hrun & Hins & Hproc & Hq).
  destruct (ingest_again_only_touches scenarios.runtime scenarios.fresh 1000
              scenarios.today "oura"
              (scenarios.payload [ scenarios.night "n1" "2024-03-14";
                                   scenarios.night "n2" "2024-03-15" ]) 7
              w1 r1 2000 (datetime.Date 2024 3 21) Hrun Hq eq_refl)
    as (w2 & r2 & Hrun2 & _ & Hi & Hu & _).
  exists w1, r1, w2, r2. rewrite Hproc in Hu. repeat split; assumption.
Defined.
